(** * Tenant-partitioned SQLite store and RAG knowledge manager

    A shallow embedding of
    - [packages/adapter-sqlite/src/multiUserAdapter.ts]
      ([MultiUserSqliteDatabaseAdapter] and [BaseSqliteAdapter]), and
    - the knowledge manager [RAGKnowledgeManager]
    together with the properties stated about them.

    Conventions.
    - SQL tables are lists of rows in storage order; a [DELETE ... WHERE]
      is a [filter], a [SELECT ... ORDER BY ... LIMIT] is a filter followed
      by a stable sort and a prefix.  A [SELECT] without [ORDER BY] returns
      its rows in an order SQL leaves to the query plan: the connection
      carries that order.  The [cache] table, whose primary key is
      [(key, agentId)], is a finite map.
    - An embedding is kept in a [BLOB] column as the bytes of a
      [Float32Array]; what reads it back with [new Float32Array(buffer)]
      gets one number per byte.
    - The JSON text held in [knowledge.content] is kept as the record it
      serializes, and [json_extract] is field access.
    - A JavaScript exception is a value [Throw e] of the [result] type,
      [e] carrying the [code] and [message] fields the source inspects;
      methods that change the store return the outcome and the new store.
    - Strings are ASCII strings: [toLowerCase], [lower], [LIKE] and the
      class [\s] are the ASCII ones.
    - Scores are exact rationals.  The distance function of the vector
      extension is a component of the connection (absent when the
      extension did not register it), as are the engine faults a
      transaction may meet.
    - [embed], [splitChunks], [stringToUuid] and the [KnowledgeScope]
      constants belong to modules of the core package other than the
      manager's and are fields of [Manager.Core]. *)

From Stdlib Require Import List String Ascii ZArith QArith Qabs Bool Lia Lqa Sorted.
From Stdlib Require SpecFloat.
From stdpp Require Import gmap strings pretty.
Import ListNotations.
Local Open Scope string_scope.
Local Open Scope list_scope.

Set Default Proof Using "Type".

(** ** JavaScript errors and results *)

Record JsError := mkError { code : string; message : string }.

Inductive result (A : Type) : Type :=
| Ok (a : A)
| Throw (e : JsError).
Arguments Ok {A} a.
Arguments Throw {A} e.

Definition bind {A B} (r : result A) (k : A -> result B) : result B :=
  match r with
  | Ok a => k a
  | Throw e => Throw e
  end.

(** [try { body } catch (error) { handler }] *)
Definition try_catch {A} (body : result A) (handler : JsError -> result A)
  : result A :=
  match body with
  | Ok a => Ok a
  | Throw e => handler e
  end.

(** ** Strings *)

Module Str.

(** [hay.includes(needle)] *)
Fixpoint includes (needle hay : string) : bool :=
  String.prefix needle hay
  || match hay with
     | EmptyString => false
     | String _ hay' => includes needle hay'
     end.

Definition lower_ascii (c : ascii) : ascii :=
  let n := nat_of_ascii c in
  if (65 <=? n)%nat && (n <=? 90)%nat then ascii_of_nat (n + 32) else c.

(** [s.toLowerCase()], also SQL [lower(s)] *)
Fixpoint toLowerCase (s : string) : string :=
  match s with
  | EmptyString => EmptyString
  | String c s' => String (lower_ascii c) (toLowerCase s')
  end.

(** Column and table names compare without regard to ASCII case. *)
Definition eqb_nocase (a b : string) : bool :=
  String.eqb (toLowerCase a) (toLowerCase b).

(** [s.replace(from, to)] with a one-character string pattern: only the
    first occurrence is replaced. *)
Fixpoint replace_first (from : ascii) (to : string) (s : string) : string :=
  match s with
  | EmptyString => EmptyString
  | String c s' =>
      if Ascii.eqb c from then to ++ s'
      else String c (replace_first from to s')
  end.

End Str.

(** ** Goals table migration ([migrateGoalsTable]) *)

Module Goals.

(** The default agent id written by the migration. *)
Definition DEFAULT_UUID : string := "00000000-0000-0000-0000-000000000000".

(** All goals columns are declared [TEXT]; a cell is [NULL] or a text. *)
Definition cell := option string.

Record Table := mkTable {
  cols : list string;          (* PRAGMA table_info order *)
  rows : list (list cell)      (* one cell per column, in column order *)
}.

(** An attached partition: its [goals] table and, possibly, a
    [goals_new] table left behind by an interrupted migration. *)
Record Partition := mkPartition {
  goals : Table;
  goals_new : option Table
}.

Definition sql_error (msg : string) : JsError :=
  {| code := "SQLITE_ERROR"; message := msg |}.
Definition constraint_error (c msg : string) : JsError :=
  {| code := c; message := msg |}.

Definition has_column (name : string) (t : Table) : bool :=
  existsb (Str.eqb_nocase name) (cols t).

(** [ALTER TABLE goals ADD COLUMN name TEXT]: the column is appended
    after the existing ones and reads [NULL] in every existing row. *)
Definition alter_add_column (name : string) (t : Table) : result Table :=
  if has_column name t
  then Throw (sql_error ("duplicate column name: " ++ name))
  else Ok {| cols := cols t ++ [name];
             rows := map (fun r => r ++ [None]) (rows t) |}.

Fixpoint column_index (name : string) (cs : list string) : option nat :=
  match cs with
  | [] => None
  | c :: cs' =>
      if Str.eqb_nocase name c then Some 0%nat
      else option_map S (column_index name cs')
  end.

Fixpoint set_nth_if_null (i : nat) (v : cell) (r : list cell) : list cell :=
  match r, i with
  | [], _ => []
  | c :: r', O => (match c with None => v | Some _ => c end) :: r'
  | c :: r', S i' => c :: set_nth_if_null i' v r'
  end.

(** [UPDATE goals SET name = v WHERE name IS NULL] *)
Definition update_where_null (name v : string) (t : Table) : Table :=
  match column_index name (cols t) with
  | None => t
  | Some i =>
      {| cols := cols t;
         rows := map (set_nth_if_null i (Some v)) (rows t) |}
  end.

(** The schema of [goals_new]: [id TEXT PRIMARY KEY] and six
    [TEXT NOT NULL] columns. *)
Definition goals_new_cols : list string :=
  ["id"; "roomId"; "userId"; "agentId"; "name"; "status"; "objectives"].

Definition not_null_ok (r : list cell) : bool :=
  match r with
  | [] => true
  | _ :: rest => forallb (fun c => match c with Some _ => true | None => false end) rest
  end.

Definition cell_eqb (a b : cell) : bool :=
  match a, b with
  | Some x, Some y => String.eqb x y
  | _, _ => false          (* NULL is distinct from everything *)
  end.

Definition key_of (r : list cell) : cell := hd None r.

(** One row of [INSERT INTO goals_new SELECT * FROM goals]: values are
    assigned to the target columns by position. *)
Definition insert_row (acc : list (list cell)) (r : list cell)
  : result (list (list cell)) :=
  if negb (not_null_ok r) then
    Throw (constraint_error "SQLITE_CONSTRAINT_NOTNULL" "NOT NULL constraint failed")
  else if existsb (fun r' => cell_eqb (key_of r') (key_of r)) acc then
    Throw (constraint_error "SQLITE_CONSTRAINT_PRIMARYKEY" "UNIQUE constraint failed: goals_new.id")
  else Ok (acc ++ [r]).

Fixpoint insert_rows (acc : list (list cell)) (rs : list (list cell))
  : result (list (list cell)) :=
  match rs with
  | [] => Ok acc
  | r :: rs' => bind (insert_row acc r) (fun acc' => insert_rows acc' rs')
  end.

(** [INSERT INTO goals_new SELECT * FROM goals] *)
Definition insert_select_star (src : Table) : result Table :=
  if negb (length (cols src) =? length goals_new_cols)%nat then
    Throw (sql_error "table goals_new has 7 columns but a different number of values were supplied")
  else
    bind (insert_rows [] (rows src))
         (fun rs => Ok {| cols := goals_new_cols; rows := rs |}).

(** [migrateGoalsTable(dbName)].  The two [db.exec] scripts are not
    wrapped in a transaction: a statement that fails leaves the effect
    of the earlier ones in place, and the error is re-thrown. *)
Definition migrateGoalsTable (db : Partition) : result unit * Partition :=
  let tableInfo := cols (goals db) in
  let hasAgentId := existsb (String.eqb "agentId") tableInfo in
  if hasAgentId then (Ok tt, db)
  else
    match alter_add_column "agentId" (goals db) with
    | Throw e => (Throw e, db)
    | Ok t1 =>
        let t2 := update_where_null "agentId" DEFAULT_UUID t1 in
        match goals_new db with
        | Some g =>
            (Throw (sql_error "table goals_new already exists"),
             {| goals := t2; goals_new := Some g |})
        | None =>
            match insert_select_star t2 with
            | Throw e =>
                (Throw e,
                 {| goals := t2;
                    goals_new := Some {| cols := goals_new_cols; rows := [] |} |})
            | Ok tnew => (Ok tt, {| goals := tnew; goals_new := None |})
            end
        end
    end.

(** [SELECT name FROM goals] for one row: the cell under a column. *)
Definition field (t : Table) (name : string) (r : list cell) : cell :=
  match column_index name (cols t) with
  | Some i => nth i r None
  | None => None
  end.

(** A partition created before the [agentId] column existed. *)
Definition legacy_cols : list string :=
  ["id"; "roomId"; "userId"; "name"; "status"; "objectives"].

Definition legacy_row : list cell :=
  [Some "g1"; Some "r1"; Some "u1"; Some "Sell 10 items";
   Some "IN_PROGRESS"; Some "[]"].

Definition legacy_partition : Partition :=
  {| goals := {| cols := legacy_cols; rows := [legacy_row] |};
     goals_new := None |}.

End Goals.

(** ** Generic SQL pieces *)

Module Sql.

(** [s LIKE p]: [%] matches any run of characters, [_] any single
    character, every other character matches itself without regard to
    ASCII case.  No escape character is declared in the source. *)
Fixpoint like (p s : string) : bool :=
  match p with
  | EmptyString => match s with EmptyString => true | _ => false end
  | String c p' =>
      if Ascii.eqb c "%" then
        (fix any (s : string) : bool :=
           like p' s
           || match s with
              | EmptyString => false
              | String _ s' => any s'
              end) s
      else if Ascii.eqb c "_" then
        match s with
        | EmptyString => false
        | String _ s' => like p' s'
        end
      else
        match s with
        | EmptyString => false
        | String d s' =>
            Ascii.eqb (Str.lower_ascii c) (Str.lower_ascii d) && like p' s'
        end
  end.

(** [ORDER BY]: insertion sort, stable with respect to storage order. *)
Section Sorting.
Context {A : Type} (le : A -> A -> bool).

Fixpoint insert_sorted (x : A) (l : list A) : list A :=
  match l with
  | [] => [x]
  | y :: l' => if le x y then x :: y :: l' else y :: insert_sorted x l'
  end.

Fixpoint order_by (l : list A) : list A :=
  match l with
  | [] => []
  | x :: l' => insert_sorted x (order_by l')
  end.
End Sorting.

(** [LIMIT n]; a negative bound means no bound. *)
Definition limit {A} (n : Z) (l : list A) : list A :=
  if (n <? 0)%Z then l else firstn (Z.to_nat n) l.

(** [x = ?] on a nullable text column: [NULL = ?] is not true. *)
Definition text_eq (x : option string) (v : string) : bool :=
  match x with
  | Some s => String.eqb s v
  | None => false
  end.

End Sql.

(** ** Float32Array and Buffer *)

Module Float32.

Import SpecFloat.

(** [Math.fround(q)]: the nearest binary32 value, ties to even. *)
Definition fround (q : Q) : spec_float :=
  match Qnum q with
  | Z0 => S754_zero false
  | Zpos n =>
      SFdiv 24 128 (S754_finite false n 0) (S754_finite false (Qden q) 0)
  | Zneg n =>
      SFdiv 24 128 (S754_finite true n 0) (S754_finite false (Qden q) 0)
  end.

(** The 32-bit pattern of a binary32 value: sign, biased exponent,
    fraction. *)
Definition bits (x : spec_float) : Z :=
  match x with
  | S754_zero s => if s then 2147483648 else 0
  | S754_infinity s => (if s then 2147483648 else 0) + 2139095040
  | S754_nan => 2143289344
  | S754_finite s m e =>
      (if s then 2147483648 else 0)
      + (if 8388608 <=? Zpos m
         then (e + 150) * 8388608 + (Zpos m - 8388608)
         else Zpos m)
  end%Z.

(** The four bytes of a 32-bit pattern, least significant first. *)
Definition bytes (w : Z) : list Z :=
  [w mod 256; (w / 256) mod 256; (w / 65536) mod 256;
   (w / 16777216) mod 256]%Z.

(** The bytes a [Float32Array] binds to a [BLOB] parameter. *)
Definition to_buffer (e : list Q) : list Z :=
  flat_map (fun q => bytes (bits (fround q))) e.

(** [new Float32Array(buffer)] on a [Buffer]: a typed array built from
    another takes its elements one by one, so every byte becomes a
    number. *)
Definition of_buffer (buffer : list Z) : list Q := map inject_Z buffer.

End Float32.

(** ** The record store ([BaseSqliteAdapter], [MultiUserSqliteDatabaseAdapter]) *)

Module Store.

Definition UUID := string.

(** A [Float32Array]. *)
Definition Embedding := list Q.

(** [content.metadata]: an open bag of which the store reads these keys;
    a key that is absent (or [undefined]) is [None]. *)
Record Metadata := mkMetadata {
  source : option string;
  doc_type : option string;
  isShared : option bool;
  isMain : option bool;
  isChunk : option bool;
  originalId : option string;
  chunkIndex : option Z
}.

Record Content := mkContent {
  text : string;
  metadata : Metadata
}.

(** [RAGKnowledgeItem], both as an argument of [createKnowledge] and as
    an element of a search result. *)
Record RAGKnowledgeItem := mkItem {
  id : UUID;
  agentId : option UUID;
  content : Content;
  embedding : option Embedding;
  createdAt : option Z;
  similarity : option Q;
  userId : option UUID
}.

(** A row of the [knowledge] table.  [col_content] stands for the JSON
    text [JSON.stringify(knowledge.content)]; [json_extract] on it is
    field access. *)
Record Row := mkRow {
  col_id : string;
  col_agentId : option string;
  col_content : Content;
  col_embedding : option Embedding;
  col_createdAt : Z;
  col_isMain : Z;
  col_originalId : option string;
  col_chunkIndex : option Z;
  col_isShared : Z
}.

(** The connection: the shared [knowledge] table, the [knowledge] table
    of every tenant partition, the [cache] table with its primary key
    [(key, agentId)], the [vec_distance_L2] function when the vector
    extension registered it, and the order in which the engine's plan
    visits rows: a [SELECT] without [ORDER BY] returns its rows as
    [Sql.order_by scan_order] arranges them, whatever [scan_order] is. *)
Record Db := mkDb {
  knowledge : list Row;
  user_knowledge : gmap string (list Row);
  cache : gmap (string * string) string;
  vec_distance_L2 : option (option Embedding -> Embedding -> result Q);
  scan_order : Row -> Row -> bool
}.

Definition set_knowledge (db : Db) (tbl : list Row) : Db :=
  {| knowledge := tbl; user_knowledge := user_knowledge db;
     cache := cache db; vec_distance_L2 := vec_distance_L2 db;
     scan_order := scan_order db |}.

Definition set_user_knowledge (db : Db) (u : string) (tbl : list Row) : Db :=
  {| knowledge := knowledge db;
     user_knowledge := <[u := tbl]> (user_knowledge db);
     cache := cache db; vec_distance_L2 := vec_distance_L2 db;
     scan_order := scan_order db |}.

Definition set_cache (db : Db) (c : gmap (string * string) string) : Db :=
  {| knowledge := knowledge db; user_knowledge := user_knowledge db;
     cache := c; vec_distance_L2 := vec_distance_L2 db;
     scan_order := scan_order db |}.

(** The [knowledge] table of a tenant partition; a partition that was
    never referenced is created with empty tables. *)
Definition user_table (db : Db) (u : string) : list Row :=
  match user_knowledge db !! u with
  | Some tbl => tbl
  | None => []
  end.

(** *** JavaScript truthiness *)

Definition truthy_bool (b : option bool) : bool :=
  match b with Some true => true | _ => false end.
Definition truthy_str (s : option string) : bool :=
  match s with Some s => negb (String.eqb s "") | None => false end.
Definition truthy_num (n : option Z) : bool :=
  match n with Some n => negb (n =? 0)%Z | None => false end.

(** [x || null] *)
Definition str_or_null (s : option string) : option string :=
  if truthy_str s then s else None.
Definition num_or_null (n : option Z) : option Z :=
  if truthy_num n then n else None.

(** *** createKnowledge *)

Definition pk_error : JsError :=
  {| code := "SQLITE_CONSTRAINT_PRIMARYKEY";
     message := "UNIQUE constraint failed: knowledge.id" |}.

(** [INSERT INTO knowledge (...) VALUES (...)] under [id TEXT PRIMARY KEY]. *)
Definition insert_knowledge (r : Row) (tbl : list Row) : result (list Row) :=
  if existsb (fun r' => String.eqb (col_id r') (col_id r)) tbl
  then Throw pk_error
  else Ok (tbl ++ [r]).

(** The values bound by [createKnowledge]; [now] is [Date.now()]. *)
Definition row_of_item (knowledge : RAGKnowledgeItem) (now : Z) : Row :=
  let metadata := metadata (content knowledge) in
  let isShared := if truthy_bool (isShared metadata) then 1%Z else 0%Z in
  {| col_id := id knowledge;
     col_agentId :=
       if truthy_bool (Store.isShared metadata) then None else agentId knowledge;
     col_content := content knowledge;
     col_embedding := embedding knowledge;
     col_createdAt :=
       if truthy_num (createdAt knowledge)
       then match createdAt knowledge with Some t => t | None => now end
       else now;
     col_isMain := if truthy_bool (isMain metadata) then 1%Z else 0%Z;
     col_originalId := str_or_null (originalId metadata);
     col_chunkIndex := num_or_null (chunkIndex metadata);
     col_isShared := isShared |}.

Definition createKnowledge (knowledge : RAGKnowledgeItem) (now : Z) (db : Db)
  : result unit * Db :=
  match insert_knowledge (row_of_item knowledge now) (Store.knowledge db) with
  | Ok tbl => (Ok tt, set_knowledge db tbl)
  | Throw error =>
      let isShared := truthy_bool (isShared (metadata (content knowledge))) in
      let isPrimaryKeyError :=
        String.eqb (code error) "SQLITE_CONSTRAINT_PRIMARYKEY" in
      if isShared && isPrimaryKeyError then (Ok tt, db)
      else if negb isShared
              && negb (Str.includes "SQLITE_CONSTRAINT_PRIMARYKEY" (message error))
      then (Throw error, db)
      else (Ok tt, db)
  end.

(** *** removeKnowledge *)

(** Statements of a transaction run against the table and may fail for
    reasons of the engine's own (I/O, lock, full disk): [io n] is the
    error, if any, that the engine raises at the [n]-th statement. *)
Definition Stmt (A : Type) := list Row -> result A * list Row.

Definition stmt_bind {A B} (m : Stmt A) (k : A -> Stmt B) : Stmt B :=
  fun tbl =>
    match m tbl with
    | (Ok a, tbl') => k a tbl'
    | (Throw e, tbl') => (Throw e, tbl')
    end.

Definition stmt_ret {A} (a : A) : Stmt A := fun tbl => (Ok a, tbl).

(** [DELETE FROM knowledge WHERE p]; the value is [result.changes]. *)
Definition delete_where (fault : option JsError) (p : Row -> bool) : Stmt nat :=
  fun tbl =>
    match fault with
    | Some e => (Throw e, tbl)
    | None =>
        (Ok (length (List.filter p tbl)),
         List.filter (fun r => negb (p r)) tbl)
    end.

(** [SELECT id FROM knowledge WHERE p] *)
Definition select_where (fault : option JsError) (p : Row -> bool)
  : Stmt (list string) :=
  fun tbl =>
    match fault with
    | Some e => (Throw e, tbl)
    | None => (Ok (map col_id (List.filter p tbl)), tbl)
    end.

(** [this.db.transaction(fn)()]: commit when [fn] returns, roll back to
    the state at [BEGIN] and re-throw when it throws. *)
Definition transaction {A} (fn : Stmt A) : Stmt A :=
  fun tbl =>
    match fn tbl with
    | (Ok a, tbl') => (Ok a, tbl')
    | (Throw e, _) => (Throw e, tbl)
    end.

Definition has_id (id : string) (r : Row) : bool := String.eqb (col_id r) id.

(** [json_extract(content, '$.metadata.originalId') = ?] *)
Definition chunk_of (id : string) (r : Row) : bool :=
  Sql.text_eq (originalId (metadata (col_content r))) id.

(** The function passed to [transaction] by both [removeKnowledge]
    methods; they differ only in the table it runs against. *)
Definition removeKnowledge_body (io : nat -> option JsError) (id : string)
  : Stmt nat :=
  if Str.includes "*" id then
    let pattern := Str.replace_first "*" "%" id in
    delete_where (io 0%nat) (fun r => Sql.like pattern (col_id r))
  else
    stmt_bind (select_where (io 0%nat) (has_id id)) (fun mainEntry =>
    stmt_bind (select_where (io 1%nat) (chunk_of id)) (fun chunks =>
    stmt_bind (delete_where (io 2%nat) (chunk_of id)) (fun chunkResult =>
    stmt_bind (delete_where (io 3%nat) (has_id id)) (fun mainResult =>
    stmt_ret (chunkResult + mainResult)%nat)))).

(** [BaseSqliteAdapter.removeKnowledge(id)] *)
Definition base_removeKnowledge (io : nat -> option JsError) (id : UUID)
  (db : Db) : result unit * Db :=
  match transaction (removeKnowledge_body io id) (knowledge db) with
  | (Ok _, tbl) => (Ok tt, set_knowledge db tbl)
  | (Throw error, tbl) => (Throw error, set_knowledge db tbl)
  end.

(** [MultiUserSqliteDatabaseAdapter.removeKnowledge(id, userId)] *)
Definition removeKnowledge (io : nat -> option JsError) (id : UUID)
  (userId : option UUID) (db : Db) : result unit * Db :=
  match userId with
  | Some u =>
      if String.eqb u "" then base_removeKnowledge io id db
      else
        match transaction (removeKnowledge_body io id) (user_table db u) with
        | (Ok _, tbl) => (Ok tt, set_user_knowledge db u tbl)
        | (Throw error, tbl) => (Throw error, set_user_knowledge db u tbl)
        end
  | None => base_removeKnowledge io id db
  end.

(** *** clearKnowledge *)

Definition clear_where (agentId : UUID) (shared : bool) (r : Row) : bool :=
  if shared
  then Sql.text_eq (col_agentId r) agentId || (col_isShared r =? 1)%Z
  else Sql.text_eq (col_agentId r) agentId.

(** [BaseSqliteAdapter.clearKnowledge(agentId, shared)] *)
Definition base_clearKnowledge (agentId : UUID) (shared : bool) (db : Db)
  : result unit * Db :=
  (Ok tt,
   set_knowledge db
     (List.filter (fun r => negb (clear_where agentId shared r)) (knowledge db))).

(** [MultiUserSqliteDatabaseAdapter.clearKnowledge(agentId, shared, userId)] *)
Definition clearKnowledge (agentId : UUID) (shared : bool)
  (userId : option UUID) (db : Db) : result unit * Db :=
  match userId with
  | Some u =>
      if String.eqb u "" then base_clearKnowledge agentId shared db
      else
        (Ok tt,
         set_user_knowledge db u
           (List.filter (fun r => negb (clear_where agentId shared r))
              (user_table db u)))
  | None => base_clearKnowledge agentId shared db
  end.

(** The [knowledge] table a call carrying [userId] is routed to: the
    shared one when [userId] is absent (or empty), the tenant's otherwise. *)
Definition routed_table (userId : option UUID) (db : Db) : list Row :=
  match userId with
  | Some u => if String.eqb u "" then knowledge db else user_table db u
  | None => knowledge db
  end.

(** In a table, every row flagged [isShared = 1] has a [NULL] owner. *)
Definition shared_unowned (tbl : list Row) : Prop :=
  Forall (fun r => col_isShared r = 1%Z -> col_agentId r = None) tbl.

Definition store_inv (db : Db) : Prop :=
  shared_unowned (knowledge db)
  /\ forall u tbl, user_knowledge db !! u = Some tbl -> shared_unowned tbl.

(** *** getKnowledge (direct lookup and listing) *)

(** [getKnowledge({id, agentId, limit})]:
    [SELECT * FROM knowledge WHERE (agentId = ? OR isShared = 1)
     [AND id = ?] [LIMIT ?]].  The statement has no [ORDER BY]: the rows
    come, and [LIMIT] cuts them, in the order of the engine's plan. *)
Definition getKnowledge (id : option UUID) (agentId : UUID) (limit : option Z)
  (db : Db) : list Row :=
  let selected :=
    Sql.order_by (scan_order db)
      (List.filter
         (fun r =>
            (Sql.text_eq (col_agentId r) agentId || (col_isShared r =? 1)%Z)
            && (if truthy_str id
                then String.eqb (col_id r)
                       (match id with Some i => i | None => "" end)
                else true))
         (knowledge db)) in
  if truthy_num limit
  then Sql.limit (match limit with Some n => n | None => 0%Z end) selected
  else selected.

(** *** Cache *)

(** [getCache({key, agentId})]:
    [SELECT value FROM cache WHERE (key = ? AND agentId = ?)] *)
Definition getCache (key : string) (agentId : UUID) (db : Db) : option string :=
  cache db !! (key, agentId).

(** [setCache({key, agentId, value})]: [INSERT OR REPLACE INTO cache] *)
Definition setCache (key : string) (agentId : UUID) (value : string) (db : Db)
  : Db :=
  set_cache db (<[(key, agentId) := value]> (cache db)).

(** *** searchKnowledge *)

Record SearchParams := mkSearchParams {
  sp_agentId : UUID;
  sp_embedding : Embedding;
  match_threshold : Q;
  match_count : Z;
  searchText : option string;
  sp_userId : option UUID
}.

(** A template literal prints an absent value as [undefined]. *)
Definition template (s : option string) : string :=
  match s with Some s => s | None => "undefined" end.

Definition cacheKey (params : SearchParams) : string :=
  "embedding_" ++ sp_agentId params ++ "_" ++ template (searchText params).

(** [(agentId IS NULL AND isShared = 1) OR agentId = ? AND embedding IS NOT NULL]:
    [AND] binds tighter than [OR]. *)
Definition vector_scope (agentId : UUID) (r : Row) : bool :=
  (match col_agentId r with None => true | Some _ => false end
   && (col_isShared r =? 1)%Z)
  || (Sql.text_eq (col_agentId r) agentId
      && match col_embedding r with Some _ => true | None => false end).

(** [(agentId IS NULL AND isShared = 1) OR agentId = ?] *)
Definition keyword_scope (agentId : UUID) (r : Row) : bool :=
  (match col_agentId r with None => true | Some _ => false end
   && (col_isShared r =? 1)%Z)
  || Sql.text_eq (col_agentId r) agentId.

(** [1 / (1 + vec_distance_L2(embedding, ?))] *)
Definition vector_score_of (distance : Q) : Q := 1 / (1 + distance).

(** The [keyword_score] column of [keyword_matches]; [pattern] is the
    bound [LIKE] pattern. *)
Definition keyword_score_of (pattern : string) (r : Row) : Q :=
  (if Sql.like pattern (Str.toLowerCase (text (col_content r)))
   then 3 else 1)
  *
  (if truthy_bool (isChunk (metadata (col_content r))) then 3 # 2
   else if truthy_bool (isMain (metadata (col_content r))) then 6 # 5
   else 1).

Record Scored := mkScored {
  sc_row : Row;
  vector_score : Q;
  keyword_score : Q
}.

Definition combined_score (s : Scored) : Q := vector_score s * keyword_score s.

(** The join of [knowledge] with [vector_scores] and [keyword_matches]
    on the primary key: one scored row per row of [vector_scores].  The
    distance function is evaluated on each of them and an error it
    raises aborts the statement. *)
Fixpoint scored_rows (dist : option Embedding -> Embedding -> result Q)
  (query : Embedding) (agentId : UUID) (pattern : string) (tbl : list Row)
  : result (list Scored) :=
  match tbl with
  | [] => Ok []
  | r :: tbl' =>
      if vector_scope agentId r then
        bind (dist (col_embedding r) query) (fun d =>
        bind (scored_rows dist query agentId pattern tbl') (fun rest =>
        Ok ({| sc_row := r;
               vector_score := vector_score_of d;
               keyword_score := keyword_score_of pattern r |} :: rest)))
      else scored_rows dist query agentId pattern tbl'
  end.

(** The outer [WHERE]:
    [(k.agentId IS NULL AND k.isShared = 1) OR k.agentId = ?
       AND (v.vector_score >= ? OR (kw.keyword_score > 1.0 AND v.vector_score >= 0.3))] *)
Definition search_where (agentId : UUID) (threshold : Q) (s : Scored) : bool :=
  (match col_agentId (sc_row s) with None => true | Some _ => false end
   && (col_isShared (sc_row s) =? 1)%Z)
  || (Sql.text_eq (col_agentId (sc_row s)) agentId
      && (Qle_bool threshold (vector_score s)
          || (negb (Qle_bool (keyword_score s) 1)
              && Qle_bool (3 # 10) (vector_score s)))).

(** [ORDER BY combined_score DESC] *)
Definition by_combined_desc (a b : Scored) : bool :=
  Qle_bool (combined_score b) (combined_score a).

(** [row.embedding ? new Float32Array(row.embedding) : undefined]: the
    column holds the bytes of the stored vector, and the array built from
    that [Buffer] has one element per byte. *)
Definition read_embedding (stored : option Embedding) : option Embedding :=
  match stored with
  | Some e => Some (Float32.of_buffer (Float32.to_buffer e))
  | None => None
  end.

Definition item_of_scored (s : Scored) : RAGKnowledgeItem :=
  {| id := col_id (sc_row s);
     agentId := col_agentId (sc_row s);
     content := col_content (sc_row s);
     embedding := read_embedding (col_embedding (sc_row s));
     createdAt := Some (col_createdAt (sc_row s));
     similarity := Some (combined_score s);
     userId := None |}.

Definition no_such_function : JsError :=
  {| code := "SQLITE_ERROR";
     message := "no such function: vec_distance_L2" |}.

(** The hybrid statement: rows selected, in order, before they are
    mapped to items. *)
Definition hybrid_rows (params : SearchParams) (db : Db) : result (list Scored) :=
  match vec_distance_L2 db with
  | None => Throw no_such_function
  | Some dist =>
      let pattern :=
        ("%" ++ match searchText params with
                | Some s => Str.toLowerCase s
                | None => ""
                end ++ "%")%string in
      bind (scored_rows dist (sp_embedding params) (sp_agentId params)
              pattern (knowledge db))
           (fun scored =>
              Ok (Sql.limit (match_count params)
                    (Sql.order_by by_combined_desc
                       (List.filter
                          (search_where (sp_agentId params)
                             (match_threshold params))
                          scored))))
  end.

Definition hybrid_query (params : SearchParams) (db : Db)
  : result (list RAGKnowledgeItem) :=
  bind (hybrid_rows params db) (fun rows => Ok (map item_of_scored rows)).

(** The fallback statement:
    [WHERE (agentId = ? OR isShared = 1) [AND json_extract(content, '$.text') LIKE ?]] *)
Definition fallback_where (params : SearchParams) (r : Row) : bool :=
  (Sql.text_eq (col_agentId r) (sp_agentId params) || (col_isShared r =? 1)%Z)
  && (if truthy_str (searchText params)
      then Sql.like
             ("%" ++ Str.toLowerCase (template (searchText params)) ++ "%")%string
             (text (col_content r))
      else true).

(** [CASE WHEN json_extract(content, '$.metadata.isMain') = 1 THEN 2 ELSE 1 END] *)
Definition type_priority (r : Row) : Z :=
  if truthy_bool (isMain (metadata (col_content r))) then 2%Z else 1%Z.

(** [ORDER BY <type priority> DESC, createdAt DESC] *)
Definition by_priority_recency (a b : Row) : bool :=
  (type_priority b <? type_priority a)%Z
  || ((type_priority b =? type_priority a)%Z
      && (col_createdAt b <=? col_createdAt a)%Z).

Definition item_of_row (r : Row) : RAGKnowledgeItem :=
  {| id := col_id r;
     agentId := col_agentId r;
     content := col_content r;
     embedding := read_embedding (col_embedding r);
     createdAt := Some (col_createdAt r);
     similarity := None;
     userId := None |}.

Definition fallback_rows (params : SearchParams) (db : Db) : list Row :=
  Sql.limit (match_count params)
    (Sql.order_by by_priority_recency
       (List.filter (fallback_where params) (knowledge db))).

Definition fallback_query (params : SearchParams) (db : Db)
  : list RAGKnowledgeItem :=
  map item_of_row (fallback_rows params db).

Section Json.
(** [JSON.stringify] and [JSON.parse] on result lists. *)
Variable JSON_stringify : list RAGKnowledgeItem -> string.
Variable JSON_parse : string -> result (list RAGKnowledgeItem).

(** [searchKnowledge(params)] *)
Definition searchKnowledge (params : SearchParams) (db : Db)
  : result (list RAGKnowledgeItem) * Db :=
  let cacheKey := cacheKey params in
  let cachedResult := getCache cacheKey (sp_agentId params) db in
  if truthy_str cachedResult then
    (JSON_parse (template cachedResult), db)
  else
    match hybrid_query params db with
    | Ok results =>
        (Ok results,
         setCache cacheKey (sp_agentId params) (JSON_stringify results) db)
    | Throw error =>
        if Str.includes "no such function: vec_distance_L2" (message error)
        then
          let results := fallback_query params db in
          (Ok results,
           setCache cacheKey (sp_agentId params) (JSON_stringify results) db)
        else (Ok [], db)
    end.
End Json.

(** [deleteCache({key, agentId})] of [SqliteDatabaseAdapter]:
    [DELETE FROM cache WHERE key = ? AND agentId = ?], [true] unless the
    statement throws. *)
Definition deleteCache (fault : option JsError) (key : string) (agentId : UUID)
  (db : Db) : bool * Db :=
  match fault with
  | Some _ => (false, db)
  | None => (true, set_cache db (delete (key, agentId) (cache db)))
  end.

End Store.

(** ** Memories ([createMemory], [searchMemoriesByEmbedding]) *)

Module Memories.

Import Store.

Record Memory := mkMemory {
  mem_id : option UUID;
  mem_userId : UUID;
  mem_agentId : UUID;
  mem_roomId : UUID;
  mem_content : string;
  mem_embedding : option Embedding;
  mem_createdAt : option Z
}.

(** A row of the [memories] table. *)
Record MemoryRow := mkMemoryRow {
  m_id : string;
  m_type : string;
  m_content : string;
  m_embedding : option Embedding;
  m_userId : string;
  m_roomId : string;
  m_agentId : string;
  m_unique : Z;
  m_createdAt : Z
}.

Record MemDb := mkMemDb {
  memories : list MemoryRow;
  user_memories : gmap string (list MemoryRow);
  vec_distance_L2 : option (option Embedding -> Embedding -> result Q)
}.

Definition set_memories (db : MemDb) (tbl : list MemoryRow) : MemDb :=
  {| memories := tbl; user_memories := user_memories db;
     vec_distance_L2 := vec_distance_L2 db |}.

Definition user_memories_table (db : MemDb) (u : string) : list MemoryRow :=
  match user_memories db !! u with
  | Some tbl => tbl
  | None => []
  end.

Record EmbeddingSearch := mkEmbeddingSearch {
  es_match_threshold : option Q;
  es_count : option Z;
  es_roomId : option UUID;
  es_agentId : UUID;
  es_unique : option bool;
  es_tableName : string;
  es_userId : option UUID
}.

(** A returned memory: the row and, on the vector path, the selected
    [similarity] column. *)
Record Found := mkFound {
  found_row : MemoryRow;
  found_similarity : option Q
}.

(** [WHERE embedding IS NOT NULL AND type = ? AND agentId = ?
    [AND "unique" = 1] [AND roomId = ?]], shared by both statements. *)
Definition embedding_where (params : EmbeddingSearch) (r : MemoryRow) : bool :=
  match m_embedding r with Some _ => true | None => false end
  && String.eqb (m_type r) (es_tableName params)
  && String.eqb (m_agentId r) (es_agentId params)
  && (if truthy_bool (es_unique params) then (m_unique r =? 1)%Z else true)
  && (if truthy_str (es_roomId params)
      then String.eqb (m_roomId r) (template (es_roomId params))
      else true).

(** [SELECT *, vec_distance_L2(embedding, ?) AS similarity] over the
    selected rows. *)
Fixpoint with_similarity (dist : option Embedding -> Embedding -> result Q)
  (query : Embedding) (rs : list MemoryRow) : result (list Found) :=
  match rs with
  | [] => Ok []
  | r :: rs' =>
      bind (dist (m_embedding r) query) (fun d =>
      bind (with_similarity dist query rs') (fun rest =>
      Ok ({| found_row := r; found_similarity := Some d |} :: rest)))
  end.

(** [ORDER BY similarity DESC] *)
Definition by_similarity_desc (a b : Found) : bool :=
  match found_similarity a, found_similarity b with
  | Some x, Some y => Qle_bool y x
  | _, _ => true
  end.

(** [ORDER BY createdAt DESC] *)
Definition by_recency (a b : MemoryRow) : bool :=
  (m_createdAt b <=? m_createdAt a)%Z.

(** The body shared by the two [searchMemoriesByEmbedding] methods,
    against the table [tbl].  [match_threshold] is not read. *)
Definition searchMemoriesByEmbedding_on
  (dist : option (option Embedding -> Embedding -> result Q))
  (tbl : list MemoryRow) (embedding : Embedding) (params : EmbeddingSearch)
  : result (list Found) :=
  try_catch
    (match dist with
     | None => Throw no_such_function
     | Some d =>
         bind (with_similarity d embedding
                 (List.filter (embedding_where params) tbl))
              (fun found =>
                 let sorted := Sql.order_by by_similarity_desc found in
                 Ok (if truthy_num (es_count params)
                     then Sql.limit
                            (match es_count params with Some n => n | None => 0%Z end)
                            sorted
                     else sorted))
     end)
    (fun error =>
       if Str.includes "no such function: vec_distance_L2" (message error)
       then
         Ok (map (fun r => {| found_row := r; found_similarity := None |})
               (Sql.limit
                  (if truthy_num (es_count params)
                   then match es_count params with Some n => n | None => 10%Z end
                   else 10%Z)
                  (Sql.order_by by_recency
                     (List.filter (embedding_where params) tbl))))
       else Throw error).

(** [BaseSqliteAdapter.searchMemoriesByEmbedding] *)
Definition base_searchMemoriesByEmbedding (embedding : Embedding)
  (params : EmbeddingSearch) (db : MemDb) : result (list Found) :=
  searchMemoriesByEmbedding_on (vec_distance_L2 db) (memories db)
    embedding params.

Definition getDefaultAgentId : UUID := "00000000-0000-0000-0000-000000000000".

(** [MultiUserSqliteDatabaseAdapter.searchMemoriesByEmbedding] *)
Definition searchMemoriesByEmbedding (embedding : Embedding)
  (params : EmbeddingSearch) (db : MemDb) : result (list Found) :=
  if truthy_str (es_userId params) then
    searchMemoriesByEmbedding_on (vec_distance_L2 db)
      (user_memories_table db (template (es_userId params)))
      embedding params
  else
    base_searchMemoriesByEmbedding embedding
      {| es_match_threshold := es_match_threshold params;
         es_count := es_count params;
         es_roomId := es_roomId params;
         es_agentId :=
           if String.eqb (es_agentId params) "" then getDefaultAgentId
           else es_agentId params;
         es_unique := es_unique params;
         es_tableName := es_tableName params;
         es_userId := es_userId params |}
      db.

(** [new Float32Array(384)] *)
Definition zero_embedding : Embedding := repeat (0 : Q) 384.

(** The flag computed by [createMemory] before the insert. *)
Definition isUnique (memory : Memory) (tableName : string) (db : MemDb)
  : result bool :=
  match mem_embedding memory with
  | Some e =>
      bind (searchMemoriesByEmbedding e
              {| es_match_threshold := Some (95 # 100);
                 es_count := Some 1%Z;
                 es_roomId := Some (mem_roomId memory);
                 es_agentId := mem_agentId memory;
                 es_unique := None;
                 es_tableName := tableName;
                 es_userId := None |}
              db)
           (fun similarMemories =>
              Ok (length similarMemories =? 0)%nat)
  | None => Ok true
  end.

(** [createMemory(memory, tableName)]; [now] is [Date.now()] and [fresh]
    the identifier [v4()] would return. *)
Definition createMemory (memory : Memory) (tableName : string)
  (now : Z) (fresh : UUID) (db : MemDb) : result unit * MemDb :=
  match isUnique memory tableName db with
  | Throw error => (Throw error, db)
  | Ok isUnique =>
      let createdAt :=
        match mem_createdAt memory with Some t => t | None => now end in
      let embeddingValue :=
        match mem_embedding memory with
        | Some e => if (0 <? length e)%nat then e else zero_embedding
        | None => zero_embedding
        end in
      let row :=
        {| m_id := match mem_id memory with Some i => i | None => fresh end;
           m_type := tableName;
           m_content := mem_content memory;
           m_embedding := Some embeddingValue;
           m_userId := mem_userId memory;
           m_roomId := mem_roomId memory;
           m_agentId := mem_agentId memory;
           m_unique := if isUnique then 1%Z else 0%Z;
           m_createdAt := createdAt |} in
      (Ok tt,
       set_memories db
         (List.filter (fun r => negb (String.eqb (m_id r) (m_id row)))
            (memories db) ++ [row]))
  end.

(** [getMemoryById(memoryId)]: [SELECT * FROM memories WHERE id = ?],
    first row or [null]. *)
Definition getMemoryById (memoryId : UUID) (db : MemDb) : option MemoryRow :=
  find (fun r => String.eqb (m_id r) memoryId) (memories db).

(** [removeMemory(memoryId, tableName)]:
    [DELETE FROM memories WHERE type = ? AND id = ?] *)
Definition removeMemory (memoryId : UUID) (tableName : string) (db : MemDb)
  : MemDb :=
  set_memories db
    (List.filter
       (fun r => negb (String.eqb (m_type r) tableName
                       && String.eqb (m_id r) memoryId))
       (memories db)).

(** [removeAllMemories(roomId, tableName)]:
    [DELETE FROM memories WHERE type = ? AND roomId = ?] *)
Definition removeAllMemories (roomId : UUID) (tableName : string) (db : MemDb)
  : MemDb :=
  set_memories db
    (List.filter
       (fun r => negb (String.eqb (m_type r) tableName
                       && String.eqb (m_roomId r) roomId))
       (memories db)).

(** The table a call carrying [userId] reads: the shared one without a
    user id, otherwise the [memories] table of the tenant's partition as
    [executeUserQuery] resolves it (the resolution itself is the subject
    of [Registry]). *)
Definition routed_memories (userId : option UUID) (db : MemDb)
  : list MemoryRow :=
  if truthy_str userId then user_memories_table db (template userId)
  else memories db.

Definition required (what : string) : JsError :=
  {| code := ""; message := (what ++ " is required")%string |}.

(** [countMemories(roomId, unique = true, tableName = "", userId)] *)
Definition countMemories (roomId : UUID) (unique : option bool)
  (tableName : option string) (userId : option UUID) (db : MemDb)
  : result nat :=
  let unique := match unique with Some b => b | None => true end in
  let tableName := match tableName with Some t => t | None => "" end in
  if String.eqb tableName "" then Throw (required "tableName")
  else
    Ok (length
          (List.filter
             (fun r => String.eqb (m_type r) tableName
                       && String.eqb (m_roomId r) roomId
                       && (if unique then (m_unique r =? 1)%Z else true))
             (routed_memories userId db))).

Record MemoriesQuery := mkMemoriesQuery {
  mq_roomId : UUID;
  mq_count : option Z;
  mq_unique : option bool;
  mq_tableName : string;
  mq_agentId : UUID;
  mq_start : option Z;
  mq_end : option Z;
  mq_userId : option UUID
}.

(** [WHERE type = ? AND agentId = ? AND roomId = ? [AND "unique" = 1]
    [AND createdAt >= ?] [AND createdAt <= ?]] *)
Definition memories_where (params : MemoriesQuery) (r : MemoryRow) : bool :=
  String.eqb (m_type r) (mq_tableName params)
  && String.eqb (m_agentId r) (mq_agentId params)
  && String.eqb (m_roomId r) (mq_roomId params)
  && (if truthy_bool (mq_unique params) then (m_unique r =? 1)%Z else true)
  && (if truthy_num (mq_start params)
      then match mq_start params with
           | Some t => (t <=? m_createdAt r)%Z
           | None => true
           end
      else true)
  && (if truthy_num (mq_end params)
      then match mq_end params with
           | Some t => (m_createdAt r <=? t)%Z
           | None => true
           end
      else true).

(** [getMemories(params)] *)
Definition getMemories (params : MemoriesQuery) (db : MemDb)
  : result (list MemoryRow) :=
  if String.eqb (mq_tableName params) "" then Throw (required "tableName")
  else if String.eqb (mq_roomId params) "" then Throw (required "roomId")
  else
    let sorted :=
      Sql.order_by by_recency
        (List.filter (memories_where params)
           (routed_memories (mq_userId params) db)) in
    Ok (if truthy_num (mq_count params)
        then Sql.limit (match mq_count params with Some n => n | None => 0%Z end)
               sorted
        else sorted).

Record MemorySearch := mkMemorySearch {
  ms_tableName : string;
  ms_roomId : UUID;
  ms_agentId : option UUID;
  ms_embedding : Embedding;
  ms_match_threshold : Q;
  ms_match_count : Z;
  ms_unique : bool;
  ms_userId : option UUID
}.

(** [WHERE type = ? AND roomId = ? [AND "unique" = 1] [AND agentId = ?]] *)
Definition search_where (params : MemorySearch) (r : MemoryRow) : bool :=
  String.eqb (m_type r) (ms_tableName params)
  && String.eqb (m_roomId r) (ms_roomId params)
  && (if ms_unique params then (m_unique r =? 1)%Z else true)
  && (if truthy_str (ms_agentId params)
      then String.eqb (m_agentId r) (template (ms_agentId params))
      else true).

(** [ORDER BY similarity ASC] *)
Definition by_similarity_asc (a b : Found) : bool :=
  match found_similarity a, found_similarity b with
  | Some x, Some y => Qle_bool x y
  | _, _ => true
  end.

(** The body shared by the two [searchMemories] methods, against the
    table [tbl].  [match_threshold] is not read. *)
Definition searchMemories_on
  (dist : option (option Embedding -> Embedding -> result Q))
  (tbl : list MemoryRow) (params : MemorySearch) : result (list Found) :=
  try_catch
    (match dist with
     | None => Throw no_such_function
     | Some d =>
         bind (with_similarity d (ms_embedding params)
                 (List.filter (search_where params) tbl))
              (fun found =>
                 Ok (Sql.limit (ms_match_count params)
                       (Sql.order_by by_similarity_asc found)))
     end)
    (fun error =>
       if Str.includes "no such function: vec_distance_L2" (message error)
       then
         Ok (map (fun r => {| found_row := r; found_similarity := None |})
               (Sql.limit (ms_match_count params)
                  (Sql.order_by by_recency
                     (List.filter (search_where params) tbl))))
       else Throw error).

(** [MultiUserSqliteDatabaseAdapter.searchMemories(params)] *)
Definition searchMemories (params : MemorySearch) (db : MemDb)
  : result (list Found) :=
  if truthy_str (ms_userId params) then
    searchMemories_on (vec_distance_L2 db)
      (user_memories_table db (template (ms_userId params))) params
  else
    searchMemories_on (vec_distance_L2 db) (memories db)
      {| ms_tableName := ms_tableName params;
         ms_roomId := ms_roomId params;
         ms_agentId :=
           if truthy_str (ms_agentId params) then ms_agentId params
           else Some getDefaultAgentId;
         ms_embedding := ms_embedding params;
         ms_match_threshold := ms_match_threshold params;
         ms_match_count := ms_match_count params;
         ms_unique := ms_unique params;
         ms_userId := ms_userId params |}.

(** A returned memory that carries a distance. *)
Definition has_distance (f : Found) : Prop :=
  exists d, found_similarity f = Some d.

(** The search [createMemory] runs for the unique flag, as it reaches
    [BaseSqliteAdapter.searchMemoriesByEmbedding]. *)
Definition uniqueness_search (memory : Memory) (tableName : string)
  : EmbeddingSearch :=
  {| es_match_threshold := Some (95 # 100);
     es_count := Some 1%Z;
     es_roomId := Some (mem_roomId memory);
     es_agentId :=
       if String.eqb (mem_agentId memory) "" then getDefaultAgentId
       else mem_agentId memory;
     es_unique := None;
     es_tableName := tableName;
     es_userId := None |}.

End Memories.

(** ** Regular expressions, as far as [preprocess] uses them

    Quantifiers apply to single-character classes only, which is all the
    source needs; groups may be optional or capturing.  Matching is the
    backtracking, leftmost, priority-ordered matching of JavaScript. *)

Module Regex.

#[warnings="-register-all"]
Inductive re : Type :=
| Cls (p : ascii -> bool)                       (* one character of a class *)
| Rep (p : ascii -> bool) (lo : nat) (hi : option nat) (greedy : bool)
| Opt (rs : list re)                            (* [( ... )?] *)
| Cap (n : nat) (rs : list re)                  (* capturing group [n] *)
| Bol                                           (* [^] under the [m] flag *)
| Eol.                                          (* [$] under the [m] flag *)

(** Matcher state: the character before the current position, the
    characters consumed since the match began (most recent first) and
    the captures. *)
Record State := mkState {
  prev : option ascii;
  taken : list ascii;
  caps : list (nat * string)
}.

Definition Res : Type := State * string.
Definition Cont : Type := State -> string -> option Res.

Definition is_line_terminator (c : ascii) : bool :=
  Ascii.eqb c "010" || Ascii.eqb c "013".

Definition step (st : State) (c : ascii) : State :=
  {| prev := Some c; taken := c :: taken st; caps := caps st |}.

Definition string_of_rev (l : list ascii) : string :=
  fold_left (fun acc c => String c acc) l EmptyString.

(** The text consumed between two states of one match attempt. *)
Definition consumed_between (start finish : State) : string :=
  string_of_rev (firstn (length (taken finish) - length (taken start))
                        (taken finish)).

Definition set_cap (n : nat) (v : string) (st : State) : State :=
  {| prev := prev st; taken := taken st; caps := (n, v) :: caps st |}.

Fixpoint get_cap (n : nat) (cs : list (nat * string)) : string :=
  match cs with
  | [] => EmptyString
  | (m, v) :: cs' => if (m =? n)%nat then v else get_cap n cs'
  end.

(** [p{lo,hi}] (greedy) or [p{lo,hi}?] (lazy) followed by [k]. *)
Fixpoint rep (p : ascii -> bool) (greedy : bool) (lo : nat) (hi : option nat)
  (k : Cont) (st : State) (s : string) : option Res :=
  let more :=
    match hi with
    | Some O => None
    | _ =>
        match s with
        | String c s' =>
            if p c
            then rep p greedy (Nat.pred lo) (option_map Nat.pred hi) k
                     (step st c) s'
            else None
        | EmptyString => None
        end
    end in
  match lo with
  | S _ => more
  | O =>
      if greedy
      then match more with Some r => Some r | None => k st s end
      else match k st s with Some r => Some r | None => more end
  end.

Fixpoint exec (r : re) (k : Cont) (st : State) (s : string) : option Res :=
  let seq :=
    fix seq (rs : list re) (k : Cont) : Cont :=
      match rs with
      | [] => k
      | r :: rs' => exec r (seq rs' k)
      end in
  match r with
  | Cls p =>
      match s with
      | String c s' => if p c then k (step st c) s' else None
      | EmptyString => None
      end
  | Rep p lo hi greedy => rep p greedy lo hi k st s
  | Opt rs =>
      match seq rs k st s with
      | Some r => Some r
      | None => k st s
      end
  | Cap n rs =>
      seq rs (fun st' s' => k (set_cap n (consumed_between st st') st') s') st s
  | Bol =>
      match prev st with
      | None => k st s
      | Some c => if is_line_terminator c then k st s else None
      end
  | Eol =>
      match s with
      | EmptyString => k st s
      | String c _ => if is_line_terminator c then k st s else None
      end
  end.

Fixpoint exec_seq (rs : list re) (k : Cont) : Cont :=
  match rs with
  | [] => k
  | r :: rs' => exec r (exec_seq rs' k)
  end.

(** One match attempt anchored at the current position. *)
Definition match_here (rs : list re) (before : option ascii) (s : string)
  : option Res :=
  exec_seq rs (fun st s' => Some (st, s'))
    {| prev := before; taken := []; caps := [] |} s.

(** Replacement templates: text and [$n]. *)
Inductive piece := Txt (t : string) | Group (n : nat).

Fixpoint expand (tpl : list piece) (cs : list (nat * string)) : string :=
  match tpl with
  | [] => EmptyString
  | Txt t :: tpl' => (t ++ expand tpl' cs)%string
  | Group n :: tpl' => (get_cap n cs ++ expand tpl' cs)%string
  end.

(** [s.replace(/rs/g, tpl)].  [skip] counts the characters of the
    subject still covered by the previous match. *)
Fixpoint replace_from (rs : list re) (tpl : list piece)
  (before : option ascii) (skip : nat) (s : string) : string :=
  match skip with
  | S n =>
      match s with
      | String c s' => replace_from rs tpl (Some c) n s'
      | EmptyString => EmptyString
      end
  | O =>
      match match_here rs before s with
      | Some (st, _) =>
          (expand tpl (caps st) ++
           match s with
           | String c s' =>
               match length (taken st) with
               | O => String c (replace_from rs tpl (Some c) 0 s')
               | S n => replace_from rs tpl (Some c) n s'
               end
           | EmptyString => EmptyString
           end)%string
      | None =>
          match s with
          | String c s' => String c (replace_from rs tpl (Some c) 0 s')
          | EmptyString => EmptyString
          end
      end
  end.

Definition replace_all (rs : list re) (tpl : list piece) (s : string) : string :=
  replace_from rs tpl None 0 s.

(** *** Character classes *)

Definition chr (c : ascii) : re := Cls (Ascii.eqb c).

Fixpoint lit (s : string) : list re :=
  match s with
  | EmptyString => []
  | String c s' => chr c :: lit s'
  end.

Definition any : ascii -> bool := fun _ => true.                (* [[\s\S]] *)
Definition dot (c : ascii) : bool := negb (is_line_terminator c). (* [.] *)
Definition ws (c : ascii) : bool :=                              (* [\s] *)
  let n := nat_of_ascii c in
  (n =? 32)%nat || ((9 <=? n)%nat && (n <=? 13)%nat).
Definition non_ws (c : ascii) : bool := negb (ws c).              (* [[^\s]] *)
Definition digit (c : ascii) : bool :=                           (* [\d] *)
  let n := nat_of_ascii c in (48 <=? n)%nat && (n <=? 57)%nat.
Fixpoint one_of (set : string) (c : ascii) : bool :=
  match set with
  | EmptyString => false
  | String d set' => Ascii.eqb c d || one_of set' c
  end.

(** [s.trim()] *)
Fixpoint trim_start (s : string) : string :=
  match s with
  | String c s' => if ws c then trim_start s' else s
  | EmptyString => EmptyString
  end.

Fixpoint trim_end (s : string) : string :=
  match s with
  | EmptyString => EmptyString
  | String c s' =>
      match trim_end s' with
      | EmptyString => if ws c then EmptyString else String c EmptyString
      | t => String c t
      end
  end.

Definition trim (s : string) : string := trim_end (trim_start s).

End Regex.

(** ** The knowledge manager ([RAGKnowledgeManager]) *)

Module Manager.

Import Store.

(** What the manager asks of [runtime.databaseAdapter], over a store
    state [S]. *)
Record IDatabaseAdapter (S : Type) := mkAdapter {
  db_getKnowledge :
    option UUID -> UUID -> option UUID -> S -> result (list RAGKnowledgeItem) * S;
  db_searchKnowledge :
    SearchParams -> S -> result (list RAGKnowledgeItem) * S;
  db_createKnowledge : RAGKnowledgeItem -> Z -> S -> result unit * S;
  db_removeKnowledge : UUID -> option UUID -> S -> result unit * S;
  db_clearKnowledge : UUID -> bool -> option UUID -> S -> result unit * S
}.
Arguments db_getKnowledge {S}.
Arguments db_searchKnowledge {S}.
Arguments db_createKnowledge {S}.
Arguments db_removeKnowledge {S}.
Arguments db_clearKnowledge {S}.

(** [IAgentRuntime], as far as the manager reads it. *)
Record Runtime (S : Type) := mkRuntime {
  rt_agentId : UUID;
  currentUserId : option UUID;
  databaseAdapter : IDatabaseAdapter S
}.
Arguments rt_agentId {S}.
Arguments currentUserId {S}.
Arguments databaseAdapter {S}.

(** Imports of the manager that live in other modules of the core
    package: the embedding call, the text splitter, the UUID hash and the
    two [KnowledgeScope] constants. *)
Record Core := mkCore {
  embed : string -> result Embedding;
  splitChunks : string -> nat -> nat -> list string;
  stringToUuid : string -> UUID;
  SHARED : string;
  PRIVATE : string
}.

Definition defaultRAGMatchThreshold : Q := 85 # 100.
Definition defaultRAGMatchCount : Z := 8.

Definition stopWords : list string :=
  ["a"; "an"; "and"; "are"; "as"; "at"; "be"; "by"; "does"; "for"; "from";
   "had"; "has"; "have"; "he"; "her"; "his"; "how"; "hey"; "i"; "in"; "is";
   "it"; "its"; "of"; "on"; "or"; "that"; "the"; "this"; "to"; "was";
   "what"; "when"; "where"; "which"; "who"; "will"; "with"; "would";
   "there"; "their"; "they"; "your"; "you"].

(** [s.split(sep)] for a one-character separator. *)
Fixpoint split (sep : ascii) (s : string) : list string :=
  match s with
  | EmptyString => [EmptyString]
  | String c s' =>
      if Ascii.eqb c sep then EmptyString :: split sep s'
      else match split sep s' with
           | w :: ws => String c w :: ws
           | [] => [String c EmptyString]
           end
  end.

Definition getQueryTerms (query : string) : list string :=
  List.filter (fun term => negb (existsb (String.eqb term) stopWords))
    (List.filter (fun term => (2 <? String.length term)%nat)
       (split " " (Str.toLowerCase query))).

Import Regex.

(** The replacements of [preprocess], in order. *)
Definition preprocess_steps : list (list re * list piece) :=
  [ (lit "```" ++ [Rep any 0 None false] ++ lit "```", []);
    ([chr "`"; Rep dot 0 None false; chr "`"], []);
    ([Rep (Ascii.eqb "#") 1 (Some 6) true; Rep ws 0 None true;
      Cap 1 [Rep dot 0 None true]], [Group 1]);
    (lit "![" ++ [Cap 1 [Rep dot 0 None false]] ++ lit "]("
       ++ [Rep dot 0 None false; chr ")"], [Group 1]);
    ([chr "["; Cap 1 [Rep dot 0 None false]] ++ lit "]("
       ++ [Rep dot 0 None false; chr ")"], [Group 1]);
    ([Opt (lit "http" ++ [Rep (Ascii.eqb "s") 0 (Some 1) true] ++ lit "://");
      Opt (lit "www.");
      Cap 3 [Rep non_ws 1 None true; chr "."; Rep non_ws 1 None true]],
     [Group 3]);
    (lit "<@" ++ [Rep (one_of "!&") 0 (Some 1) true; Rep digit 1 None true;
                  chr ">"], []);
    ([chr "<"; Rep (fun c => negb (Ascii.eqb c ">")) 0 None true; chr ">"], []);
    ([Bol; Rep ws 0 None true; Rep (one_of "-*_") 3 None true;
      Rep ws 0 None true; Eol], []);
    (lit "/*" ++ [Rep any 0 None false] ++ lit "*/", []);
    (lit "//" ++ [Rep dot 0 None true], []);
    ([Rep ws 1 None true], [Txt " "]);
    ([Rep (Ascii.eqb "010") 3 None true],
     [Txt (String "010" (String "010" EmptyString))]) ].

(** [preprocess(content)] *)
Definition preprocess (content : string) : string :=
  if String.eqb content "" then ""
  else
    Str.toLowerCase
      (trim
         (fold_left (fun acc step => replace_all (fst step) (snd step) acc)
            preprocess_steps content)).

Fixpoint positions (term : string) (words : list string) (idx : nat) : list nat :=
  match words with
  | [] => []
  | word :: words' =>
      (if Str.includes term word then [idx] else [])
        ++ positions term words' (S idx)
  end.

Fixpoint adjacent_within (d : nat) (l : list nat) : bool :=
  match l with
  | a :: ((b :: _) as l') =>
      ((a - b) + (b - a) <=? d)%nat || adjacent_within d l'
  | _ => false
  end.

Definition hasProximityMatch (text : string) (terms : list string) : bool :=
  if String.eqb text "" || (length terms =? 0)%nat then false
  else
    let words :=
      List.filter (fun w => (0 <? String.length w)%nat)
        (split " " (Str.toLowerCase text)) in
    let allPositions :=
      Sql.order_by Nat.leb (flat_map (fun term => positions term words 0) terms) in
    if (length allPositions <? 2)%nat then false
    else adjacent_within 5 allPositions.

(** An element of the list [getKnowledge] returns: a store item and, when
    it went through reranking, its [score] (absent also stands for [NaN])
    and [matchedTerms]. *)
Record Returned := mkReturned {
  item : RAGKnowledgeItem;
  score : option Q;
  matchedTerms : option (list string)
}.

Definition direct (i : RAGKnowledgeItem) : Returned :=
  {| item := i; score := None; matchedTerms := None |}.

Definition scale (x : option Q) (f : Q) : option Q :=
  match x with Some q => Some (q * f)%Q | None => None end.

(** The [map] callback of the reranking step. *)
Definition rerank (processedQuery : string) (conversationContext : option string)
  (result : RAGKnowledgeItem) : Returned :=
  let score := similarity result in
  let queryTerms := getQueryTerms processedQuery in
  let matchingTerms :=
    List.filter
      (fun term => Str.includes term (Str.toLowerCase (text (content result))))
      queryTerms in
  let score :=
    if (0 <? length matchingTerms)%nat then
      let score :=
        scale score
          (1 + (inject_Z (Z.of_nat (length matchingTerms))
                / inject_Z (Z.of_nat (length queryTerms))) * 2)%Q in
      if hasProximityMatch (text (content result)) matchingTerms
      then scale score (3 # 2)
      else score
    else if negb (truthy_str conversationContext)
    then scale score (3 # 10)
    else score in
  {| item := result; score := score; matchedTerms := Some matchingTerms |}.

(** [(a, b) => b.score - a.score]: [a] stays before [b] unless the
    difference is positive. *)
Definition by_score_desc (a b : Returned) : bool :=
  match score a, score b with
  | Some x, Some y => Qle_bool y x
  | _, _ => true
  end.

Definition above_threshold (r : Returned) : bool :=
  match score r with
  | Some x => Qle_bool defaultRAGMatchThreshold x
  | None => false
  end.

(** [l.slice(0, n)] *)
Definition slice0 {A} (n : Z) (l : list A) : list A :=
  if (n <? 0)%Z then firstn (length l - Z.to_nat (- n)) l
  else firstn (Z.to_nat n) l.

Record GetParams := mkGetParams {
  query : option string;
  gp_id : option UUID;
  conversationContext : option string;
  limit : option Z;
  gp_agentId : option UUID;
  gp_userId : option UUID
}.

Definition or_else {A} (truthy : option A -> bool) (x y : option A) : option A :=
  if truthy x then x else y.

(** The text [getKnowledge] embeds: the preprocessed query, preceded by
    the preprocessed conversation context when there is one. *)
Definition embedded_text (params : GetParams) : string :=
  let processedQuery := preprocess (template (query params)) in
  if truthy_str (conversationContext params)
  then (preprocess (template (conversationContext params)) ++ " "
          ++ processedQuery)%string
  else processedQuery.

Section WithRuntime.

Context {S : Type} (core : Core) (runtime : Runtime S).

(** [params.limit || this.defaultRAGMatchCount] *)
Definition result_count (params : GetParams) : Z :=
  if truthy_num (limit params)
  then match limit params with Some n => n | None => 0%Z end
  else defaultRAGMatchCount.

(** The argument of [databaseAdapter.searchKnowledge] in [getKnowledge]. *)
Definition search_request (params : GetParams) (userId : option UUID)
  (embedding : Embedding) : SearchParams :=
  {| sp_agentId := rt_agentId runtime;
     sp_embedding := embedding;
     match_threshold := defaultRAGMatchThreshold;
     match_count := (result_count params * 2)%Z;
     searchText := Some (preprocess (template (query params)));
     sp_userId := userId |}.

(** The [try] block of [getKnowledge]. *)
Definition semantic_search (params : GetParams) (userId : option UUID) (s : S)
  : result (list Returned) * S :=
  let processedQuery := preprocess (template (query params)) in
  let searchText := embedded_text params in
  match embed core searchText with
  | Throw e => (Throw e, s)
  | Ok embedding =>
      match db_searchKnowledge (databaseAdapter runtime)
              (search_request params userId embedding) s with
      | (Throw e, s') => (Throw e, s')
      | (Ok results, s') =>
          let rerankedResults :=
            Sql.order_by by_score_desc
              (map (rerank processedQuery (conversationContext params)) results) in
          (Ok (slice0 (result_count params)
                 (List.filter above_threshold rerankedResults)), s')
      end
  end.

(** [getKnowledge(params)] *)
Definition getKnowledge (params : GetParams) (s : S)
  : result (list Returned) * S :=
  let agentId :=
    if truthy_str (gp_agentId params)
    then template (gp_agentId params) else rt_agentId runtime in
  let userId := or_else truthy_str (gp_userId params) (currentUserId runtime) in
  let search (s : S) : result (list Returned) * S :=
    if truthy_str (query params) then
      match semantic_search params userId s with
      | (Ok found, s') => (Ok found, s')
      | (Throw error, s') => (Ok [], s')
      end
    else (Ok [], s) in
  if truthy_str (gp_id params) then
    match db_getKnowledge (databaseAdapter runtime) (gp_id params) agentId userId s with
    | (Throw e, s') => (Throw e, s')
    | (Ok directResults, s') =>
        if (0 <? length directResults)%nat
        then (Ok (map direct directResults), s')
        else search s'
    end
  else search s.

(** [generateScopedId(path, isShared)] *)
Definition generateScopedId (path : string) (isShared : bool) : UUID :=
  let scope := if isShared then SHARED core else PRIVATE core in
  let scopedPath := (scope ++ "-" ++ path)%string in
  stringToUuid core scopedPath.

(** The loop [for (const [index, chunk] of chunks.entries())] shared by
    [createKnowledge] and [processFile]; [chunk_item] builds the item
    stored for a chunk and [clock k] is the [k]-th reading of [Date.now()]. *)
Fixpoint store_chunks
  (chunk_item : nat -> string -> Embedding -> Z -> RAGKnowledgeItem)
  (clock : nat -> Z) (index : nat) (chunks : list string) (s : S)
  : result unit * S :=
  match chunks with
  | [] => (Ok tt, s)
  | chunk :: chunks' =>
      match embed core chunk with
      | Throw e => (Throw e, s)
      | Ok chunkEmbedding =>
          match db_createKnowledge (databaseAdapter runtime)
                  (chunk_item index chunk chunkEmbedding (clock (Datatypes.S index)))
                  (clock (Datatypes.S index)) s with
          | (Throw e, s') => (Throw e, s')
          | (Ok _, s') => store_chunks chunk_item clock (Datatypes.S index) chunks' s'
          end
      end
  end.

Definition chunk_id (parent : UUID) (index : nat) : UUID :=
  (parent ++ "-chunk-" ++ pretty index)%string.

(** [createKnowledge(item)] of the manager *)
Definition createKnowledge (item : RAGKnowledgeItem) (clock : nat -> Z) (s : S)
  : result unit * S :=
  if String.eqb (text (content item)) "" then (Ok tt, s)
  else
    let processedContent := preprocess (text (content item)) in
    match embed core processedContent with
    | Throw error => (Throw error, s)
    | Ok mainEmbedding =>
        let uid := currentUserId runtime in
        let md := metadata (content item) in
        match db_createKnowledge (databaseAdapter runtime)
                {| id := id item;
                   agentId := Some (rt_agentId runtime);
                   content :=
                     {| text := text (content item);
                        metadata :=
                          {| source := source md; doc_type := doc_type md;
                             isShared := isShared md; isMain := Some true;
                             isChunk := isChunk md; originalId := originalId md;
                             chunkIndex := chunkIndex md |} |};
                   embedding := Some mainEmbedding;
                   createdAt := Some (clock 0%nat);
                   similarity := None;
                   userId := uid |}
                (clock 0%nat) s with
        | (Throw error, s') => (Throw error, s')
        | (Ok _, s') =>
            let chunks := splitChunks core processedContent 512 20 in
            store_chunks
              (fun index chunk chunkEmbedding now =>
                 {| id := chunk_id (id item) index;
                    agentId := Some (rt_agentId runtime);
                    content :=
                      {| text := chunk;
                         metadata :=
                           {| source := source md; doc_type := doc_type md;
                              isShared := isShared md; isMain := isMain md;
                              isChunk := Some true;
                              originalId := Some (id item);
                              chunkIndex := Some (Z.of_nat index) |} |};
                    embedding := Some chunkEmbedding;
                    createdAt := Some now;
                    similarity := None;
                    userId := uid |})
              clock 0 chunks s'
        end
    end.

Record File := mkFile {
  path : string;
  file_content : string;
  file_type : string;
  file_isShared : option bool;
  file_userId : option UUID
}.

(** [path.replace(/\\/g, "/")] *)
Fixpoint slashes (p : string) : string :=
  match p with
  | EmptyString => EmptyString
  | String c p' => String (if Ascii.eqb c "\" then "/"%char else c) (slashes p')
  end.

Definition file_id (file : File) : UUID :=
  generateScopedId (slashes (path file)) (truthy_bool (file_isShared file)).

(** The [try] block of [processFile]. *)
Definition processFile_body (file : File) (clock : nat -> Z) (s : S)
  : result unit * S :=
  let processedContent := file_content file in
  match embed core (String.substring 0 (Z.to_nat 8192) processedContent) with
  | Throw e => (Throw e, s)
  | Ok embedding =>
      let cleanedPath := slashes (path file) in
      let fileId := generateScopedId cleanedPath (truthy_bool (file_isShared file)) in
      let uid := or_else truthy_str (file_userId file) (currentUserId runtime) in
      match db_createKnowledge (databaseAdapter runtime)
              {| id := fileId;
                 agentId := Some (rt_agentId runtime);
                 content :=
                   {| text := processedContent;
                      metadata :=
                        {| source := Some cleanedPath;
                           doc_type := Some (file_type file);
                           isShared := file_isShared file;
                           isMain := Some true;
                           isChunk := None; originalId := None;
                           chunkIndex := None |} |};
                 embedding := Some embedding;
                 createdAt := Some (clock 0%nat);
                 similarity := None;
                 userId := uid |}
              (clock 0%nat) s with
      | (Throw e, s') => (Throw e, s')
      | (Ok _, s') =>
          let chunks := splitChunks core processedContent 512 20 in
          store_chunks
            (fun index chunk chunkEmbedding now =>
               {| id := chunk_id fileId index;
                  agentId := Some (rt_agentId runtime);
                  content :=
                    {| text := chunk;
                       metadata :=
                         {| source := Some cleanedPath;
                            doc_type := Some (file_type file);
                            isShared := file_isShared file;
                            isMain := None;
                            isChunk := Some true;
                            originalId := Some fileId;
                            chunkIndex := Some (Z.of_nat index) |} |};
                  embedding := Some chunkEmbedding;
                  createdAt := Some now;
                  similarity := None;
                  userId := uid |})
            clock 0 chunks s'
      end
  end.

(** [processFile(file)] *)
Definition processFile (file : File) (clock : nat -> Z) (s : S)
  : result unit * S :=
  match processFile_body file clock s with
  | (Ok _, s') => (Ok tt, s')
  | (Throw error, s') =>
      if truthy_bool (file_isShared file)
         && String.eqb (code error) "SQLITE_CONSTRAINT_PRIMARYKEY"
      then (Ok tt, s')
      else (Throw error, s')
  end.

(** [removeKnowledge(id, userId)] of the manager *)
Definition removeKnowledge (id : UUID) (userId : option UUID) (s : S)
  : result unit * S :=
  db_removeKnowledge (databaseAdapter runtime) id
    (or_else truthy_str userId (currentUserId runtime)) s.

(** [clearKnowledge(shared, userId)] of the manager *)
Definition clearKnowledge (shared : option bool) (userId : option UUID) (s : S)
  : result unit * S :=
  db_clearKnowledge (databaseAdapter runtime) (rt_agentId runtime)
    (truthy_bool shared)
    (or_else truthy_str userId (currentUserId runtime)) s.

End WithRuntime.

(** The SQLite adapter as a [databaseAdapter]; [io] are the engine faults
    met by [removeKnowledge]. *)
Definition sqlite (JSON_stringify : list RAGKnowledgeItem -> string)
  (JSON_parse : string -> result (list RAGKnowledgeItem))
  (io : nat -> option JsError) : IDatabaseAdapter Db :=
  {| db_getKnowledge := fun id agentId userId db =>
       (Ok (map item_of_row (Store.getKnowledge id agentId None db)), db);
     db_searchKnowledge := Store.searchKnowledge JSON_stringify JSON_parse;
     db_createKnowledge := Store.createKnowledge;
     db_removeKnowledge := Store.removeKnowledge io;
     db_clearKnowledge := Store.clearKnowledge |}.

End Manager.

(** ** The sweep of deleted knowledge files
    ([listAllKnowledge], [cleanupDeletedKnowledgeFiles]) *)

Module Cleanup.

Import Store Manager.

Section WithRuntime.

Context {S : Type} (runtime : Runtime S).

(** [existsSync(join(this.knowledgeRoot, relativePath))], as a function
    of the relative path. *)
Variable file_exists : string -> bool.

(** [listAllKnowledge(agentId)]: the adapter's listing, called with the
    agent id and the runtime's current user and without an id. *)
Definition listAllKnowledge (agentId : UUID) (s : S)
  : result (list RAGKnowledgeItem) * S :=
  db_getKnowledge (databaseAdapter runtime) None agentId
    (currentUserId runtime) s.

(** [item => !item.id.includes("chunk") && item.content.metadata?.source] *)
Definition is_parent_document (item : RAGKnowledgeItem) : bool :=
  negb (Str.includes "chunk" (id item))
  && truthy_str (source (metadata (content item))).

(** The loop over [parentDocuments]: an error of [removeKnowledge] is
    logged and the loop goes on with the next document. *)
Fixpoint sweep (userId : option UUID) (parentDocuments : list RAGKnowledgeItem)
  (s : S) : S :=
  match parentDocuments with
  | [] => s
  | item :: rest =>
      let relativePath :=
        match source (metadata (content item)) with
        | Some p => p
        | None => ""
        end in
      if negb (file_exists relativePath)
      then sweep userId rest
             (snd (Manager.removeKnowledge runtime (id item) userId s))
      else sweep userId rest s
  end.

(** [cleanupDeletedKnowledgeFiles()]: every error is caught and logged. *)
Definition cleanupDeletedKnowledgeFiles (s : S) : S :=
  let userId := currentUserId runtime in
  match listAllKnowledge (rt_agentId runtime) s with
  | (Throw error, s') => s'
  | (Ok existingKnowledge, s') =>
      sweep userId (List.filter is_parent_document existingKnowledge) s'
  end.

End WithRuntime.

(** A row the sweep of [agentId] takes for the parent document of a
    source file that is gone: it is listed for the agent, its id does not
    contain [chunk], and it names a source that does not exist. *)
Definition orphan (file_exists : string -> bool) (agentId : UUID) (r : Row)
  : bool :=
  (Sql.text_eq (col_agentId r) agentId || (col_isShared r =? 1)%Z)
  && negb (Str.includes "chunk" (col_id r))
  && truthy_str (source (metadata (col_content r)))
  && negb (file_exists (match source (metadata (col_content r)) with
                        | Some p => p
                        | None => ""
                        end)).

End Cleanup.

(** ** The tenant registry ([getUserDatabase], [executeUserQuery]) *)

Module Registry.

(** The adapter's view of its tenants: the [userDatabases] map from user
    id to schema name, the schema names attached to the connection (each
    with the user id whose file it is), and the partition files found
    under [dataDir/users], by user id.  Of a partition file only the state
    that [migrateGoalsTable] reads and writes is kept.  [unopenable] holds,
    by user id, the error the engine raises when it cannot open that
    user's file as a database, and [attach_limit] is the number of
    databases the connection lets be attached. *)
Record Tenants := mkTenants {
  userDatabases : gmap string string;
  attached : gmap string string;
  files : gmap string Goals.Partition;
  unopenable : gmap string JsError;
  attach_limit : nat
}.

Definition is_alnum (c : ascii) : bool :=
  let n := nat_of_ascii c in
  ((48 <=? n)%nat && (n <=? 57)%nat)
  || ((65 <=? n)%nat && (n <=? 90)%nat)
  || ((97 <=? n)%nat && (n <=? 122)%nat).

(** [userId.replace(/[^a-zA-Z0-9]/g, '_')] *)
Fixpoint sanitize (userId : string) : string :=
  match userId with
  | EmptyString => EmptyString
  | String c rest =>
      String (if is_alnum c then c else "_"%char) (sanitize rest)
  end.

Definition safeDbName (userId : string) : string :=
  ("user_" ++ sanitize userId)%string.

(** [new Error(message)]: an error without a [code]. *)
Definition js_error (msg : string) : JsError :=
  {| code := ""; message := msg |}.

(** The tables a new partition file is given; its [goals] table has the
    seven columns of the migrated schema. *)
Definition new_partition : Goals.Partition :=
  {| Goals.goals := {| Goals.cols := Goals.goals_new_cols; Goals.rows := [] |};
     Goals.goals_new := None |}.

(** A schema name is in use when a schema is attached under it, names
    compared without regard to ASCII case. *)
Definition schema_in_use (name : string) (t : Tenants) : bool :=
  existsb (fun entry => Str.eqb_nocase name (fst entry))
    (map_to_list (attached t)).

(** [ATTACH DATABASE ? AS ?] for the file of [userId]: the engine refuses
    when the limit on attached databases is reached, when the schema name
    is in use, and when it cannot open the file; nothing is attached
    then. *)
Definition attach_error (userId name : string) (t : Tenants)
  : option JsError :=
  if (attach_limit t <=? size (attached t))%nat then
    Some {| code := "SQLITE_ERROR";
            message := "too many attached databases - max "
                         ++ pretty (attach_limit t) |}
  else if schema_in_use name t then
    Some {| code := "SQLITE_ERROR";
            message := "database " ++ name ++ " is already in use" |}
  else unopenable t !! userId.

(** [getUserDatabase(userId)].  The map entry is written right after the
    attach, before the tables are created or migrated; an error of the
    [try] block, the attach included, is re-thrown as
    [Failed to initialize user database: ...]. *)
Definition getUserDatabase (userId : string) (t : Tenants)
  : result string * Tenants :=
  if String.eqb userId "" then (Throw (js_error "User ID is required"), t)
  else
    match userDatabases t !! userId with
    | Some name => (Ok name, t)
    | None =>
        let safeDbName := safeDbName userId in
        let dbExists := files t !! userId in
        match attach_error userId safeDbName t with
        | Some error =>
            (Throw (js_error
                      ("Failed to initialize user database: "
                         ++ message error)), t)
        | None =>
            let t1 (p : Goals.Partition) : Tenants :=
              {| userDatabases := <[userId := safeDbName]> (userDatabases t);
                 attached := <[safeDbName := userId]> (attached t);
                 files := <[userId := p]> (files t);
                 unopenable := unopenable t;
                 attach_limit := attach_limit t |} in
            match dbExists with
            | None => (Ok safeDbName, t1 new_partition)
            | Some p =>
                match Goals.migrateGoalsTable p with
                | (Ok _, p') => (Ok safeDbName, t1 p')
                | (Throw error, p') =>
                    (Throw (js_error
                              ("Failed to initialize user database: "
                                 ++ message error)), t1 p')
                end
            end
        end
    end.

(** [executeUserQuery(userId, callback)] *)
Definition executeUserQuery {T} (userId : string)
  (callback : string -> Tenants -> result T * Tenants) (t : Tenants)
  : result T * Tenants :=
  match getUserDatabase userId t with
  | (Ok dbName, t') => callback dbName t'
  | (Throw e, t') => (Throw e, t')
  end.

(** Every cached schema name is attached, for the user it is cached for. *)
Definition names_attached (t : Tenants) : Prop :=
  forall userId name,
    userDatabases t !! userId = Some name -> attached t !! name = Some userId.

End Registry.

(** ** Sample data *)

Module Samples.

Import Store.

(** A one-dimensional engine: the distance of [[x]] and [[y]] is [|x - y|];
    anything else is rejected. *)
Definition distance_1d (stored : option Embedding) (query : Embedding)
  : result Q :=
  match stored, query with
  | Some [x], [y] => Ok (Qabs (x - y))
  | _, _ => Throw {| code := "SQLITE_ERROR";
                     message := "Input must have type BLOB" |}
  end.

Definition main_meta (shared : bool) : Metadata :=
  {| source := Some "a.md"; doc_type := Some "md";
     isShared := Some shared; isMain := Some true;
     isChunk := None; originalId := None; chunkIndex := None |}.

Definition chunk_meta (shared : bool) (parent : UUID) (index : Z) : Metadata :=
  {| source := Some "a.md"; doc_type := Some "md";
     isShared := Some shared; isMain := None;
     isChunk := Some true; originalId := Some parent;
     chunkIndex := Some index |}.

Definition item_of (i : UUID) (owner : UUID) (t : string) (md : Metadata)
  (e : Q) : RAGKnowledgeItem :=
  {| id := i; agentId := Some owner;
     content := {| text := t; metadata := md |};
     embedding := Some [e]; createdAt := Some 1000%Z;
     similarity := None; userId := None |}.

(** A private document of agent [agent-1] with one chunk. *)
Definition doc_row : Row :=
  row_of_item (item_of "doc" "agent-1" "green tea prices" (main_meta false) 1) 0.
Definition doc_chunk_row : Row :=
  row_of_item
    (item_of "doc-chunk-0" "agent-1" "green tea prices"
       (chunk_meta false "doc" 0) 1) 0.

(** A shared document, far from the query vector [[0]] and without any
    keyword of the query. *)
Definition far_shared_item : RAGKnowledgeItem :=
  item_of "far" "agent-2" "unrelated"
    {| source := None; doc_type := None; isShared := Some true;
       isMain := None; isChunk := None; originalId := None;
       chunkIndex := None |} 9.

Definition far_shared_row : Row := row_of_item far_shared_item 0.

(** A plan that visits the rows of an owner before the rows without
    one. *)
Definition owned_first (a b : Row) : bool :=
  match col_agentId a, col_agentId b with
  | None, Some _ => false
  | _, _ => true
  end.

Definition db_of (tbl : list Row) (vss : bool) : Db :=
  {| knowledge := tbl; user_knowledge := ∅; cache := ∅;
     vec_distance_L2 := if vss then Some distance_1d else None;
     scan_order := owned_first |}.

Definition sample_db : Db := db_of [doc_row; doc_chunk_row] true.

(** A query of agent [agent-1] for [tea] at the vector [[0]], with the
    manager's threshold and twice its default count. *)
Definition tea_query : SearchParams :=
  {| sp_agentId := "agent-1"; sp_embedding := [0%Q];
     match_threshold := 85 # 100; match_count := 16;
     searchText := Some "tea"; sp_userId := None |}.

Definition mixed_db : Db := db_of [far_shared_row; doc_row; doc_chunk_row] true.

(** A store holding one memory at the vector [[9]], and a new memory of
    the same table, agent and room at the vector [[0]]. *)
Definition stored_memory : Memories.MemoryRow :=
  {| Memories.m_id := "m1"; Memories.m_type := "messages";
     Memories.m_content := "{}"; Memories.m_embedding := Some [9%Q];
     Memories.m_userId := "user-1"; Memories.m_roomId := "room-1";
     Memories.m_agentId := "agent-1"; Memories.m_unique := 1;
     Memories.m_createdAt := 1000 |}.

Definition memory_db : Memories.MemDb :=
  {| Memories.memories := [stored_memory]; Memories.user_memories := ∅;
     Memories.vec_distance_L2 := Some distance_1d |}.

Definition new_memory : Memories.Memory :=
  {| Memories.mem_id := Some "m2"; Memories.mem_userId := "user-1";
     Memories.mem_agentId := "agent-1"; Memories.mem_roomId := "room-1";
     Memories.mem_content := "{}"; Memories.mem_embedding := Some [0%Q];
     Memories.mem_createdAt := Some 2000%Z |}.

(** A store whose every call throws, and a core whose embedding call
    succeeds. *)
Definition store_down : JsError :=
  {| code := "SQLITE_IOERR"; message := "disk I/O error" |}.

Definition failing_adapter : Manager.IDatabaseAdapter unit :=
  {| Manager.db_getKnowledge := fun _ _ _ s => (Throw store_down, s);
     Manager.db_searchKnowledge := fun _ s => (Throw store_down, s);
     Manager.db_createKnowledge := fun _ _ s => (Throw store_down, s);
     Manager.db_removeKnowledge := fun _ _ s => (Throw store_down, s);
     Manager.db_clearKnowledge := fun _ _ _ s => (Throw store_down, s) |}.

(** The text splitter and the UUID hash are stood in for by the identity
    and the embedding by the length of the text. *)
Definition sample_core : Manager.Core :=
  {| Manager.embed := fun t => Ok [inject_Z (Z.of_nat (String.length t))];
     Manager.splitChunks := fun t _ _ => [t];
     Manager.stringToUuid := fun s => s;
     Manager.SHARED := "shared";
     Manager.PRIVATE := "private" |}.

Definition failing_runtime : Manager.Runtime unit :=
  {| Manager.rt_agentId := "agent-1";
     Manager.currentUserId := Some "user-1";
     Manager.databaseAdapter := failing_adapter |}.

Definition tea_question : Manager.GetParams :=
  {| Manager.query := Some "What is the price of green tea?";
     Manager.gp_id := None;
     Manager.conversationContext := None;
     Manager.limit := Some 5%Z;
     Manager.gp_agentId := None;
     Manager.gp_userId := None |}.

(** The same question, asked with the id of a document. *)
Definition tea_by_id : Manager.GetParams :=
  {| Manager.query := Some "What is the price of green tea?";
     Manager.gp_id := Some "doc";
     Manager.conversationContext := None;
     Manager.limit := Some 5%Z;
     Manager.gp_agentId := None;
     Manager.gp_userId := None |}.

(** Stand-ins for [JSON.stringify] and [JSON.parse] on result lists: the
    text records the ids, and parsing gives them back as bare items. *)
Definition sample_stringify (l : list RAGKnowledgeItem) : string :=
  ("[" ++ String.concat "," (map id l) ++ "]")%string.

Definition sample_parse (t : string) : result (list RAGKnowledgeItem) :=
  if String.eqb t "[doc,doc-chunk-0]"
  then Ok [item_of_row doc_row; item_of_row doc_chunk_row]
  else Ok [].

Definition no_vector_db : Db := db_of [doc_chunk_row; far_shared_row; doc_row] false.

(** What the hybrid statement selects for [tea_query] on [mixed_db]. *)
Definition tea_results : list RAGKnowledgeItem :=
  Eval vm_compute in
    match hybrid_query tea_query mixed_db with
    | Ok results => results
    | Throw _ => []
    end.

(** A [JSON.parse] stand-in that gives the items of [tea_results] back
    from their serialization. *)
Definition tea_parse (t : string) : result (list RAGKnowledgeItem) :=
  if String.eqb t (sample_stringify tea_results) then Ok tea_results
  else Ok [].

(** Another question of the same agent. *)
Definition coffee_query : SearchParams :=
  {| sp_agentId := "agent-1"; sp_embedding := [0%Q];
     match_threshold := 85 # 100; match_count := 16;
     searchText := Some "coffee"; sp_userId := None |}.

(** The same question asked later with another vector, threshold and
    count, against a store whose [knowledge] table was emptied meanwhile. *)
Definition tea_query_again : SearchParams :=
  {| sp_agentId := "agent-1"; sp_embedding := [5%Q];
     match_threshold := 1 # 2; match_count := 3;
     searchText := Some "tea"; sp_userId := Some "user-1" |}.

Definition emptied_db : Db :=
  set_knowledge
    (snd (searchKnowledge sample_stringify sample_parse tea_query mixed_db)) [].

(** The shared markdown source [docs\a.md] with the text [# Title]. *)
Definition title_file : Manager.File :=
  {| Manager.path := "docs\a.md";
     Manager.file_content := "# Title";
     Manager.file_type := "md";
     Manager.file_isShared := Some true;
     Manager.file_userId := None |}.

Definition no_faults : nat -> option JsError := fun _ => None.

Definition sqlite_runtime : Manager.Runtime Db :=
  {| Manager.rt_agentId := "agent-1";
     Manager.currentUserId := Some "user-1";
     Manager.databaseAdapter :=
       Manager.sqlite sample_stringify sample_parse no_faults |}.

Definition clock_from (t : Z) : nat -> Z := fun k => (t + Z.of_nat k)%Z.

(** The same text handed to the manager's [createKnowledge]. *)
Definition title_item : RAGKnowledgeItem :=
  {| id := "title-item"; agentId := None;
     content := {| text := "# Title"; metadata := main_meta true |};
     embedding := None; createdAt := None; similarity := None;
     userId := None |}.

End Samples.

(** ** More sample data *)

Module MoreSamples.

Import Goals.

(** [legacy_partition] after its migration. *)
Definition migrated_partition : Partition :=
  snd (migrateGoalsTable legacy_partition).



Definition no_tenants : Registry.Tenants :=
  {| Registry.userDatabases := ∅; Registry.attached := ∅;
     Registry.files := ∅;
     Registry.unopenable := ∅; Registry.attach_limit := 10 |}.



(** A memory without an embedding. *)
Definition plain_memory : Memories.Memory :=
  {| Memories.mem_id := Some "m1"; Memories.mem_userId := "user-1";
     Memories.mem_agentId := "agent-1"; Memories.mem_roomId := "room-1";
     Memories.mem_content := "hello";
     Memories.mem_embedding := None;
     Memories.mem_createdAt := None |}.

(** Three memories of one room at distances 1, 9 and 4 from [[0]]. *)
Definition memory_at (i : string) (e : Q) (t : Z) : Memories.MemoryRow :=
  {| Memories.m_id := i; Memories.m_type := "messages";
     Memories.m_content := "{}"; Memories.m_embedding := Some [e];
     Memories.m_userId := "user-1"; Memories.m_roomId := "room-1";
     Memories.m_agentId := "agent-1"; Memories.m_unique := 1;
     Memories.m_createdAt := t |}.

Definition three_memories : Memories.MemDb :=
  {| Memories.memories :=
       [memory_at "near" 1 100; memory_at "far" 9 300; memory_at "mid" 4 200];
     Memories.user_memories := ∅;
     Memories.vec_distance_L2 := Some Samples.distance_1d |}.

Definition room_search : Memories.MemorySearch :=
  {| Memories.ms_tableName := "messages"; Memories.ms_roomId := "room-1";
     Memories.ms_agentId := Some "agent-1"; Memories.ms_embedding := [0%Q];
     Memories.ms_match_threshold := 95 # 100; Memories.ms_match_count := 2;
     Memories.ms_unique := false; Memories.ms_userId := None |}.

Definition top_one : Memories.EmbeddingSearch :=
  {| Memories.es_match_threshold := Some (95 # 100);
     Memories.es_count := Some 1%Z;
     Memories.es_roomId := Some "room-1";
     Memories.es_agentId := "agent-1";
     Memories.es_unique := None;
     Memories.es_tableName := "messages";
     Memories.es_userId := None |}.

Definition room_query : Memories.MemoriesQuery :=
  {| Memories.mq_roomId := "room-1"; Memories.mq_count := Some 2%Z;
     Memories.mq_unique := None; Memories.mq_tableName := "messages";
     Memories.mq_agentId := "agent-1"; Memories.mq_start := Some 150%Z;
     Memories.mq_end := None; Memories.mq_userId := None |}.

(** The question [tea], which the text of [doc_row] contains. *)
Definition tea_only : Manager.GetParams :=
  {| Manager.query := Some "tea";
     Manager.gp_id := None;
     Manager.conversationContext := None;
     Manager.limit := None;
     Manager.gp_agentId := None;
     Manager.gp_userId := None |}.

(** A runtime without a current user. *)
Definition shared_runtime : Manager.Runtime Store.Db :=
  {| Manager.rt_agentId := "agent-1";
     Manager.currentUserId := None;
     Manager.databaseAdapter :=
       Manager.sqlite Samples.sample_stringify Samples.sample_parse
         Samples.no_faults |}.

(** The private markdown source [notes.md]. *)
Definition private_file : Manager.File :=
  {| Manager.path := "notes.md";
     Manager.file_content := "green tea";
     Manager.file_type := "md";
     Manager.file_isShared := None;
     Manager.file_userId := None |}.

(** A core that splits every text into the chunks [first] and [second]
    and whose embedding call fails on [first]. *)
Definition embedding_down : JsError :=
  {| code := "ECONNRESET"; message := "socket hang up" |}.

Definition chunk_failing_core : Manager.Core :=
  {| Manager.embed := fun t =>
       if String.eqb t "first" then Throw embedding_down
       else Ok [inject_Z (Z.of_nat (String.length t))];
     Manager.splitChunks := fun t _ _ => ["first"; "second"];
     Manager.stringToUuid := fun s => s;
     Manager.SHARED := "shared";
     Manager.PRIVATE := "private" |}.

(** A result for [doc_row] as the hybrid statement would score it at the
    vector score 1/2 with a keyword match. *)
Definition scored_doc : Store.RAGKnowledgeItem :=
  Store.item_of_scored
    {| Store.sc_row := Samples.doc_row; Store.vector_score := 1 # 2;
       Store.keyword_score := 3 |}.

(** A store whose table is empty while its cache still answers
    [tea_query] with two documents. *)
Definition stale_db : Store.Db :=
  Store.set_knowledge
    (Store.setCache (Store.cacheKey Samples.tea_query) "agent-1"
       "[doc,doc-chunk-0]" Samples.sample_db) [].

(** Of the files named in the samples only [b.md] is on disk. *)
Definition only_b (relativePath : string) : bool :=
  String.eqb relativePath "b.md".

End MoreSamples.

(** * Properties *)

(** ** Lists, sorting and limits *)

Section SortingFacts.

Context {A : Type} (le : A -> A -> bool).
Hypothesis le_total : forall a b, le a b = true \/ le b a = true.
Hypothesis le_trans : forall a b c, le a b = true -> le b c = true -> le a c = true.

Lemma insert_sorted_In (x y : A) (l : list A) :
  In y (Sql.insert_sorted le x l) <-> y = x \/ In y l.
Proof.
  induction l as [|z l IH]; simpl.
  - intuition.
  - destruct (le x z); simpl; [intuition | rewrite IH; intuition].
Qed.

Lemma order_by_In (y : A) (l : list A) : In y (Sql.order_by le l) <-> In y l.
Proof.
  induction l as [|x l IH]; simpl; [tauto|].
  rewrite insert_sorted_In, IH. intuition.
Qed.

Lemma insert_sorted_length (x : A) (l : list A) :
  length (Sql.insert_sorted le x l) = Datatypes.S (length l).
Proof.
  induction l as [|z l IH]; simpl; [reflexivity|].
  destruct (le x z); simpl; [reflexivity | now rewrite IH].
Qed.

Lemma order_by_length (l : list A) : length (Sql.order_by le l) = length l.
Proof.
  induction l as [|x l IH]; simpl; [reflexivity|].
  now rewrite insert_sorted_length, IH.
Qed.

Lemma insert_sorted_sorted (x : A) (l : list A) :
  StronglySorted (fun a b => le a b = true) l ->
  StronglySorted (fun a b => le a b = true) (Sql.insert_sorted le x l).
Proof using le_total le_trans.
  induction 1 as [|z l Hs IH Hall]; simpl.
  - repeat constructor.
  - destruct (le x z) eqn:E.
    + constructor; [now constructor|].
      constructor; [exact E|].
      rewrite List.Forall_forall in *. intros w Hw. eauto.
    + constructor; [exact IH|].
      rewrite List.Forall_forall in *. intros w Hw.
      apply insert_sorted_In in Hw as [->|Hw]; [|auto].
      destruct (le_total x z) as [H|H]; congruence.
Qed.

Lemma order_by_sorted (l : list A) :
  StronglySorted (fun a b => le a b = true) (Sql.order_by le l).
Proof using le_total le_trans.
  induction l as [|x l IH]; simpl; [constructor|].
  now apply insert_sorted_sorted.
Qed.

End SortingFacts.

Lemma StronglySorted_firstn {A} (R : A -> A -> Prop) (n : nat) (l : list A) :
  StronglySorted R l -> StronglySorted R (firstn n l).
Proof.
  intros H. revert n. induction H as [|x l Hs IH Hall]; intros [|n]; simpl;
    try constructor; auto.
  rewrite List.Forall_forall in *. intros y Hy. apply Hall.
  rewrite <- (firstn_skipn n l). apply in_or_app. now left.
Qed.

Lemma limit_sorted {A} (R : A -> A -> Prop) (n : Z) (l : list A) :
  StronglySorted R l -> StronglySorted R (Sql.limit n l).
Proof.
  unfold Sql.limit. destruct (n <? 0)%Z; [auto | apply StronglySorted_firstn].
Qed.

Lemma limit_In {A} (n : Z) (l : list A) (x : A) : In x (Sql.limit n l) -> In x l.
Proof.
  unfold Sql.limit. destruct (n <? 0)%Z; [auto|].
  intros H. rewrite <- (firstn_skipn (Z.to_nat n) l). apply in_or_app. now left.
Qed.

Lemma limit_all {A} (n : Z) (l : list A) :
  (n < 0 \/ Z.of_nat (length l) <= n)%Z -> Sql.limit n l = l.
Proof.
  unfold Sql.limit. intros H. destruct (n <? 0)%Z eqn:E; [reflexivity|].
  apply Z.ltb_ge in E. apply firstn_all2. lia.
Qed.

(** ** Goals migration *)

Section GoalsFacts.

Import Goals.

Lemma migrate_noop_when_migrated (db : Partition) :
  existsb (String.eqb "agentId") (cols (goals db)) = true ->
  migrateGoalsTable db = (Ok tt, db).
Proof.
  intros H. unfold migrateGoalsTable. now rewrite H.
Qed.

Lemma insert_rows_app (rs acc out : list (list cell)) :
  insert_rows acc rs = Ok out -> out = acc ++ rs.
Proof.
  revert acc. induction rs as [|r rs IH]; simpl; intros acc H.
  - injection H as <-. now rewrite app_nil_r.
  - unfold insert_row in H.
    destruct (negb (not_null_ok r)); [discriminate|].
    destruct (existsb _ acc); [discriminate|].
    simpl in H. apply IH in H. subst out. now rewrite <- app_assoc.
Qed.

Lemma column_index_fresh (name : string) (cs : list string) :
  existsb (Str.eqb_nocase name) cs = false ->
  column_index name (cs ++ [name]) = Some (length cs).
Proof.
  induction cs as [|c cs IH]; simpl.
  - intros _. unfold Str.eqb_nocase. now rewrite String.eqb_refl.
  - intros H. apply orb_false_iff in H as [Hc Hcs].
    rewrite Hc, (IH Hcs). reflexivity.
Qed.

Lemma set_nth_if_null_last (v : cell) (r : list cell) :
  set_nth_if_null (length r) v (r ++ [None]) = r ++ [v].
Proof.
  induction r as [|c r IH]; simpl; [reflexivity | now rewrite IH].
Qed.

(** X3.  What a successful migration of an unmigrated table does to the rows:
    the table takes the column names of [goals_new] while every row keeps
    its cells in their old order, the backfilled default last. *)
Lemma migrate_rows_positional (db db1 : Partition) :
  existsb (String.eqb "agentId") (cols (goals db)) = false ->
  Forall (fun r => length r = length (cols (goals db))) (rows (goals db)) ->
  migrateGoalsTable db = (Ok tt, db1) ->
  cols (goals db1) = goals_new_cols
  /\ rows (goals db1)
     = map (fun r => r ++ [Some DEFAULT_UUID]) (rows (goals db)).
Proof.
  intros Hno Hwf. unfold migrateGoalsTable. rewrite Hno.
  unfold alter_add_column, has_column.
  destruct (existsb (Str.eqb_nocase "agentId") (cols (goals db))) eqn:Hnc;
    [discriminate|].
  destruct (goals_new db); [discriminate|].
  unfold insert_select_star, update_where_null. simpl cols.
  rewrite (column_index_fresh _ _ Hnc). simpl cols. simpl rows.
  destruct (negb _); [discriminate|].
  destruct (insert_rows _ _) as [out|e] eqn:Hins; simpl; [|discriminate].
  intros H. injection H as <-. simpl. split; [reflexivity|].
  apply insert_rows_app in Hins. simpl in Hins. subst out.
  rewrite map_map. apply map_ext_in. intros r Hr.
  rewrite List.Forall_forall in Hwf. rewrite <- (Hwf r Hr).
  apply set_nth_if_null_last.
Qed.

(** X2.  Rows are neither dropped nor duplicated by a migration that
    succeeds. *)
Lemma migrate_keeps_row_count (db db1 : Partition) :
  migrateGoalsTable db = (Ok tt, db1) ->
  length (rows (goals db1)) = length (rows (goals db)).
Proof.
  unfold migrateGoalsTable.
  destruct (existsb (String.eqb "agentId") (cols (goals db))).
  - now intros [= <-].
  - unfold alter_add_column. destruct (has_column _ _); [discriminate|].
    destruct (goals_new db); [discriminate|].
    unfold insert_select_star. destruct (negb _); [discriminate|].
    destruct (insert_rows _ _) as [out|e] eqn:Hins; simpl; [|discriminate].
    intros [= <-]. simpl. apply insert_rows_app in Hins. subst out. simpl.
    unfold update_where_null. simpl.
    destruct (column_index _ _); simpl; now rewrite ?length_map.
Qed.

(** X1.  Running the migration again after it succeeded changes nothing. *)
Lemma migrate_twice_is_noop (db db1 : Partition) :
  migrateGoalsTable db = (Ok tt, db1) ->
  migrateGoalsTable db1 = (Ok tt, db1).
Proof.
  intros H. apply migrate_noop_when_migrated. revert H.
  unfold migrateGoalsTable.
  destruct (existsb (String.eqb "agentId") (cols (goals db))) eqn:E.
  - now intros [= <-].
  - unfold alter_add_column. destruct (has_column _ _); [discriminate|].
    destruct (goals_new db); [discriminate|].
    unfold insert_select_star. destruct (negb _); [discriminate|].
    destruct (insert_rows _ _); simpl; [|discriminate].
    now intros [= <-].
Qed.

(** C1.  On a partition whose [goals] table was created without the
    [agentId] column, [migrateGoalsTable] succeeds and keeps the row, but
    [INSERT INTO goals_new SELECT * FROM goals] copies by position: the
    row's [agentId] field receives the old [name], [name] the old
    [status], [status] the old [objectives], and the default id lands in
    [objectives].  The [agentId] field is not the default agent id and
    the other fields are not preserved. *)
Theorem migrateGoalsTable_shifts_legacy_fields :
  exists t r,
    migrateGoalsTable legacy_partition
      = (Ok tt, {| goals := t; goals_new := None |})
    /\ rows t = [r]
    /\ field t "id" r = Some "g1"
    /\ field t "roomId" r = Some "r1"
    /\ field t "userId" r = Some "u1"
    /\ field t "agentId" r = Some "Sell 10 items"
    /\ field t "name" r = Some "IN_PROGRESS"
    /\ field t "status" r = Some "[]"
    /\ field t "objectives" r = Some DEFAULT_UUID
    /\ field t "agentId" r <> Some DEFAULT_UUID
    /\ field t "name" r
       <> field (goals legacy_partition) "name" legacy_row.
Proof.
  eexists. eexists. split; [vm_compute; reflexivity|].
  repeat split; try reflexivity; vm_compute; discriminate.
Qed.

End GoalsFacts.

(** ** Knowledge rows: insertion, removal, clearing *)

Section KnowledgeFacts.

Import Store.

Lemma NoDup_map_In_inj {A B} (f : A -> B) (l : list A) (a b : A) :
  List.NoDup (map f l) -> In a l -> In b l -> f a = f b -> a = b.
Proof.
  induction l as [|x l IH]; simpl; [tauto|].
  intros Hnd Ha Hb Hab. apply List.NoDup_cons_iff in Hnd as [Hx Hnd].
  destruct Ha as [->|Ha], Hb as [->|Hb]; auto.
  - exfalso. apply Hx. rewrite Hab. now apply in_map.
  - exfalso. apply Hx. rewrite <- Hab. now apply in_map.
Qed.

Lemma filter_filter {A} (p q : A -> bool) (l : list A) :
  List.filter p (List.filter q l) = List.filter (fun x => q x && p x) l.
Proof.
  induction l as [|x l IH]; simpl; [reflexivity|].
  destruct (q x); simpl; [destruct (p x)|]; now rewrite IH.
Qed.

Lemma routed_table_set (u : UUID) (db : Db) (tbl : list Row) :
  user_table (set_user_knowledge db u tbl) u = tbl.
Proof.
  unfold user_table, set_user_knowledge. simpl.
  now rewrite lookup_insert_eq.
Qed.

(** The transaction of the exact-id branch either commits both deletions
    or leaves the table as it was. *)
Lemma removeKnowledge_txn_exact (io : nat -> option JsError) (id : string)
  (tbl : list Row) :
  Str.includes "*" id = false ->
  (exists n,
      transaction (removeKnowledge_body io id) tbl
      = (Ok n, List.filter (fun r => negb (has_id id r || chunk_of id r)) tbl)
      /\ io 0%nat = None /\ io 1%nat = None /\ io 2%nat = None /\ io 3%nat = None)
  \/ (exists e,
         transaction (removeKnowledge_body io id) tbl = (Throw e, tbl)
         /\ (io 0%nat = Some e \/ io 1%nat = Some e \/ io 2%nat = Some e
             \/ io 3%nat = Some e)).
Proof.
  intros Hid. unfold removeKnowledge_body. rewrite Hid.
  unfold transaction, stmt_bind, select_where, delete_where, stmt_ret.
  destruct (io 0%nat) as [e0|] eqn:E0; [right; exists e0; auto|].
  destruct (io 1%nat) as [e1|] eqn:E1; [right; exists e1; auto|].
  destruct (io 2%nat) as [e2|] eqn:E2; [right; exists e2; auto|].
  destruct (io 3%nat) as [e3|] eqn:E3; [right; exists e3; auto 6|].
  left. eexists. split; [|auto]. f_equal.
  rewrite filter_filter. apply filter_ext. intros r.
  now rewrite negb_orb, andb_comm.
Qed.

(** C2.  For an id without a wildcard, [removeKnowledge(id, userId)]
    either succeeds, and then the table it is routed to keeps exactly the
    rows whose id differs from [id] and whose [content.metadata.originalId]
    differs from [id], or throws, and then the table is as before; without
    an engine fault it succeeds.  When [id] is the id of a chunk, its
    parent main item (the row the chunk's [originalId] names, itself
    without an [originalId]) is still in the table afterwards. *)
Theorem removeKnowledge_exact_id_cascade :
  forall (io : nat -> option JsError) (id : UUID) (userId : option UUID) (db : Db),
    Str.includes "*" id = false ->
    let tbl := routed_table userId db in
    let res := removeKnowledge io id userId db in
    ((fst res = Ok tt
      /\ routed_table userId (snd res)
         = List.filter (fun r => negb (has_id id r || chunk_of id r)) tbl)
     \/ (exists e, fst res = Throw e /\ routed_table userId (snd res) = tbl))
    /\ ((forall n, io n = None) -> fst res = Ok tt)
    /\ (forall c p,
           List.NoDup (map col_id tbl) -> In c tbl -> In p tbl ->
           id = col_id c ->
           originalId (metadata (col_content c)) = Some (col_id p) ->
           originalId (metadata (col_content p)) = None ->
           In p (routed_table userId (snd res))).
Proof.
  intros io id userId db Hid tbl res.
  assert (Hres :
    (fst res = Ok tt
      /\ routed_table userId (snd res)
         = List.filter (fun r => negb (has_id id r || chunk_of id r)) tbl
      /\ forall n, (n < 4)%nat -> io n = None)
     \/ (exists e, fst res = Throw e /\ routed_table userId (snd res) = tbl
                   /\ exists n, io n = Some e)).
  { subst res tbl. unfold removeKnowledge, base_removeKnowledge, routed_table.
    destruct userId as [u|]; [destruct (String.eqb u "") eqn:Eu|].
    - destruct (removeKnowledge_txn_exact io id (knowledge db) Hid)
        as [(n & -> & H0 & H1 & H2 & H3)|(e & -> & He)]; simpl; rewrite ?Eu.
      + left. repeat split; auto. intros [|[|[|[|k]]]] Hk; auto; lia.
      + right. exists e. repeat split; auto. intuition eauto.
    - destruct (removeKnowledge_txn_exact io id (user_table db u) Hid)
        as [(n & -> & H0 & H1 & H2 & H3)|(e & -> & He)]; simpl; rewrite ?Eu.
      + left. rewrite routed_table_set. repeat split; auto.
        intros [|[|[|[|k]]]] Hk; auto; lia.
      + right. exists e. rewrite routed_table_set.
        repeat split; auto. intuition eauto.
    - destruct (removeKnowledge_txn_exact io id (knowledge db) Hid)
        as [(n & -> & H0 & H1 & H2 & H3)|(e & -> & He)]; simpl.
      + left. repeat split; auto. intros [|[|[|[|k]]]] Hk; auto; lia.
      + right. exists e. repeat split; auto. intuition eauto. }
  split; [|split].
  - destruct Hres as [(H1 & H2 & _)|(e & H1 & H2 & _)]; [left|right]; eauto.
  - intros Hio. destruct Hres as [(H1 & _)|(e & _ & _ & n & Hn)]; [exact H1|].
    rewrite Hio in Hn. discriminate.
  - intros c p Hnd Hc Hp -> Hco Hpo.
    destruct Hres as [(_ & -> & _)|(e & _ & -> & _)]; [|exact Hp].
    apply filter_In. split; [exact Hp|].
    assert (Hne : col_id p <> col_id c).
    { intros Heq. assert (p = c) by (eapply NoDup_map_In_inj; eauto).
      subst p. congruence. }
    unfold has_id, chunk_of, Sql.text_eq. rewrite Hpo.
    apply String.eqb_neq in Hne. now rewrite Hne.
Qed.

End KnowledgeFacts.

Section KnowledgeWitnesses.

Import Store Samples.

Lemma removeKnowledge_exact_id_cascade_witness :
  Str.includes "*" "doc" = false
  /\ fst (removeKnowledge (fun _ => None) "doc" None sample_db) = Ok tt
  /\ routed_table None (snd (removeKnowledge (fun _ => None) "doc" None sample_db))
     = []
  /\ In doc_row
       (routed_table None
          (snd (removeKnowledge (fun _ => None) "doc-chunk-0" None sample_db))).
Proof.
  split; [reflexivity|].
  pose proof (removeKnowledge_exact_id_cascade
                (fun _ => None) "doc" None sample_db eq_refl) as H.
  pose proof (removeKnowledge_exact_id_cascade
                (fun _ => None) "doc-chunk-0" None sample_db eq_refl) as H'.
  split; [exact (proj1 (proj2 H) (fun _ => eq_refl))|].
  split.
  - destruct (proj1 H) as [[_ Heq]|[e [He _]]].
    + exact Heq.
    + discriminate He.
  - apply (proj2 (proj2 H') doc_chunk_row doc_row).
    + repeat constructor; simpl; intuition discriminate.
    + right; left; reflexivity.
    + left; reflexivity.
    + reflexivity.
    + reflexivity.
    + reflexivity.
Defined.

End KnowledgeWitnesses.

Section SharedRowsFacts.

Import Store.

Lemma row_of_item_shared (knowledge : RAGKnowledgeItem) (now : Z) :
  truthy_bool (isShared (metadata (content knowledge))) = true ->
  col_agentId (row_of_item knowledge now) = None
  /\ col_isShared (row_of_item knowledge now) = 1%Z.
Proof.
  intros H. unfold row_of_item. simpl. now rewrite H.
Qed.

Lemma row_of_item_unowned_if_flagged (knowledge : RAGKnowledgeItem) (now : Z) :
  col_isShared (row_of_item knowledge now) = 1%Z ->
  col_agentId (row_of_item knowledge now) = None.
Proof.
  unfold row_of_item. simpl.
  destruct (truthy_bool _); [reflexivity | discriminate].
Qed.

(** What [createKnowledge] does to the shared table: nothing, or one row
    appended, the row built from the item. *)
Lemma createKnowledge_table (knowledge : RAGKnowledgeItem) (now : Z) (db : Db) :
  let db' := snd (createKnowledge knowledge now db) in
  user_knowledge db' = user_knowledge db
  /\ (Store.knowledge db' = Store.knowledge db
      \/ Store.knowledge db'
         = Store.knowledge db ++ [row_of_item knowledge now]).
Proof.
  unfold createKnowledge, insert_knowledge.
  destruct (existsb _ _); simpl.
  - destruct (_ && _); [auto|]. destruct (_ && _); auto.
  - auto.
Qed.

Lemma clear_keeps_unowned (agentId : UUID) (tbl : list Row) (r : Row) :
  In r tbl -> col_agentId r = None ->
  In r (List.filter (fun r => negb (clear_where agentId false r)) tbl).
Proof.
  intros Hin Hnull. apply filter_In. split; [exact Hin|].
  unfold clear_where, Sql.text_eq. now rewrite Hnull.
Qed.

Lemma store_inv_routed (userId : option UUID) (db : Db) :
  store_inv db -> shared_unowned (routed_table userId db).
Proof.
  intros [Hmain Husers]. unfold routed_table.
  destruct userId as [u|]; [|exact Hmain].
  destruct (String.eqb u ""); [exact Hmain|].
  unfold user_table.
  destruct (_ !! _) as [tbl|] eqn:E; [eauto | constructor].
Qed.

(** C10.  A row built by [createKnowledge] from an item whose
    [content.metadata.isShared] is set has a [NULL] [agentId] and
    [isShared = 1], and that row is all a call may add to the table; every
    [createKnowledge] call preserves the invariant
    that rows flagged shared have no owner; and under that invariant
    [clearKnowledge] without the shared flag, for any agent id, keeps every
    shared row of the table it is routed to. *)
Theorem shared_rows_unowned_and_survive_clear :
  (forall (knowledge : RAGKnowledgeItem) (now : Z),
      truthy_bool (isShared (metadata (content knowledge))) = true ->
      col_agentId (row_of_item knowledge now) = None
      /\ col_isShared (row_of_item knowledge now) = 1%Z)
  /\ (forall (knowledge : RAGKnowledgeItem) (now : Z) (db : Db),
         Store.knowledge (snd (createKnowledge knowledge now db))
         = Store.knowledge db
         \/ Store.knowledge (snd (createKnowledge knowledge now db))
            = Store.knowledge db ++ [row_of_item knowledge now])
  /\ (forall (knowledge : RAGKnowledgeItem) (now : Z) (db : Db),
         store_inv db -> store_inv (snd (createKnowledge knowledge now db)))
  /\ (forall (agentId : UUID) (userId : option UUID) (db : Db) (r : Row),
         store_inv db ->
         In r (routed_table userId db) ->
         col_isShared r = 1%Z ->
         fst (clearKnowledge agentId false userId db) = Ok tt
         /\ In r (routed_table userId
                    (snd (clearKnowledge agentId false userId db)))).
Proof.
  split; [exact row_of_item_shared|]. split.
  { intros knowledge now db.
    exact (proj2 (createKnowledge_table knowledge now db)). }
  split.
  - intros knowledge now db [Hmain Husers].
    destruct (createKnowledge_table knowledge now db) as [Hu Hk].
    split.
    + destruct Hk as [->| ->]; [exact Hmain|].
      apply Forall_app. split; [exact Hmain|].
      constructor; [|constructor]. apply row_of_item_unowned_if_flagged.
    + rewrite Hu. exact Husers.
  - intros agentId userId db r Hinv Hin Hflag.
    pose proof (store_inv_routed userId db Hinv) as Hsh.
    assert (Hnull : col_agentId r = None).
    { unfold shared_unowned in Hsh. rewrite List.Forall_forall in Hsh. auto. }
    unfold clearKnowledge, base_clearKnowledge, routed_table in *.
    destruct userId as [u|]; [destruct (String.eqb u "") eqn:Eu|]; simpl;
      rewrite ?Eu; simpl; split; try reflexivity.
    + now apply clear_keeps_unowned.
    + rewrite routed_table_set. now apply clear_keeps_unowned.
    + now apply clear_keeps_unowned.
Qed.

End SharedRowsFacts.

Section SharedRowsWitness.

Import Store Samples.

Lemma store_inv_empty (vss : bool) : store_inv (db_of [] vss).
Proof.
  split; [constructor|]. intros u tbl H. simpl in H.
  rewrite lookup_empty in H. discriminate.
Defined.

Lemma shared_rows_unowned_and_survive_clear_witness :
  truthy_bool (isShared (metadata (content far_shared_item))) = true
  /\ store_inv (snd (createKnowledge far_shared_item 0 (db_of [] true)))
  /\ In far_shared_row
       (routed_table None
          (snd (clearKnowledge "agent-2" false None
                  (snd (createKnowledge far_shared_item 0 (db_of [] true)))))).
Proof.
  destruct shared_rows_unowned_and_survive_clear as (_ & _ & Hcreate & Hclear).
  split; [reflexivity|].
  pose proof (Hcreate far_shared_item 0%Z (db_of [] true) (store_inv_empty true))
    as Hinv.
  split; [exact Hinv|].
  apply (Hclear "agent-2" None _ far_shared_row Hinv).
  - left. reflexivity.
  - reflexivity.
Defined.

End SharedRowsWitness.

(** ** Hybrid search *)

Section SearchFacts.

Import Store Samples.

Lemma Qle_bool_total (x y : Q) : Qle_bool x y = true \/ Qle_bool y x = true.
Proof.
  rewrite !Qle_bool_iff. destruct (Qlt_le_dec x y) as [H|H]; [left|right]; auto.
  now apply Qlt_le_weak.
Qed.

Lemma Qle_bool_trans (x y z : Q) :
  Qle_bool x y = true -> Qle_bool y z = true -> Qle_bool x z = true.
Proof.
  rewrite !Qle_bool_iff. apply Qle_trans.
Qed.

Lemma scored_rows_spec dist query agentId pattern tbl scored :
  scored_rows dist query agentId pattern tbl = Ok scored ->
  forall s, In s scored ->
    In (sc_row s) tbl
    /\ vector_scope agentId (sc_row s) = true
    /\ keyword_score s = keyword_score_of pattern (sc_row s)
    /\ exists d, dist (col_embedding (sc_row s)) query = Ok d
                 /\ vector_score s = vector_score_of d.
Proof.
  revert scored. induction tbl as [|r tbl IH]; simpl; intros scored H s Hs.
  - injection H as <-. destruct Hs.
  - destruct (vector_scope agentId r) eqn:Hscope.
    + destruct (dist (col_embedding r) query) as [d|e] eqn:Hd; [|discriminate].
      simpl in H.
      destruct (scored_rows dist query agentId pattern tbl) as [rest|e];
        [|discriminate].
      simpl in H. injection H as <-. destruct Hs as [<-|Hs].
      * simpl. repeat split; auto. eauto.
      * destruct (IH rest eq_refl s Hs) as (? & ? & ? & ?). auto.
    + destruct (IH scored H s Hs) as (? & ? & ? & ?). auto.
Qed.

(** X13.  What the hybrid statement guarantees: every selected row is a
    row of the table, every selected row with an owner meets the
    threshold clause or the keyword clause, and rows come in descending
    order of the combined score. *)
Lemma hybrid_rows_spec (params : SearchParams) (db : Db) (rows : list Scored) :
  hybrid_rows params db = Ok rows ->
  StronglySorted
    (fun a b => Qle_bool (combined_score b) (combined_score a) = true) rows
  /\ forall s, In s rows ->
       In (sc_row s) (knowledge db)
       /\ (col_agentId (sc_row s) <> None ->
           Qle_bool (match_threshold params) (vector_score s) = true
           \/ (Qle_bool (keyword_score s) 1 = false
               /\ Qle_bool (3 # 10) (vector_score s) = true)).
Proof.
  unfold hybrid_rows. destruct (vec_distance_L2 db) as [dist|]; [|discriminate].
  destruct (scored_rows _ _ _ _ _) as [scored|e] eqn:Hsc; [|discriminate].
  simpl. intros [= <-]. split.
  - apply limit_sorted.
    apply (order_by_sorted by_combined_desc).
    + intros a b. apply Qle_bool_total.
    + intros a b c Hab Hbc. unfold by_combined_desc in *.
      eapply Qle_bool_trans; eauto.
  - intros s Hs. apply limit_In in Hs. apply order_by_In in Hs.
    apply filter_In in Hs as [Hs Hw].
    destruct (scored_rows_spec _ _ _ _ _ _ Hsc s Hs) as (Hin & _).
    split; [exact Hin|]. intros Howned.
    unfold search_where in Hw.
    destruct (col_agentId (sc_row s)) as [a|]; [|congruence].
    simpl in Hw. apply andb_prop in Hw as [_ Hw].
    apply orb_prop in Hw as [Hw|Hw]; [left; exact Hw|right].
    apply andb_prop in Hw as [Hk Hv]. split; [|exact Hv].
    now apply negb_true_iff.
Qed.

(** C4.  With a shared row at distance 9 from the query (vector score
    1/10) whose text does not contain the query (keyword score 1), the
    hybrid search of an agent returns that row: it meets neither the match
    threshold 0.85 nor the keyword clause.  In the outer [WHERE] the
    threshold clause is attached by [AND] to [k.agentId = ?] only, so
    shared rows bypass it. *)
Theorem searchKnowledge_returns_shared_row_below_threshold :
  forall (JSON_stringify : list RAGKnowledgeItem -> string)
         (JSON_parse : string -> result (list RAGKnowledgeItem)),
  exists rows results db' s,
    hybrid_rows tea_query mixed_db = Ok rows
    /\ searchKnowledge JSON_stringify JSON_parse tea_query mixed_db
       = (Ok results, db')
    /\ results = map item_of_scored rows
    /\ In s rows
    /\ sc_row s = far_shared_row
    /\ vector_score s == 1 # 10
    /\ keyword_score s == 1
    /\ Qle_bool (match_threshold tea_query) (vector_score s) = false
    /\ negb (Qle_bool (keyword_score s) 1) = false
    /\ Qle_bool (3 # 10) (vector_score s) = false.
Proof.
  intros js jp.
  exists [ {| sc_row := doc_chunk_row; vector_score := vector_score_of (Qabs (1 - 0));
             keyword_score := keyword_score_of "%tea%" doc_chunk_row |};
           {| sc_row := doc_row; vector_score := vector_score_of (Qabs (1 - 0));
             keyword_score := keyword_score_of "%tea%" doc_row |};
           {| sc_row := far_shared_row; vector_score := vector_score_of (Qabs (9 - 0));
             keyword_score := keyword_score_of "%tea%" far_shared_row |} ].
  eexists. eexists. eexists.
  split; [vm_compute; reflexivity|].
  split.
  { unfold searchKnowledge.
    replace (truthy_str (getCache (cacheKey tea_query) (sp_agentId tea_query) mixed_db))
      with false by (vm_compute; reflexivity).
    unfold hybrid_query.
    replace (hybrid_rows tea_query mixed_db) with
      (Ok [ {| sc_row := doc_chunk_row; vector_score := vector_score_of (Qabs (1 - 0));
               keyword_score := keyword_score_of "%tea%" doc_chunk_row |};
            {| sc_row := doc_row; vector_score := vector_score_of (Qabs (1 - 0));
               keyword_score := keyword_score_of "%tea%" doc_row |};
            {| sc_row := far_shared_row; vector_score := vector_score_of (Qabs (9 - 0));
               keyword_score := keyword_score_of "%tea%" far_shared_row |} ])
      by (vm_compute; reflexivity).
    simpl bind. cbv iota. reflexivity. }
  split; [reflexivity|].
  split; [right; right; left; reflexivity|].
  split; [reflexivity|].
  repeat split; vm_compute; reflexivity.
Qed.

End SearchFacts.

(** ** Memories *)

Section MemoryFacts.

Import Store Memories Samples.

Lemma with_similarity_length dist query rs :
  (forall x, exists d, dist x query = Ok d) ->
  exists found, with_similarity dist query rs = Ok found
                /\ length found = length rs.
Proof.
  intros Htot. induction rs as [|r rs (found & Hf & Hl)]; simpl.
  - now exists [].
  - destruct (Htot (m_embedding r)) as [d ->]. simpl. rewrite Hf. simpl.
    eexists. split; [reflexivity|]. simpl. now rewrite Hl.
Qed.

Lemma limit_one_empty {A} (l : list A) :
  (length (Sql.limit 1 l) =? 0)%nat = (length l =? 0)%nat.
Proof.
  destruct l; reflexivity.
Qed.

(** The search behind the uniqueness check returns a memory as soon as one
    row of the same table, agent and room has an embedding, whatever its
    distance to the new embedding: the flag is [true] exactly when no such
    row is stored. *)
Lemma isUnique_counts_rows_not_similarity (memory : Memory) (tableName : string)
  (db : MemDb) (e : Embedding) dist :
  mem_embedding memory = Some e ->
  Memories.vec_distance_L2 db = Some dist ->
  (forall x, exists d, dist x e = Ok d) ->
  isUnique memory tableName db
  = Ok (length
          (List.filter
             (embedding_where
                {| es_match_threshold := Some (95 # 100);
                   es_count := Some 1%Z;
                   es_roomId := Some (mem_roomId memory);
                   es_agentId :=
                     if String.eqb (mem_agentId memory) "" then getDefaultAgentId
                     else mem_agentId memory;
                   es_unique := None;
                   es_tableName := tableName;
                   es_userId := None |})
             (memories db)) =? 0)%nat.
Proof.
  intros He Hdist Htot. unfold isUnique. rewrite He.
  unfold searchMemoriesByEmbedding. simpl.
  unfold base_searchMemoriesByEmbedding, searchMemoriesByEmbedding_on.
  rewrite Hdist.
  match goal with
  | |- context [with_similarity dist e ?rs] =>
      destruct (with_similarity_length dist e rs Htot) as (found & -> & Hlen)
  end.
  simpl. rewrite limit_one_empty, order_by_length, Hlen. reflexivity.
Qed.

(** C6.  A store holds one memory whose embedding is at distance 9 from
    the new memory's embedding, in the same table, for the same agent and
    room.  [createMemory] finds it through [searchMemoriesByEmbedding],
    which never reads [match_threshold], and writes the new memory with
    the unique flag 0. *)
Theorem createMemory_flags_dissimilar_memory_as_duplicate :
  exists found db' row,
    searchMemoriesByEmbedding [0%Q]
      {| es_match_threshold := Some (95 # 100); es_count := Some 1%Z;
         es_roomId := Some "room-1"; es_agentId := "agent-1";
         es_unique := None; es_tableName := "messages";
         es_userId := None |} memory_db
    = Ok [found]
    /\ found_row found = stored_memory
    /\ found_similarity found = Some (9 # 1)
    /\ isUnique new_memory "messages" memory_db = Ok false
    /\ createMemory new_memory "messages" 2000 "fresh" memory_db = (Ok tt, db')
    /\ memories db' = [stored_memory; row]
    /\ m_id row = "m2"
    /\ m_unique row = 0%Z.
Proof.
  eexists. eexists. eexists.
  split; [vm_compute; reflexivity|].
  repeat split; vm_compute; reflexivity.
Qed.

End MemoryFacts.

(** ** Retrieval *)

Section RetrievalFacts.

Import Store Manager.

Context {S : Type} (core : Core) (runtime : Runtime S).

(** The manager asks the store for twice as many candidates as it is
    going to return, at its own threshold. *)
Lemma search_request_count (params : GetParams) (userId : option UUID)
  (embedding : Embedding) :
  match_count (search_request runtime params userId embedding)
  = (2 * result_count params)%Z
  /\ match_threshold (search_request runtime params userId embedding)
     = defaultRAGMatchThreshold.
Proof.
  unfold search_request. simpl. split; [lia | reflexivity].
Qed.

(** The ways the search path can fail: the embedding call or the store's
    search (reranking is total). *)
Lemma semantic_search_failures (params : GetParams) (userId : option UUID)
  (s : S) (e : JsError) (s' : S) :
  semantic_search core runtime params userId s = (Throw e, s') ->
  (embed core (embedded_text params) = Throw e /\ s' = s)
  \/ (exists emb,
         embed core (embedded_text params) = Ok emb
         /\ db_searchKnowledge (databaseAdapter runtime)
              (search_request runtime params userId emb) s = (Throw e, s')).
Proof.
  unfold semantic_search.
  destruct (embed core (embedded_text params)) as [emb|e0] eqn:He.
  - destruct (db_searchKnowledge _ _ s) as [[results|e1] s1] eqn:Hs;
      [discriminate|].
    intros [= <- <-]. right. eauto.
  - intros [= <- <-]. now left.
Qed.

(** Without a direct id lookup the whole of [getKnowledge] is the guarded
    search. *)
Lemma getKnowledge_catches_search_errors (params : GetParams) (s : S) :
  truthy_str (gp_id params) = false ->
  let userId := or_else truthy_str (gp_userId params) (currentUserId runtime) in
  (exists found s', getKnowledge core runtime params s = (Ok found, s'))
  /\ (forall e,
         truthy_str (query params) = true ->
         embed core (embedded_text params) = Throw e ->
         getKnowledge core runtime params s = (Ok [], s))
  /\ (forall emb e s',
         truthy_str (query params) = true ->
         embed core (embedded_text params) = Ok emb ->
         db_searchKnowledge (databaseAdapter runtime)
           (search_request runtime params userId emb) s = (Throw e, s') ->
         getKnowledge core runtime params s = (Ok [], s')).
Proof.
  intros Hid userId.
  split; [|split].
  - unfold getKnowledge. rewrite Hid.
    destruct (truthy_str (query params)); [|eauto].
    destruct (semantic_search _ _ _ _ _) as [[found|e] s']; eauto.
  - intros e Hq He. unfold getKnowledge, semantic_search.
    now rewrite Hid, Hq, He.
  - intros emb e s' Hq He Hs. unfold getKnowledge, semantic_search.
    fold userId. now rewrite Hid, Hq, He, Hs.
Qed.

(** The direct lookup by id, when one is requested, runs before the
    guarded search: an error of the store there is not caught. *)
Lemma getKnowledge_direct_lookup_error (params : GetParams) (s s' : S)
  (e : JsError) :
  truthy_str (gp_id params) = true ->
  db_getKnowledge (databaseAdapter runtime) (gp_id params)
    (if truthy_str (gp_agentId params)
     then template (gp_agentId params) else rt_agentId runtime)
    (or_else truthy_str (gp_userId params) (currentUserId runtime)) s
  = (Throw e, s') ->
  getKnowledge core runtime params s = (Throw e, s').
Proof.
  intros Hid H. unfold getKnowledge. cbv zeta. rewrite Hid.
  match goal with
  | |- context [db_getKnowledge ?a ?b ?c ?d ?x] =>
      replace (db_getKnowledge a b c d x)
        with (@Throw (list RAGKnowledgeItem) e, s') by (symmetry; exact H)
  end.
  reflexivity.
Qed.

(** The guarded part.  For every query text, conversation context, limit
    and tenant (and agent id), and every behaviour of the embedding call
    and of the store, [getKnowledge] without an id returns a list, and
    when the embedding call or the store's search throws it returns the
    empty list. *)
Theorem getKnowledge_search_never_raises :
  forall (query context : option string) (limit : option Z)
         (agentId tenant : option UUID) (s : S),
    let params :=
      {| Manager.query := query; gp_id := None;
         conversationContext := context; Manager.limit := limit;
         gp_agentId := agentId; gp_userId := tenant |} in
    let userId := or_else truthy_str tenant (currentUserId runtime) in
    (exists found s', getKnowledge core runtime params s = (Ok found, s'))
    /\ (forall e,
           truthy_str query = true ->
           embed core (embedded_text params) = Throw e ->
           getKnowledge core runtime params s = (Ok [], s))
    /\ (forall emb e s',
           truthy_str query = true ->
           embed core (embedded_text params) = Ok emb ->
           db_searchKnowledge (databaseAdapter runtime)
             (search_request runtime params userId emb) s = (Throw e, s') ->
           getKnowledge core runtime params s = (Ok [], s')).
Proof.
  intros query context limit agentId tenant s params userId.
  exact (getKnowledge_catches_search_errors params s eq_refl).
Qed.

End RetrievalFacts.

Section RetrievalWitness.

Import Store Manager Samples.

Lemma getKnowledge_search_never_raises_witness :
  truthy_str (query tea_question) = true
  /\ embed sample_core (embedded_text tea_question) = Ok [inject_Z 31]
  /\ db_searchKnowledge failing_adapter
       (search_request failing_runtime tea_question (Some "user-1")
          [inject_Z 31])
       tt
     = (Throw store_down, tt)
  /\ getKnowledge sample_core failing_runtime tea_question tt = (Ok [], tt).
Proof.
  split; [reflexivity|]. split; [reflexivity|]. split; [reflexivity|].
  refine (proj2 (proj2 (getKnowledge_search_never_raises
            sample_core failing_runtime
            (Some "What is the price of green tea?") None (Some 5%Z) None None
            tt))
            _ store_down tt eq_refl eq_refl eq_refl).
Defined.

(** C7.  [getKnowledge] raises when the direct lookup by id fails.  On a
    store whose every call throws [SQLITE_IOERR], the question asked with
    the id [doc] makes [getKnowledge] throw the store's error, while the
    same question asked without the id returns the empty list: the lookup
    by id runs before the [try] block that guards the search, so its
    error is not caught. *)
Theorem getKnowledge_raises_on_direct_lookup_failure :
  truthy_str (gp_id tea_by_id) = true
  /\ db_getKnowledge (databaseAdapter failing_runtime) (gp_id tea_by_id)
       (rt_agentId failing_runtime) (currentUserId failing_runtime) tt
     = (Throw store_down, tt)
  /\ getKnowledge sample_core failing_runtime tea_by_id tt
     = (Throw store_down, tt)
  /\ getKnowledge sample_core failing_runtime tea_question tt = (Ok [], tt)
  /\ query tea_by_id = query tea_question
  /\ conversationContext tea_by_id = conversationContext tea_question
  /\ limit tea_by_id = limit tea_question.
Proof.
  split; [reflexivity|]. split; [reflexivity|]. split.
  - apply getKnowledge_direct_lookup_error; reflexivity.
  - split; [|repeat split].
    exact (proj2 (proj2 (getKnowledge_catches_search_errors
                           sample_core failing_runtime tea_question tt eq_refl))
             [inject_Z 31] store_down tt eq_refl eq_refl eq_refl).
Qed.

End RetrievalWitness.

(** ** Fallback search *)

Section FallbackFacts.

Import Store.

Lemma by_priority_recency_iff (a b : Row) :
  by_priority_recency a b = true <->
  (type_priority b < type_priority a
   \/ (type_priority b = type_priority a /\ col_createdAt b <= col_createdAt a))%Z.
Proof.
  unfold by_priority_recency.
  rewrite orb_true_iff, andb_true_iff, Z.ltb_lt, Z.eqb_eq, Z.leb_le. tauto.
Qed.

Lemma by_priority_recency_total (a b : Row) :
  by_priority_recency a b = true \/ by_priority_recency b a = true.
Proof.
  rewrite !by_priority_recency_iff. lia.
Qed.

Lemma by_priority_recency_trans (a b c : Row) :
  by_priority_recency a b = true -> by_priority_recency b c = true ->
  by_priority_recency a c = true.
Proof.
  rewrite !by_priority_recency_iff. lia.
Qed.

Lemma limit_nonempty {A} (n : Z) (l : list A) :
  n <> 0%Z -> l <> [] -> Sql.limit n l <> [].
Proof.
  unfold Sql.limit. intros Hn Hl. destruct (n <? 0)%Z eqn:E; [exact Hl|].
  apply Z.ltb_ge in E. destruct l as [|x l]; [congruence|].
  destruct (Z.to_nat n) eqn:En; [lia | discriminate].
Qed.

Lemma fallback_rows_spec (params : SearchParams) (db : Db) :
  let matching := List.filter (fallback_where params) (knowledge db) in
  let rows := fallback_rows params db in
  StronglySorted (fun a b => by_priority_recency a b = true) rows
  /\ (forall r, In r rows -> In r matching)
  /\ ((match_count params < 0
       \/ Z.of_nat (length matching) <= match_count params)%Z ->
      forall r, In r matching -> In r rows)
  /\ (match_count params <> 0%Z -> matching <> [] -> rows <> []).
Proof.
  intros matching rows. subst rows. unfold fallback_rows. fold matching.
  split; [|split; [|split]].
  - apply limit_sorted, order_by_sorted.
    + apply by_priority_recency_total.
    + apply by_priority_recency_trans.
  - intros r Hr. apply limit_In in Hr. now apply order_by_In in Hr.
  - intros Hfit r Hr. rewrite limit_all.
    + now apply order_by_In.
    + now rewrite order_by_length.
  - intros Hn Hm. apply limit_nonempty; [exact Hn|].
    intros Hnil. apply Hm. apply length_zero_iff_nil.
    rewrite <- (order_by_length by_priority_recency), Hnil. reflexivity.
Qed.

(** C8.  When [vec_distance_L2] is not registered and the cache holds
    nothing for the query, [searchKnowledge] does not throw: it returns
    one item for each row that the fallback statement selects, carrying
    the row's id, owner, content and creation time, no similarity, and as
    embedding the bytes of the stored vector.  The rows selected are rows
    of the table that belong to the agent or are flagged shared and, when
    a search text is given, whose text is [LIKE] it; main items come
    first and more recent rows first among rows of equal priority, up to
    [match_count] rows.  Every such row is returned when they fit the
    limit, and the result is not empty when such a row exists and the
    limit is not zero. *)
Theorem searchKnowledge_falls_back_without_vector_function :
  forall (JSON_stringify : list RAGKnowledgeItem -> string)
         (JSON_parse : string -> result (list RAGKnowledgeItem))
         (params : SearchParams) (db : Db),
    vec_distance_L2 db = None ->
    truthy_str (getCache (cacheKey params) (sp_agentId params) db) = false ->
    let matches (r : Row) : bool :=
      (Sql.text_eq (col_agentId r) (sp_agentId params)
       || (col_isShared r =? 1)%Z)
      && match searchText params with
         | Some t =>
             if String.eqb t "" then true
             else Sql.like ("%" ++ Str.toLowerCase t ++ "%")%string
                    (text (col_content r))
         | None => true
         end in
    let main (r : Row) : bool :=
      truthy_bool (isMain (metadata (col_content r))) in
    exists (results : list RAGKnowledgeItem) (rows : list Row),
      fst (searchKnowledge JSON_stringify JSON_parse params db) = Ok results
      /\ Forall2
           (fun i r =>
              id i = col_id r
              /\ agentId i = col_agentId r
              /\ content i = col_content r
              /\ createdAt i = Some (col_createdAt r)
              /\ similarity i = None
              /\ embedding i
                 = match col_embedding r with
                   | Some e => Some (map inject_Z (Float32.to_buffer e))
                   | None => None
                   end)
           results rows
      /\ StronglySorted
           (fun a b =>
              (main a = true /\ main b = false)
              \/ (main a = main b
                  /\ (col_createdAt b <= col_createdAt a)%Z)) rows
      /\ (forall r, In r rows -> In r (knowledge db) /\ matches r = true)
      /\ ((match_count params < 0
           \/ Z.of_nat (length (List.filter matches (knowledge db)))
              <= match_count params)%Z ->
          forall r, In r (knowledge db) -> matches r = true -> In r rows)
      /\ (match_count params <> 0%Z ->
          (exists r, In r (knowledge db) /\ matches r = true) ->
          results <> []).
Proof.
  intros js jp params db Hvec Hmiss matches main.
  assert (Hwhere : forall r, fallback_where params r = matches r).
  { intros r. unfold fallback_where, matches, truthy_str, template.
    destruct (searchText params) as [t|]; [|reflexivity].
    destruct (String.eqb t ""); reflexivity. }
  assert (Hfilter : List.filter (fallback_where params) (knowledge db)
                    = List.filter matches (knowledge db))
    by (apply filter_ext; exact Hwhere).
  destruct (fallback_rows_spec params db) as (Hsorted & Hsound & Hall & Hne).
  cbv zeta in Hsound, Hall, Hne. rewrite Hfilter in Hsound, Hall, Hne.
  exists (map item_of_row (fallback_rows params db)), (fallback_rows params db).
  split; [|split; [|split; [|split; [|split]]]].
  - unfold searchKnowledge. rewrite Hmiss.
    unfold hybrid_query, hybrid_rows. rewrite Hvec. simpl.
    reflexivity.
  - generalize (fallback_rows params db). intros l.
    induction l as [|r l IH]; simpl; constructor; [|exact IH].
    unfold item_of_row, read_embedding, Float32.of_buffer. simpl.
    destruct (col_embedding r); repeat split; reflexivity.
  - clear -Hsorted. cbv zeta in Hsorted.
    induction Hsorted as [|a l Hs IH Hall]; constructor; auto.
    rewrite List.Forall_forall in *. intros b Hb.
    specialize (Hall b Hb). apply by_priority_recency_iff in Hall.
    unfold type_priority in Hall. subst main. simpl.
    destruct (truthy_bool (isMain (metadata (col_content a)))),
             (truthy_bool (isMain (metadata (col_content b))));
      [right|left|exfalso|right]; try (split; [reflexivity|]); try lia; auto.
  - intros r Hr. apply Hsound in Hr. now apply filter_In in Hr.
  - intros Hfit r Hr Hw. apply Hall; [exact Hfit|]. now apply filter_In.
  - intros Hn (r & Hr & Hw) Hnil. apply Hne; [exact Hn| |].
    + intros Hempty. assert (Hin : In r (List.filter matches (knowledge db)))
        by now apply filter_In.
      rewrite Hempty in Hin. destruct Hin.
    + now apply map_eq_nil in Hnil.
Qed.

End FallbackFacts.

Section FallbackWitness.

Import Store Samples.

Lemma searchKnowledge_falls_back_without_vector_function_witness :
  vec_distance_L2 no_vector_db = None
  /\ truthy_str (getCache (cacheKey tea_query) (sp_agentId tea_query) no_vector_db)
     = false
  /\ exists results,
       fst (searchKnowledge sample_stringify sample_parse tea_query no_vector_db)
       = Ok results
       /\ map id results = ["doc"; "doc-chunk-0"]
       /\ map (fun i => text (content i)) results
          = ["green tea prices"; "green tea prices"]
       /\ map embedding results
          = [Some (map inject_Z [0; 0; 128; 63]%Z);
             Some (map inject_Z [0; 0; 128; 63]%Z)].
Proof.
  split; [reflexivity|]. split; [reflexivity|].
  destruct (searchKnowledge_falls_back_without_vector_function
              sample_stringify sample_parse tea_query no_vector_db
              eq_refl eq_refl) as (results & rows & Hres & _).
  exists results. split; [exact Hres|].
  assert (Hc : fst (searchKnowledge sample_stringify sample_parse tea_query
                      no_vector_db)
               = Ok [item_of_row doc_row; item_of_row doc_chunk_row])
    by (vm_compute; reflexivity).
  rewrite Hres in Hc. injection Hc as ->.
  repeat split; vm_compute; reflexivity.
Defined.

End FallbackWitness.

(** ** Search cache *)

Section CacheFacts.

Import Store.

Variable JSON_stringify : list RAGKnowledgeItem -> string.
Variable JSON_parse : string -> result (list RAGKnowledgeItem).

Lemma getCache_setCache_same (key : string) (agentId : UUID) (value : string)
  (db : Db) :
  getCache key agentId (setCache key agentId value db) = Some value.
Proof.
  unfold getCache, setCache. simpl. apply lookup_insert_eq.
Qed.

Lemma getCache_setCache_other_agent (key key' : string) (agentId agentId' : UUID)
  (value : string) (db : Db) :
  agentId' <> agentId ->
  getCache key' agentId' (setCache key agentId value db)
  = getCache key' agentId' db.
Proof.
  intros Hne. unfold getCache, setCache. simpl.
  apply lookup_insert_ne. congruence.
Qed.

Lemma append_inv_head (p a b : string) :
  (p ++ a)%string = (p ++ b)%string -> a = b.
Proof.
  induction p as [|c p IH]; simpl; [auto|]. intros [= H]. auto.
Qed.

(** The key determines the search text, as a template prints it, once
    the agent is fixed. *)
Lemma cacheKey_inj (params params2 : SearchParams) :
  sp_agentId params2 = sp_agentId params ->
  cacheKey params2 = cacheKey params ->
  template (searchText params2) = template (searchText params).
Proof.
  unfold cacheKey. intros -> H.
  apply append_inv_head in H. apply append_inv_head in H.
  now apply append_inv_head in H.
Qed.

(** C9.  A search that misses the cache and runs (the hybrid statement
    succeeds, or the vector function is reported missing and the fallback
    statement runs) stores its serialized result under the key built from
    the agent id and the search text, for that agent.  Any later call with
    the same agent id and search text is answered from that entry, whatever
    the [knowledge] table, the engine, the embedding, the threshold and the
    count then are.  The key is that of this agent and this text only: the
    entry of the same agent for any other search text is as it was before
    the write, and so is every entry of every other agent. *)
Theorem searchKnowledge_cache_write_through :
  forall (params : SearchParams) (db : Db) (results : list RAGKnowledgeItem),
    (forall l, JSON_stringify l <> "") ->
    truthy_str (getCache (cacheKey params) (sp_agentId params) db) = false ->
    (hybrid_query params db = Ok results
     \/ (exists e, hybrid_query params db = Throw e
                   /\ Str.includes "no such function: vec_distance_L2" (message e)
                      = true
                   /\ results = fallback_query params db)) ->
    let db1 := snd (searchKnowledge JSON_stringify JSON_parse params db) in
    fst (searchKnowledge JSON_stringify JSON_parse params db) = Ok results
    /\ getCache (cacheKey params) (sp_agentId params) db1
       = Some (JSON_stringify results)
    /\ cacheKey params
       = ("embedding_" ++ sp_agentId params ++ "_"
            ++ template (searchText params))%string
    /\ (forall (params2 : SearchParams) (db2 : Db),
           sp_agentId params2 = sp_agentId params ->
           template (searchText params2) = template (searchText params) ->
           cache db2 = cache db1 ->
           searchKnowledge JSON_stringify JSON_parse params2 db2
           = (JSON_parse (JSON_stringify results), db2))
    /\ (forall (params2 : SearchParams),
           sp_agentId params2 = sp_agentId params ->
           template (searchText params2) <> template (searchText params) ->
           getCache (cacheKey params2) (sp_agentId params2) db1
           = getCache (cacheKey params2) (sp_agentId params2) db)
    /\ (forall (key : string) (other : UUID),
           other <> sp_agentId params ->
           getCache key other db1 = getCache key other db).
Proof.
  intros params db results Hjson Hmiss Hran db1.
  assert (Hrun : searchKnowledge JSON_stringify JSON_parse params db
                 = (Ok results,
                    setCache (cacheKey params) (sp_agentId params)
                      (JSON_stringify results) db)).
  { unfold searchKnowledge. rewrite Hmiss.
    destruct Hran as [-> | (e & -> & -> & ->)]; reflexivity. }
  subst db1. rewrite Hrun. simpl.
  split; [reflexivity|]. split; [apply getCache_setCache_same|].
  split; [reflexivity|]. split; [|split].
  - intros params2 db2 Hagent Htext Hcache.
    unfold searchKnowledge.
    assert (Hhit : getCache (cacheKey params2) (sp_agentId params2) db2
                   = Some (JSON_stringify results)).
    { unfold getCache, cacheKey. rewrite Hcache, Hagent, Htext.
      apply getCache_setCache_same. }
    rewrite Hhit. simpl.
    specialize (Hjson results). apply String.eqb_neq in Hjson.
    now rewrite Hjson.
  - intros params2 Hagent Htext. unfold getCache, setCache.
    cbn [cache set_cache].
    apply lookup_insert_ne. intros Heq.
    apply Htext, cacheKey_inj; [exact Hagent|].
    exact (eq_sym (f_equal fst Heq)).
  - intros key other Hne. now apply getCache_setCache_other_agent.
Qed.

End CacheFacts.

Section CacheWitness.

Import Store Samples.

Lemma sample_stringify_nonempty (l : list RAGKnowledgeItem) :
  sample_stringify l <> "".
Proof.
  unfold sample_stringify. simpl. discriminate.
Defined.

Lemma searchKnowledge_cache_write_through_witness :
  (forall l, sample_stringify l <> "")
  /\ truthy_str (getCache (cacheKey tea_query) (sp_agentId tea_query) mixed_db)
     = false
  /\ hybrid_query tea_query mixed_db = Ok tea_results
  /\ map id tea_results = ["doc-chunk-0"; "doc"; "far"]
  /\ fst (searchKnowledge sample_stringify tea_parse tea_query mixed_db)
     = Ok tea_results
  /\ knowledge emptied_db = []
  /\ searchKnowledge sample_stringify tea_parse tea_query_again emptied_db
     = (Ok tea_results, emptied_db)
  /\ fst (searchKnowledge sample_stringify tea_parse coffee_query emptied_db)
     = Ok [].
Proof.
  split; [exact sample_stringify_nonempty|].
  split; [reflexivity|].
  assert (Hq : hybrid_query tea_query mixed_db = Ok tea_results)
    by (vm_compute; reflexivity).
  split; [exact Hq|].
  split; [vm_compute; reflexivity|].
  pose proof (searchKnowledge_cache_write_through
                sample_stringify tea_parse tea_query mixed_db tea_results
                sample_stringify_nonempty eq_refl (or_introl Hq)) as H.
  split; [exact (proj1 H)|].
  split; [reflexivity|].
  split.
  - refine (eq_trans
              (proj1 (proj2 (proj2 (proj2 H))) tea_query_again emptied_db
                 eq_refl eq_refl eq_refl) _).
    unfold tea_parse. now rewrite String.eqb_refl.
  - assert (Hmiss : getCache (cacheKey coffee_query) (sp_agentId coffee_query)
                      emptied_db = None).
    { change (getCache (cacheKey coffee_query) (sp_agentId coffee_query)
                (snd (searchKnowledge sample_stringify tea_parse tea_query
                        mixed_db)) = None).
      rewrite (proj1 (proj2 (proj2 (proj2 (proj2 H)))) coffee_query eq_refl);
        [reflexivity | discriminate]. }
    unfold searchKnowledge. rewrite Hmiss. vm_compute. reflexivity.
Defined.

End CacheWitness.

(** ** Ingestion *)

Section IngestionFacts.

Import Store Manager.

Variable JSON_stringify : list RAGKnowledgeItem -> string.
Variable JSON_parse : string -> result (list RAGKnowledgeItem).
Variable io : nat -> option JsError.
Variable core : Core.
Variable agent : UUID.
Variable user : option UUID.

Let runtime : Runtime Db :=
  {| rt_agentId := agent; currentUserId := user;
     databaseAdapter := sqlite JSON_stringify JSON_parse io |}.

Let ids (db : Db) : list string := map col_id (knowledge db).

Lemma existsb_id_In (i : string) (tbl : list Row) :
  existsb (fun r' => String.eqb (col_id r') i) tbl = true
  <-> In i (map col_id tbl).
Proof.
  rewrite existsb_exists, in_map_iff. split.
  - intros (r & Hr & He). apply String.eqb_eq in He. eauto.
  - intros (r & He & Hr). exists r. split; [exact Hr|]. now apply String.eqb_eq.
Qed.

(** On a shared item the store's [createKnowledge] never throws: the row
    is appended when its id is new and the call changes nothing when the
    id is taken. *)
Lemma createKnowledge_shared (knowledge : RAGKnowledgeItem) (now : Z) (db : Db) :
  truthy_bool (isShared (metadata (content knowledge))) = true ->
  (In (id knowledge) (ids db)
   /\ Store.createKnowledge knowledge now db = (Ok tt, db))
  \/ (~ In (id knowledge) (ids db)
      /\ Store.createKnowledge knowledge now db
         = (Ok tt, set_knowledge db
                     (Store.knowledge db ++ [row_of_item knowledge now]))).
Proof.
  intros Hshared. unfold Store.createKnowledge, insert_knowledge.
  destruct (existsb _ _) eqn:E.
  - left. split; [now apply existsb_id_In in E|].
    now rewrite Hshared.
  - right. split; [|reflexivity].
    intros Hin. unfold ids in Hin. apply existsb_id_In in Hin.
    simpl in E. rewrite Hin in E. discriminate.
Qed.

Lemma createKnowledge_shared_ids (knowledge : RAGKnowledgeItem) (now : Z) (db : Db) :
  truthy_bool (isShared (metadata (content knowledge))) = true ->
  exists db',
    Store.createKnowledge knowledge now db = (Ok tt, db')
    /\ In (id knowledge) (ids db')
    /\ incl (ids db) (ids db')
    /\ (List.NoDup (ids db) -> List.NoDup (ids db'))
    /\ (In (id knowledge) (ids db) -> db' = db).
Proof.
  intros Hshared.
  destruct (createKnowledge_shared knowledge now db Hshared)
    as [[Hin ->]|[Hnin ->]]; eexists; (split; [reflexivity|]).
  - repeat split; auto. apply incl_refl.
  - unfold ids. simpl. rewrite map_app. simpl.
    repeat split.
    + apply in_or_app. right. now left.
    + apply incl_appl, incl_refl.
    + intros Hnd. apply List.NoDup_app; [exact Hnd | repeat constructor; auto |].
      intros a Ha [<-|[]]. contradiction.
    + intros Hin. contradiction.
Qed.

Section Chunks.

Variable chunk_item : nat -> string -> Embedding -> Z -> RAGKnowledgeItem.
Variable parent : UUID.
Hypothesis chunk_item_shared :
  forall index chunk e now,
    truthy_bool (isShared (metadata (content (chunk_item index chunk e now))))
    = true.
Hypothesis chunk_item_id :
  forall index chunk e now,
    id (chunk_item index chunk e now) = chunk_id parent index.
Lemma store_chunks_shared (clock : nat -> Z) (chunks : list string) :
  (forall chunk, In chunk chunks -> exists e, embed core chunk = Ok e) ->
  forall (index : nat) (db : Db),
  exists db',
    store_chunks core runtime chunk_item clock index chunks db = (Ok tt, db')
    /\ incl (ids db) (ids db')
    /\ (forall k, (k < length chunks)%nat ->
                  In (chunk_id parent (index + k)) (ids db'))
    /\ (List.NoDup (ids db) -> List.NoDup (ids db'))
    /\ ((forall k, (k < length chunks)%nat ->
                   In (chunk_id parent (index + k)) (ids db)) ->
        db' = db).
Proof using chunk_item_shared chunk_item_id.
  induction chunks as [|chunk chunks IH]; intros Hembed index db; simpl.
  - exists db. repeat split; auto; try apply incl_refl. intros k Hk. lia.
  - destruct (Hembed chunk (or_introl eq_refl)) as [e ->].
    specialize (IH (fun c Hc => Hembed c (or_intror Hc))).
    destruct (createKnowledge_shared_ids
                (chunk_item index chunk e (clock (Datatypes.S index)))
                (clock (Datatypes.S index)) db (chunk_item_shared _ _ _ _))
      as (db1 & -> & Hin1 & Hincl1 & Hnd1 & Hsame1).
    rewrite chunk_item_id in Hin1, Hsame1.
    destruct (IH (Datatypes.S index) db1)
      as (db' & -> & Hincl & Hin & Hnd & Hsame).
    exists db'. split; [reflexivity|]. repeat split.
    + eapply incl_tran; eauto.
    + intros [|k] Hk.
      * rewrite Nat.add_0_r. now apply Hincl.
      * replace (index + Datatypes.S k)%nat with (Datatypes.S index + k)%nat by lia.
        apply Hin. lia.
    + auto.
    + intros Hall.
      assert (db1 = db) as ->.
      { apply Hsame1. specialize (Hall 0%nat). rewrite Nat.add_0_r in Hall.
        apply Hall. lia. }
      apply Hsame. intros k Hk.
      replace (Datatypes.S index + k)%nat with (index + Datatypes.S k)%nat by lia.
      apply Hall. lia.
Qed.

End Chunks.

(** C3.  For a shared source whose embedding calls (on the head of the
    content and on each chunk) succeed, and a table whose ids are distinct: [processFile] succeeds; running it again
    on the same source (at any later clock) succeeds as well and leaves the
    store exactly as the first run left it; the ids stay distinct, and the
    main id and every chunk id, which depend on the source only, each
    occur exactly once. *)
Theorem processFile_shared_twice_is_noop :
  forall (file : File) (clock1 clock2 : nat -> Z) (db : Db),
    truthy_bool (file_isShared file) = true ->
    (exists e,
        embed core (String.substring 0 (Z.to_nat 8192) (file_content file))
        = Ok e) ->
    (forall chunk,
        In chunk (splitChunks core (file_content file) 512 20) ->
        exists e, embed core chunk = Ok e) ->
    List.NoDup (map col_id (knowledge db)) ->
    let first := processFile core runtime file clock1 db in
    let second := processFile core runtime file clock2 (snd first) in
    let stored := map col_id (knowledge (snd first)) in
    fst first = Ok tt
    /\ fst second = Ok tt
    /\ snd second = snd first
    /\ List.NoDup stored
    /\ count_occ string_dec stored (file_id core file) = 1%nat
    /\ (forall index,
           (index < length (splitChunks core (file_content file) 512 20))%nat ->
           count_occ string_dec stored (chunk_id (file_id core file) index)
           = 1%nat).
Proof.
  intros file clock1 clock2 db Hshared Hmain_embed Hembed Hnd.
  set (fileId := file_id core file).
  assert (Hrun : forall clock db0,
    exists db2,
      processFile core runtime file clock db0 = (Ok tt, db2)
      /\ incl (ids db0) (ids db2)
      /\ In fileId (ids db2)
      /\ (forall k, (k < length (splitChunks core (file_content file) 512 20))%nat ->
                    In (chunk_id fileId k) (ids db2))
      /\ (List.NoDup (ids db0) -> List.NoDup (ids db2))
      /\ (In fileId (ids db0) ->
          (forall k, (k < length (splitChunks core (file_content file) 512 20))%nat ->
                     In (chunk_id fileId k) (ids db0)) ->
          db2 = db0)).
  { intros clock db0. unfold processFile, processFile_body.
    destruct Hmain_embed as [e ->].
    simpl db_createKnowledge.
    match goal with
    | |- context [Store.createKnowledge ?it ?now db0] =>
        destruct (createKnowledge_shared_ids it now db0 Hshared)
          as (db1 & Hc & Hin1 & Hincl1 & Hnd1 & Hsame1);
        simpl in Hc; rewrite Hc
    end.
    simpl in Hin1, Hsame1. fold fileId in Hin1, Hsame1.
    match goal with
    | |- context [store_chunks core runtime ?ci clock 0 ?chunks db1] =>
        destruct (store_chunks_shared ci fileId
                    (fun _ _ _ _ => Hshared) (fun _ _ _ _ => eq_refl)
                    clock chunks Hembed 0%nat db1)
          as (db2 & Hs & Hincl2 & Hin2 & Hnd2 & Hsame2);
        rewrite Hs
    end.
    exists db2. split; [reflexivity|]. repeat split.
    - eapply incl_tran; eauto.
    - now apply Hincl2.
    - exact Hin2.
    - auto.
    - intros Hmain Hchunks.
      assert (db1 = db0) as -> by auto.
      apply Hsame2. exact Hchunks. }
  destruct (Hrun clock1 db) as (db1 & H1 & _ & Hmain & Hchunks & Hnd1 & _).
  destruct (Hrun clock2 db1) as (db2 & H2 & _ & _ & _ & _ & Hsame).
  cbn zeta. rewrite H1. simpl fst. simpl snd. rewrite H2. simpl.
  specialize (Hnd1 Hnd). fold (ids db1).
  assert (db2 = db1) as -> by auto.
  repeat split; auto.
  - now apply List.NoDup_count_occ'.
  - intros index Hindex. apply List.NoDup_count_occ'; auto.
Qed.

End IngestionFacts.

Section IngestionWitness.

Import Store Manager Samples.

Lemma sample_embed_succeeds (t : string) : exists e, embed sample_core t = Ok e.
Proof.
  eexists. reflexivity.
Defined.

Lemma processFile_shared_twice_is_noop_witness :
  truthy_bool (file_isShared title_file) = true
  /\ (exists e,
         embed sample_core
           (String.substring 0 (Z.to_nat 8192) (file_content title_file))
         = Ok e)
  /\ (forall chunk,
         In chunk (splitChunks sample_core (file_content title_file) 512 20) ->
         exists e, embed sample_core chunk = Ok e)
  /\ List.NoDup (map col_id (knowledge (db_of [] true)))
  /\ fst (processFile sample_core sqlite_runtime title_file (clock_from 50)
            (snd (processFile sample_core sqlite_runtime title_file
                    (clock_from 10) (db_of [] true))))
     = Ok tt
  /\ snd (processFile sample_core sqlite_runtime title_file (clock_from 50)
            (snd (processFile sample_core sqlite_runtime title_file
                    (clock_from 10) (db_of [] true))))
     = snd (processFile sample_core sqlite_runtime title_file
              (clock_from 10) (db_of [] true)).
Proof.
  split; [reflexivity|]. split; [apply sample_embed_succeeds|].
  split; [intros chunk _; apply sample_embed_succeeds|].
  split; [constructor|].
  pose proof (processFile_shared_twice_is_noop
                sample_stringify sample_parse no_faults sample_core
                "agent-1" (Some "user-1") title_file
                (clock_from 10) (clock_from 50) (db_of [] true)
                eq_refl (sample_embed_succeeds _)
                (fun chunk _ => sample_embed_succeeds chunk)
                (List.NoDup_nil _)) as H.
  split; [exact (proj1 (proj2 H)) | exact (proj1 (proj2 (proj2 H)))].
Defined.

(** The text [processFile] embeds is the first 8192 characters of the
    file content as given: when the embedding call fails on exactly that
    text, nothing else happens. *)
Lemma processFile_embeds_file_content {S : Type} (core : Core)
  (runtime : Runtime S) (file : File) (clock : nat -> Z) (s : S) (e : JsError) :
  embed core (String.substring 0 (Z.to_nat 8192) (file_content file)) = Throw e ->
  processFile_body core runtime file clock s = (Throw e, s).
Proof.
  intros H. unfold processFile_body. now rewrite H.
Qed.

(** C5.  [processFile] on the source [# Title] embeds and chunks the raw
    text: the stored main row carries the embedding of [# Title] (7
    characters), not that of the preprocessed text [title] (5 characters),
    and the stored chunk is [# Title].  The manager's [createKnowledge], on
    the same text, embeds and chunks [title]. *)
Theorem processFile_skips_preprocessing :
  exists main chunk db' main' chunk' db'',
    preprocess (file_content title_file) = "title"
    /\ processFile sample_core sqlite_runtime title_file (clock_from 10)
         (db_of [] true) = (Ok tt, db')
    /\ knowledge db' = [main; chunk]
    /\ Ok (col_embedding main)
       = bind (embed sample_core (file_content title_file)) (fun e => Ok (Some e))
    /\ col_embedding main = Some [7%Q]
    /\ embed sample_core (preprocess (file_content title_file)) = Ok [5%Q]
    /\ text (col_content chunk) = "# Title"
    /\ text (col_content chunk) <> preprocess (file_content title_file)
    /\ Manager.createKnowledge sample_core sqlite_runtime title_item
         (clock_from 10) (db_of [] true) = (Ok tt, db'')
    /\ knowledge db'' = [main'; chunk']
    /\ col_embedding main' = Some [5%Q]
    /\ text (col_content chunk') = "title".
Proof.
  do 6 eexists.
  split; [vm_compute; reflexivity|].
  split; [vm_compute; reflexivity|].
  split; [reflexivity|].
  split; [vm_compute; reflexivity|].
  split; [reflexivity|].
  split; [vm_compute; reflexivity|].
  split; [reflexivity|].
  split; [vm_compute; discriminate|].
  split; [vm_compute; reflexivity|].
  repeat split; reflexivity.
Qed.

End IngestionWitness.

(** * Further properties *)

(** ** Goals migration, continued *)

Section MigrationMore.

Import Goals MoreSamples.

Lemma migrate_twice_is_noop_witness :
  migrateGoalsTable legacy_partition = (Ok tt, migrated_partition)
  /\ migrateGoalsTable migrated_partition = (Ok tt, migrated_partition).
Proof.
  assert (H : migrateGoalsTable legacy_partition = (Ok tt, migrated_partition))
    by reflexivity.
  split; [exact H | exact (migrate_twice_is_noop _ _ H)].
Defined.

Lemma migrate_keeps_row_count_witness :
  migrateGoalsTable legacy_partition = (Ok tt, migrated_partition)
  /\ length (rows (goals migrated_partition)) = 1%nat.
Proof.
  assert (H : migrateGoalsTable legacy_partition = (Ok tt, migrated_partition))
    by reflexivity.
  split; [exact H | exact (migrate_keeps_row_count _ _ H)].
Defined.

Lemma migrate_rows_positional_witness :
  existsb (String.eqb "agentId") (cols (goals legacy_partition)) = false
  /\ Forall (fun r => length r = length (cols (goals legacy_partition)))
       (rows (goals legacy_partition))
  /\ migrateGoalsTable legacy_partition = (Ok tt, migrated_partition)
  /\ rows (goals migrated_partition) = [legacy_row ++ [Some DEFAULT_UUID]].
Proof.
  assert (H : migrateGoalsTable legacy_partition = (Ok tt, migrated_partition))
    by reflexivity.
  assert (Hwf : Forall (fun r => length r = length (cols (goals legacy_partition)))
                  (rows (goals legacy_partition)))
    by (repeat constructor).
  split; [reflexivity|]. split; [exact Hwf|]. split; [exact H|].
  exact (proj2 (migrate_rows_positional legacy_partition migrated_partition
                  eq_refl Hwf H)).
Defined.




End MigrationMore.

(** ** Tenant registry *)

Section RegistryFacts.

Import Registry MoreSamples.

Lemma schema_in_use_attached (name other : string) (t : Tenants) :
  attached t !! name = Some other -> schema_in_use name t = true.
Proof.
  intros H. unfold schema_in_use. apply existsb_exists.
  exists (name, other). split.
  - apply list_elem_of_In. now apply elem_of_map_to_list.
  - unfold Str.eqb_nocase. apply String.eqb_refl.
Qed.

Lemma attach_error_none_free (userId name : string) (t : Tenants) :
  attach_error userId name t = None -> attached t !! name = None.
Proof.
  unfold attach_error. destruct (_ <=? _)%nat; [discriminate|].
  destruct (schema_in_use name t) eqn:Hs; [discriminate|]. intros _.
  destruct (attached t !! name) as [other|] eqn:Ha; [|reflexivity].
  rewrite (schema_in_use_attached _ _ _ Ha) in Hs. discriminate.
Qed.

(** X5.  A resolved tenant stays resolved: once [getUserDatabase] has
    returned a schema name for a user id, calling it again returns the same
    name and changes nothing (no attach, no table creation, no migration). *)
Theorem getUserDatabase_is_cached :
  forall (userId name : string) (t t1 : Tenants),
    getUserDatabase userId t = (Ok name, t1) ->
    getUserDatabase userId t1 = (Ok name, t1).
Proof.
  intros userId name t t1. unfold getUserDatabase.
  destruct (String.eqb userId "") eqn:Hid; [discriminate|].
  destruct (userDatabases t !! userId) as [n|] eqn:Hc.
  - intros [= <- <-]. now rewrite Hc.
  - destruct (attach_error userId (safeDbName userId) t); [discriminate|].
    destruct (files t !! userId) as [p|].
    + destruct (Goals.migrateGoalsTable p) as [[[]|e] p']; [|discriminate].
      intros [= <- <-]. simpl. now rewrite lookup_insert_eq.
    + intros [= <- <-]. simpl. now rewrite lookup_insert_eq.
Qed.

Lemma getUserDatabase_is_cached_witness :
  getUserDatabase "bob" no_tenants
  = (Ok "user_bob", snd (getUserDatabase "bob" no_tenants))
  /\ getUserDatabase "bob" (snd (getUserDatabase "bob" no_tenants))
     = (Ok "user_bob", snd (getUserDatabase "bob" no_tenants)).
Proof.
  assert (H : getUserDatabase "bob" no_tenants
              = (Ok "user_bob", snd (getUserDatabase "bob" no_tenants)))
    by reflexivity.
  split; [exact H | exact (getUserDatabase_is_cached _ _ _ _ H)].
Defined.



Lemma sanitize_chars (userId : string) :
  String.length (sanitize userId) = String.length userId
  /\ forall c, In c (list_ascii_of_string (sanitize userId)) ->
               is_alnum c = true \/ c = "_"%char.
Proof.
  induction userId as [|a rest [IHl IHc]]; simpl.
  - split; [reflexivity | tauto].
  - split; [now rewrite IHl|].
    intros c [<-|Hc]; [|auto].
    destruct (is_alnum a) eqn:E; auto.
Qed.

(** X7.  The schema name derived from a user id is [user_] followed by as
    many characters as the id has, each a letter, a digit or an
    underscore; ids that differ only in characters outside letters and
    digits get the same name. *)
Theorem safeDbName_is_an_identifier :
  forall (userId : string),
    exists tail,
      safeDbName userId = ("user_" ++ tail)%string
      /\ String.length tail = String.length userId
      /\ (forall c, In c (list_ascii_of_string tail) ->
                    is_alnum c = true \/ c = "_"%char)
      /\ safeDbName tail = safeDbName userId.
Proof.
  intros userId. exists (sanitize userId).
  destruct (sanitize_chars userId) as [Hl Hc].
  split; [reflexivity|]. split; [exact Hl|]. split; [exact Hc|].
  unfold safeDbName. f_equal.
  clear. induction userId as [|a rest IH]; simpl; [reflexivity|].
  rewrite IH. destruct (is_alnum a) eqn:E; [now rewrite E | reflexivity].
Qed.

(** X8.  No two tenants are ever served from one schema.  If every cached
    schema name is attached for its user, this still holds after any
    [getUserDatabase] call, whether it succeeds or throws, and then two
    user ids with the same cached name are the same id: a user id not yet
    resolved whose derived name is already attached is refused and nothing
    changes. *)
Theorem tenants_never_share_a_schema :
  forall (userId : string) (t : Tenants),
    names_attached t ->
    let t' := snd (getUserDatabase userId t) in
    names_attached t'
    /\ (forall u1 u2 name,
           userDatabases t' !! u1 = Some name ->
           userDatabases t' !! u2 = Some name -> u1 = u2)
    /\ (forall other,
           userDatabases t !! userId = None ->
           attached t !! safeDbName userId = Some other ->
           exists e, fst (getUserDatabase userId t) = Throw e /\ t' = t).
Proof.
  intros userId t Hinv t'.
  assert (Hinv' : names_attached t').
  { subst t'. unfold getUserDatabase.
    destruct (String.eqb userId ""); [exact Hinv|].
    destruct (userDatabases t !! userId) as [n|] eqn:Hc; [exact Hinv|].
    destruct (attach_error userId (safeDbName userId) t) eqn:Hattach;
      [exact Hinv|].
    pose proof (attach_error_none_free _ _ _ Hattach) as Hfree.
    assert (Hstep : forall p,
      names_attached
        {| userDatabases := <[userId := safeDbName userId]> (userDatabases t);
           attached := <[safeDbName userId := userId]> (attached t);
           files := <[userId := p]> (files t);
           unopenable := unopenable t;
           attach_limit := attach_limit t |}).
    { intros p u n. simpl. destruct (decide (u = userId)) as [->|Hne].
      - rewrite lookup_insert_eq. intros [= <-]. apply lookup_insert_eq.
      - rewrite lookup_insert_ne by congruence. intros Hu.
        pose proof (Hinv u n Hu) as Ha.
        rewrite lookup_insert_ne; [exact Ha|]. congruence. }
    destruct (files t !! userId) as [p|]; [|apply Hstep].
    destruct (Goals.migrateGoalsTable p) as [[[]|e] p']; apply Hstep. }
  split; [exact Hinv'|]. split.
  - intros u1 u2 name H1 H2. apply Hinv' in H1. apply Hinv' in H2. congruence.
  - intros other Hnew Hother. subst t'. unfold getUserDatabase.
    destruct (String.eqb userId ""); [eauto|].
    rewrite Hnew. unfold attach_error.
    rewrite (schema_in_use_attached _ _ _ Hother).
    destruct (_ <=? _)%nat; eauto.
Qed.

Lemma names_attached_no_tenants : names_attached no_tenants.
Proof.
  intros u n H. simpl in H. rewrite lookup_empty in H. discriminate.
Defined.

Lemma tenants_never_share_a_schema_witness :
  names_attached no_tenants
  /\ names_attached (snd (getUserDatabase "a-b" no_tenants))
  /\ fst (getUserDatabase "a_b" (snd (getUserDatabase "a-b" no_tenants)))
     = Throw (js_error
                "Failed to initialize user database: database user_a_b is already in use").
Proof.
  split; [exact names_attached_no_tenants|].
  split.
  - exact (proj1 (tenants_never_share_a_schema "a-b" no_tenants
                    names_attached_no_tenants)).
  - reflexivity.
Defined.

End RegistryFacts.

(** ** Knowledge rows, continued *)

Section KnowledgeMore.

Import Store Samples.

Lemma insert_sorted_perm {A} (le : A -> A -> bool) (x : A) (l : list A) :
  Permutation (Sql.insert_sorted le x l) (x :: l).
Proof.
  induction l as [|y l IH]; simpl; [reflexivity|].
  destruct (le x y); [reflexivity|].
  rewrite IH. apply perm_swap.
Qed.

Lemma order_by_perm {A} (le : A -> A -> bool) (l : list A) :
  Permutation (Sql.order_by le l) l.
Proof.
  induction l as [|x l IH]; simpl; [reflexivity|].
  rewrite insert_sorted_perm. now constructor.
Qed.

Lemma like_percent_any (s : string) : Sql.like "%" s = true.
Proof.
  simpl. induction s as [|c s IH]; simpl; [reflexivity|]. exact IH.
Qed.

Lemma prefix_empty (s : string) : String.prefix "" s = true.
Proof.
  destruct s; reflexivity.
Qed.

Lemma includes_cons (c a : ascii) (s : string) :
  Str.includes (String c "") (String a s) = false ->
  a <> c /\ Str.includes (String c "") s = false.
Proof.
  cbn [Str.includes].
  change (String.prefix (String c "") (String a s))
    with (if ascii_dec c a then String.prefix "" s else false).
  destruct (ascii_dec c a) as [->|Hne].
  - rewrite prefix_empty. discriminate.
  - simpl. intros H. split; [congruence | exact H].
Qed.

(** On a pattern without wildcard characters followed by [%], [LIKE] is
    the prefix test up to ASCII case. *)
Lemma like_prefix (p s : string) :
  Str.includes "%" p = false -> Str.includes "_" p = false ->
  Sql.like (p ++ "%") s
  = String.prefix (Str.toLowerCase p) (Str.toLowerCase s).
Proof.
  revert s. induction p as [|c p IH]; intros s Hp Hu.
  - change ("" ++ "%")%string with "%". rewrite like_percent_any.
    simpl Str.toLowerCase. now rewrite prefix_empty.
  - apply includes_cons in Hp as [Hc Hp]. apply includes_cons in Hu as [Hc' Hu].
    change (String c p ++ "%")%string with (String c (p ++ "%")).
    cbn [Sql.like].
    apply Ascii.eqb_neq in Hc. apply Ascii.eqb_neq in Hc'.
    rewrite Hc, Hc'.
    destruct s as [|d s]; [reflexivity|].
    rewrite (IH s Hp Hu). cbn [Str.toLowerCase].
    change (String.prefix (String (Str.lower_ascii c) (Str.toLowerCase p))
              (String (Str.lower_ascii d) (Str.toLowerCase s)))
      with (if ascii_dec (Str.lower_ascii c) (Str.lower_ascii d)
            then String.prefix (Str.toLowerCase p) (Str.toLowerCase s)
            else false).
    destruct (ascii_dec (Str.lower_ascii c) (Str.lower_ascii d)) as [->|Hne].
    + now rewrite Ascii.eqb_refl.
    + apply Ascii.eqb_neq in Hne. now rewrite Hne.
Qed.

Lemma includes_star_app (p : string) : Str.includes "*" (p ++ "*") = true.
Proof.
  induction p as [|c p IH]; [reflexivity|].
  change (String c p ++ "*")%string with (String c (p ++ "*")).
  cbn [Str.includes]. rewrite IH. apply orb_true_r.
Qed.

Lemma replace_first_star (p : string) :
  Str.includes "*" p = false ->
  Str.replace_first "*" "%" (p ++ "*") = (p ++ "%")%string.
Proof.
  induction p as [|c p IH]; intros H; [reflexivity|].
  apply includes_cons in H as [Hc H].
  change (String c p ++ "*")%string with (String c (p ++ "*")).
  cbn [Str.replace_first].
  apply Ascii.eqb_neq in Hc. rewrite Hc. now rewrite IH.
Qed.

(** X9.  Wildcard removal.  For a prefix free of [*], [%] and [_],
    [removeKnowledge(prefix + "*")] removes from the table it is routed to
    exactly the rows whose id starts with the prefix, letters compared
    without regard to ASCII case, and keeps all others; when the engine
    fails the statement the error is re-thrown and the table is as
    before. *)
Theorem removeKnowledge_prefix_wildcard :
  forall (io : nat -> option JsError) (prefix : string)
         (userId : option UUID) (db : Db),
    Str.includes "*" prefix = false ->
    Str.includes "%" prefix = false ->
    Str.includes "_" prefix = false ->
    let tbl := routed_table userId db in
    let res := removeKnowledge io (prefix ++ "*")%string userId db in
    (io 0%nat = None ->
     fst res = Ok tt
     /\ routed_table userId (snd res)
        = List.filter
            (fun r => negb (String.prefix (Str.toLowerCase prefix)
                              (Str.toLowerCase (col_id r)))) tbl)
    /\ (forall e, io 0%nat = Some e ->
                  fst res = Throw e /\ routed_table userId (snd res) = tbl).
Proof.
  intros io prefix userId db Hs Hp Hu tbl res.
  assert (Hbody : forall t,
    transaction (removeKnowledge_body io (prefix ++ "*")%string) t
    = match io 0%nat with
      | Some e => (Throw e, t)
      | None =>
          (Ok (length (List.filter
                         (fun r => String.prefix (Str.toLowerCase prefix)
                                     (Str.toLowerCase (col_id r))) t)),
           List.filter
             (fun r => negb (String.prefix (Str.toLowerCase prefix)
                               (Str.toLowerCase (col_id r)))) t)
      end).
  { intros t. unfold removeKnowledge_body.
    rewrite includes_star_app, (replace_first_star prefix Hs).
    unfold transaction, delete_where. destruct (io 0%nat); [reflexivity|].
    f_equal; [f_equal; f_equal|]; apply filter_ext; intros r;
      now rewrite (like_prefix prefix (col_id r) Hp Hu). }
  subst res tbl. unfold removeKnowledge, base_removeKnowledge, routed_table.
  destruct userId as [u|]; [destruct (String.eqb u "") eqn:Eu|];
    rewrite Hbody; destruct (io 0%nat) as [e0|]; simpl; rewrite ?Eu;
    rewrite ?routed_table_set; split;
    try (intros H; discriminate H); try (intros e H; discriminate H);
    try (intros _; split; reflexivity);
    intros e [= <-]; split; reflexivity.
Qed.

Lemma removeKnowledge_prefix_wildcard_witness :
  Str.includes "*" "DOC" = false
  /\ Str.includes "%" "DOC" = false
  /\ Str.includes "_" "DOC" = false
  /\ routed_table None
       (snd (removeKnowledge (fun _ => None) "DOC*" None mixed_db))
     = [far_shared_row].
Proof.
  split; [reflexivity|]. split; [reflexivity|]. split; [reflexivity|].
  exact (proj2 (proj1 (removeKnowledge_prefix_wildcard
                         (fun _ => None) "DOC" None mixed_db
                         eq_refl eq_refl eq_refl) eq_refl)).
Defined.

(** X10.  Clearing and listing.  After [clearKnowledge(agentId, true)] on
    the shared table, [getKnowledge({agentId})] returns nothing; after
    [clearKnowledge(agentId, false)] it returns exactly the rows flagged
    shared that the agent does not own, each once, in the order of the
    engine's plan.  Clearing a tenant's table never changes what
    [getKnowledge] returns, which reads the shared table only. *)
Theorem clearKnowledge_then_getKnowledge :
  forall (agentId : UUID) (db : Db),
    getKnowledge None agentId None (snd (clearKnowledge agentId true None db))
    = []
    /\ Permutation
         (getKnowledge None agentId None
            (snd (clearKnowledge agentId false None db)))
         (List.filter
            (fun r => (col_isShared r =? 1)%Z
                      && negb (Sql.text_eq (col_agentId r) agentId))
            (knowledge db))
    /\ (forall (shared : bool) (tenant : UUID) (id : option UUID)
               (limit : option Z),
           tenant <> "" ->
           getKnowledge id agentId limit
             (snd (clearKnowledge agentId shared (Some tenant) db))
           = getKnowledge id agentId limit db).
Proof.
  intros agentId db. split; [|split].
  - unfold getKnowledge, clearKnowledge, base_clearKnowledge. simpl.
    rewrite filter_filter.
    induction (knowledge db) as [|r l IH]; simpl; [reflexivity|].
    destruct (_ || _); simpl; exact IH.
  - unfold getKnowledge, clearKnowledge, base_clearKnowledge. simpl.
    rewrite order_by_perm, filter_filter.
    erewrite filter_ext; [reflexivity|]. intros r. simpl.
    destruct (Sql.text_eq (col_agentId r) agentId), (col_isShared r =? 1)%Z;
      reflexivity.
  - intros shared tenant id limit Hne. apply String.eqb_neq in Hne.
    unfold clearKnowledge. rewrite Hne. reflexivity.
Qed.

Lemma clearKnowledge_then_getKnowledge_witness :
  "user-1" <> ""
  /\ getKnowledge None "agent-1" None
       (snd (clearKnowledge "agent-1" true (Some "user-1") mixed_db))
     = getKnowledge None "agent-1" None mixed_db
  /\ Permutation
       (getKnowledge None "agent-1" None
          (snd (clearKnowledge "agent-1" false None mixed_db)))
       [far_shared_row].
Proof.
  split; [discriminate|]. split.
  - refine (proj2 (proj2 (clearKnowledge_then_getKnowledge "agent-1" mixed_db))
              true "user-1" None None _).
    discriminate.
  - exact (proj1 (proj2 (clearKnowledge_then_getKnowledge "agent-1" mixed_db))).
Defined.

Lemma createKnowledge_outcome (knowledge : RAGKnowledgeItem) (now : Z) (db : Db) :
  (In (id knowledge) (map col_id (Store.knowledge db))
   /\ createKnowledge knowledge now db
      = (if truthy_bool (isShared (metadata (content knowledge)))
         then Ok tt else Throw pk_error, db))
  \/ (~ In (id knowledge) (map col_id (Store.knowledge db))
      /\ createKnowledge knowledge now db
         = (Ok tt, set_knowledge db
                     (Store.knowledge db ++ [row_of_item knowledge now]))).
Proof.
  unfold createKnowledge, insert_knowledge.
  destruct (existsb _ _) eqn:E.
  - left. split.
    + apply existsb_exists in E as (r & Hr & He). apply String.eqb_eq in He.
      simpl in He. rewrite <- He. now apply in_map.
    + destruct (truthy_bool _); reflexivity.
  - right. split; [|reflexivity]. intros Hin.
    apply in_map_iff in Hin as (r & He & Hr).
    assert (existsb (fun r' => String.eqb (col_id r')
                                 (col_id (row_of_item knowledge now)))
              (Store.knowledge db) = true).
    { apply existsb_exists. exists r. split; [exact Hr|].
      simpl. now apply String.eqb_eq. }
    congruence.
Qed.

(** X11.  The primary key of [knowledge].  [createKnowledge] keeps the ids
    of the table distinct.  When the id of the item is already taken the
    table is left as it is: the call returns normally for an item flagged
    shared and throws the engine's primary-key error for any other item. *)
Theorem createKnowledge_keeps_ids_distinct :
  forall (knowledge : RAGKnowledgeItem) (now : Z) (db : Db),
    List.NoDup (map col_id (Store.knowledge db)) ->
    List.NoDup (map col_id (Store.knowledge (snd (createKnowledge knowledge now db))))
    /\ (In (id knowledge) (map col_id (Store.knowledge db)) ->
        snd (createKnowledge knowledge now db) = db
        /\ fst (createKnowledge knowledge now db)
           = if truthy_bool (isShared (metadata (content knowledge)))
             then Ok tt else Throw pk_error).
Proof.
  intros knowledge now db Hnd.
  destruct (createKnowledge_outcome knowledge now db) as [[Hin ->]|[Hnin ->]];
    simpl.
  - split; [exact Hnd|]. intros _. split; reflexivity.
  - split; [|contradiction].
    rewrite map_app. simpl.
    apply List.NoDup_app; [exact Hnd | repeat constructor; auto |].
    intros a Ha [<-|[]]. contradiction.
Qed.

Lemma createKnowledge_keeps_ids_distinct_witness :
  List.NoDup (map col_id (Store.knowledge sample_db))
  /\ createKnowledge (item_of "doc" "agent-1" "again" (main_meta false) 2) 5
       sample_db
     = (Throw pk_error, sample_db).
Proof.
  assert (Hnd : List.NoDup (map col_id (Store.knowledge sample_db))).
  { repeat constructor; simpl; intuition discriminate. }
  split; [exact Hnd|].
  pose proof (proj2 (createKnowledge_keeps_ids_distinct
                       (item_of "doc" "agent-1" "again" (main_meta false) 2) 5
                       sample_db Hnd) (or_introl eq_refl)) as [H1 H2].
  rewrite (surjective_pairing (createKnowledge _ _ _)), H1, H2. reflexivity.
Defined.

Lemma limit_length {A} (n : Z) (l : list A) :
  (0 <= n)%Z -> (Z.of_nat (length (Sql.limit n l)) <= n)%Z.
Proof.
  intros Hn. unfold Sql.limit. destruct (n <? 0)%Z eqn:E.
  - apply Z.ltb_lt in E. lia.
  - rewrite length_firstn. lia.
Qed.

(** X12.  A search that runs a statement returns at most [match_count]
    items, for a [match_count] that is not negative. *)
Theorem searchKnowledge_returns_at_most_match_count :
  forall (JSON_stringify : list RAGKnowledgeItem -> string)
         (JSON_parse : string -> result (list RAGKnowledgeItem))
         (params : SearchParams) (db : Db) (results : list RAGKnowledgeItem),
    truthy_str (getCache (cacheKey params) (sp_agentId params) db) = false ->
    (0 <= match_count params)%Z ->
    fst (searchKnowledge JSON_stringify JSON_parse params db) = Ok results ->
    (Z.of_nat (length results) <= match_count params)%Z.
Proof.
  intros js jp params db results Hmiss Hn. unfold searchKnowledge.
  rewrite Hmiss. unfold hybrid_query.
  destruct (hybrid_rows params db) as [rows|e] eqn:Hh; simpl.
  - intros [= <-]. rewrite length_map.
    unfold hybrid_rows in Hh. destruct (vec_distance_L2 db); [|discriminate].
    destruct (scored_rows _ _ _ _ _); [|discriminate].
    simpl in Hh. injection Hh as <-. now apply limit_length.
  - destruct (Str.includes _ _); simpl; intros [= <-].
    + unfold fallback_query, fallback_rows. rewrite length_map.
      now apply limit_length.
    + simpl. exact Hn.
Qed.

Lemma searchKnowledge_returns_at_most_match_count_witness :
  truthy_str (getCache (cacheKey tea_query_again) (sp_agentId tea_query_again)
                mixed_db) = false
  /\ (0 <= match_count tea_query_again)%Z
  /\ (exists results,
         fst (searchKnowledge sample_stringify sample_parse tea_query_again
                mixed_db) = Ok results
         /\ (Z.of_nat (length results) <= 3)%Z).
Proof.
  split; [reflexivity|]. split; [discriminate|].
  eexists. split; [reflexivity|].
  refine (searchKnowledge_returns_at_most_match_count
            sample_stringify sample_parse tea_query_again mixed_db _
            eq_refl _ eq_refl).
  discriminate.
Defined.

Lemma hybrid_rows_spec_witness :
  (exists rows, hybrid_rows tea_query mixed_db = Ok rows
                /\ StronglySorted
                     (fun a b => Qle_bool (combined_score b) (combined_score a)
                                 = true) rows).
Proof.
  eexists. split; [vm_compute; reflexivity|].
  refine (proj1 (hybrid_rows_spec tea_query mixed_db _ _)).
  vm_compute. reflexivity.
Defined.

End KnowledgeMore.

(** ** Memories, continued *)

Section SortingOn.

Context {A : Type} (le : A -> A -> bool) (P : A -> Prop).
Hypothesis le_total_on : forall a b, P a -> P b -> le a b = true \/ le b a = true.
Hypothesis le_trans_on :
  forall a b c, P a -> P b -> P c ->
                le a b = true -> le b c = true -> le a c = true.

Lemma insert_sorted_sorted_on (x : A) (l : list A) :
  P x -> Forall P l ->
  StronglySorted (fun a b => le a b = true) l ->
  StronglySorted (fun a b => le a b = true) (Sql.insert_sorted le x l).
Proof using le_total_on le_trans_on.
  intros Hx Hl Hs. induction Hs as [|z l Hs IH Hall]; simpl.
  - repeat constructor.
  - apply Forall_cons_iff in Hl as [Hz Hl].
    destruct (le x z) eqn:E.
    + constructor; [now constructor|].
      constructor; [exact E|].
      rewrite List.Forall_forall in *. intros w Hw. eauto.
    + constructor; [auto|].
      rewrite List.Forall_forall in *. intros w Hw.
      apply insert_sorted_In in Hw as [->|Hw]; [|auto].
      destruct (le_total_on x z Hx Hz) as [H|H]; congruence.
Qed.

Lemma order_by_sorted_on (l : list A) :
  Forall P l -> StronglySorted (fun a b => le a b = true) (Sql.order_by le l).
Proof using le_total_on le_trans_on.
  induction l as [|x l IH]; simpl; intros Hl; [constructor|].
  apply Forall_cons_iff in Hl as [Hx Hl].
  apply insert_sorted_sorted_on; auto.
  rewrite List.Forall_forall in *. intros y Hy. apply order_by_In in Hy. auto.
Qed.

End SortingOn.

Section MemoryMore.

Import Store Memories Samples MoreSamples.

Lemma with_similarity_length_on dist query rs :
  (forall r, In r rs -> exists d, dist (m_embedding r) query = Ok d) ->
  exists found, with_similarity dist query rs = Ok found
                /\ map found_row found = rs
                /\ Forall (fun f => exists d,
                              dist (m_embedding (found_row f)) query = Ok d
                              /\ found_similarity f = Some d) found.
Proof.
  induction rs as [|r rs IH]; simpl; intros Hok.
  - exists []. repeat split; constructor.
  - destruct (Hok r (or_introl eq_refl)) as [d Hd]. rewrite Hd. simpl.
    destruct (IH (fun r' Hr' => Hok r' (or_intror Hr'))) as (found & -> & Hm & Hall).
    simpl. eexists. split; [reflexivity|]. split; [simpl; now rewrite Hm|].
    constructor; [|exact Hall]. simpl. eauto.
Qed.

Lemma negb_existsb_filter {A} (p : A -> bool) (l : list A) :
  negb (existsb p l) = (length (List.filter p l) =? 0)%nat.
Proof.
  induction l as [|x l IH]; simpl; [reflexivity|].
  destruct (p x); simpl; [reflexivity | exact IH].
Qed.

(** X14.  The unique flag does not depend on similarity.  For a memory
    with an embedding, whether or not the vector function is registered
    (provided it does not fail on the rows it is applied to), the flag
    computed by [createMemory] is [true] exactly when the shared table
    holds no row of the same table name, agent and room with an embedding:
    the bound 0.95 that [createMemory] passes is never compared with
    anything. *)
Theorem isUnique_iff_no_embedded_row :
  forall (memory : Memory) (tableName : string) (db : MemDb) (e : Embedding),
    mem_embedding memory = Some e ->
    (forall dist r,
        Memories.vec_distance_L2 db = Some dist ->
        In r (memories db) ->
        embedding_where (uniqueness_search memory tableName) r = true ->
        exists d, dist (m_embedding r) e = Ok d) ->
    isUnique memory tableName db
    = Ok (negb (existsb (embedding_where (uniqueness_search memory tableName))
                  (memories db))).
Proof.
  intros memory tableName db e He Hok. unfold isUnique. rewrite He.
  set (P := uniqueness_search memory tableName) in *.
  match goal with
  | |- bind ?x _ = _ => change x with (base_searchMemoriesByEmbedding e P db)
  end.
  unfold base_searchMemoriesByEmbedding, searchMemoriesByEmbedding_on.
  rewrite (negb_existsb_filter (embedding_where P) (memories db)).
  destruct (Memories.vec_distance_L2 db) as [dist|] eqn:Hd.
  - destruct (with_similarity_length_on dist e
                (List.filter (embedding_where P) (memories db)))
      as (found & -> & Hm & _).
    { intros r Hr. apply filter_In in Hr as [Hin Hw]. eauto. }
    simpl. f_equal.
    rewrite limit_one_empty, order_by_length, <- Hm, length_map. reflexivity.
  - simpl. f_equal.
    rewrite length_map, limit_one_empty, order_by_length. reflexivity.
Qed.

Lemma isUnique_iff_no_embedded_row_witness :
  mem_embedding new_memory = Some [0%Q]
  /\ isUnique new_memory "messages" memory_db = Ok false.
Proof.
  split; [reflexivity|].
  refine (eq_trans
            (isUnique_iff_no_embedded_row new_memory "messages" memory_db
               [0%Q] eq_refl _) eq_refl).
  intros dist r [= <-] [<-|[]] _. eexists. reflexivity.
Defined.

Lemma find_after_replace (i : string) (row : MemoryRow) (l : list MemoryRow) :
  m_id row = i ->
  find (fun r => String.eqb (m_id r) i)
    (List.filter (fun r => negb (String.eqb (m_id r) i)) l ++ [row])
  = Some row.
Proof.
  intros Hi. induction l as [|x l IH]; simpl.
  - now rewrite Hi, String.eqb_refl.
  - destruct (String.eqb (m_id x) i) eqn:E; simpl; [exact IH|].
    now rewrite E.
Qed.

Lemma filter_after_replace (i : string) (row : MemoryRow) (l : list MemoryRow) :
  m_id row = i ->
  List.filter (fun r => String.eqb (m_id r) i)
    (List.filter (fun r => negb (String.eqb (m_id r) i)) l ++ [row]) = [row]
  /\ List.filter (fun r => negb (String.eqb (m_id r) i))
       (List.filter (fun r => negb (String.eqb (m_id r) i)) l ++ [row])
     = List.filter (fun r => negb (String.eqb (m_id r) i)) l.
Proof.
  intros Hi. rewrite !List.filter_app. simpl. rewrite Hi, String.eqb_refl. simpl.
  rewrite !filter_filter. split.
  - replace (List.filter _ l) with (@nil MemoryRow); [reflexivity|].
    symmetry. induction l as [|x l IH]; simpl; [reflexivity|].
    destruct (String.eqb (m_id x) i); simpl; exact IH.
  - rewrite app_nil_r. apply filter_ext. intros r.
    now destruct (String.eqb (m_id r) i).
Qed.

(** X15.  Writing a memory and reading it back.  When [createMemory]
    returns, [getMemoryById] of the id (the memory's own, or the generated
    one) returns the row just written, with the table name, content, room,
    agent and creation time given; it is the only row with that id, and
    every row with another id is kept in place.  A memory without an
    embedding is always written, flagged unique, with the zero vector of
    384 components. *)
Theorem createMemory_then_getMemoryById :
  forall (memory : Memory) (tableName : string) (now : Z) (fresh : UUID)
         (db : MemDb),
    let i := match mem_id memory with Some i => i | None => fresh end in
    let db' := snd (createMemory memory tableName now fresh db) in
    (fst (createMemory memory tableName now fresh db) = Ok tt ->
     exists row,
       getMemoryById i db' = Some row
       /\ m_id row = i /\ m_type row = tableName
       /\ m_content row = mem_content memory
       /\ m_roomId row = mem_roomId memory
       /\ m_agentId row = mem_agentId memory
       /\ m_createdAt row
          = match mem_createdAt memory with Some t => t | None => now end
       /\ List.filter (fun r => String.eqb (m_id r) i) (memories db') = [row]
       /\ List.filter (fun r => negb (String.eqb (m_id r) i)) (memories db')
          = List.filter (fun r => negb (String.eqb (m_id r) i)) (memories db))
    /\ (mem_embedding memory = None ->
        fst (createMemory memory tableName now fresh db) = Ok tt
        /\ exists row,
             getMemoryById i db' = Some row
             /\ m_unique row = 1%Z
             /\ m_embedding row = Some (repeat (0 : Q) 384)).
Proof.
  intros memory tableName now fresh db i db'. subst db'.
  unfold createMemory.
  split.
  - destruct (isUnique memory tableName db) as [u|e]; [|discriminate].
    intros _. simpl. eexists.
    unfold getMemoryById. simpl.
    rewrite find_after_replace by reflexivity.
    split; [reflexivity|]. repeat split; try reflexivity.
    + apply filter_after_replace. reflexivity.
    + apply filter_after_replace with (row := {| m_id := i; m_type := tableName;
        m_content := mem_content memory; m_embedding := _; m_userId := _;
        m_roomId := _; m_agentId := _; m_unique := _; m_createdAt := _ |}).
      reflexivity.
  - intros Hnone. unfold isUnique. rewrite Hnone. simpl.
    split; [reflexivity|]. eexists.
    unfold getMemoryById. simpl.
    rewrite find_after_replace by reflexivity.
    repeat split; reflexivity.
Qed.

Lemma createMemory_then_getMemoryById_witness :
  mem_embedding plain_memory = None
  /\ fst (createMemory plain_memory "messages" 7 "fresh" memory_db) = Ok tt
  /\ length (memories (snd (createMemory plain_memory "messages" 7 "fresh"
                             memory_db))) = 1%nat.
Proof.
  split; [reflexivity|].
  split.
  - exact (proj1 (proj2 (createMemory_then_getMemoryById
                           plain_memory "messages" 7 "fresh" memory_db)
                    eq_refl)).
  - reflexivity.
Defined.

Lemma StronglySorted_weaken {A} (R R' : A -> A -> Prop) (l : list A) :
  (forall a b, In a l -> In b l -> R a b -> R' a b) ->
  StronglySorted R l -> StronglySorted R' l.
Proof.
  intros Himp Hs. induction Hs as [|x l Hs IH Hall]; constructor.
  - apply IH. intros a b Ha Hb. apply Himp; now right.
  - rewrite List.Forall_forall in *. intros y Hy.
    apply Himp; [now left | now right | auto].
Qed.

Lemma order_by_similarity_sorted (asc : bool) (found : list Found) :
  Forall has_distance found ->
  StronglySorted
    (fun a b => exists x y, found_similarity a = Some x
                            /\ found_similarity b = Some y
                            /\ if asc then (x <= y)%Q else (y <= x)%Q)
    (Sql.order_by (if asc then by_similarity_asc else by_similarity_desc) found).
Proof.
  intros Hall.
  assert (Hall' : Forall has_distance
                    (Sql.order_by (if asc then by_similarity_asc
                                   else by_similarity_desc) found)).
  { rewrite List.Forall_forall in *. intros f Hf.
    apply order_by_In in Hf. auto. }
  eapply StronglySorted_weaken;
    [|apply (order_by_sorted_on _ has_distance); [| |exact Hall]].
  - intros a b Ha Hb Hle. rewrite List.Forall_forall in Hall'.
    destruct (Hall' a Ha) as [x Hx], (Hall' b Hb) as [y Hy].
    exists x, y. split; [exact Hx|]. split; [exact Hy|].
    destruct asc; unfold by_similarity_asc, by_similarity_desc in Hle;
      rewrite Hx, Hy in Hle; now apply Qle_bool_iff.
  - intros a b [x Hx] [y Hy].
    destruct asc; unfold by_similarity_asc, by_similarity_desc;
      rewrite Hx, Hy; apply Qle_bool_total.
  - intros a b c [x Hx] [y Hy] [z Hz].
    destruct asc; unfold by_similarity_asc, by_similarity_desc;
      rewrite Hx, Hy, Hz; intros H1 H2; eapply Qle_bool_trans; eauto.
Qed.

Lemma found_have_distance dist query rs found :
  with_similarity dist query rs = Ok found ->
  map found_row found = rs
  /\ Forall (fun f => exists d,
                dist (m_embedding (found_row f)) query = Ok d
                /\ found_similarity f = Some d) found.
Proof.
  revert found. induction rs as [|r rs IH]; simpl; intros found H.
  - injection H as <-. split; constructor.
  - destruct (dist (m_embedding r) query) as [d|e] eqn:Hd; [|discriminate].
    simpl in H. destruct (with_similarity dist query rs) as [rest|e];
      [|discriminate].
    simpl in H. injection H as <-. destruct (IH rest eq_refl) as [Hm Hall].
    split; [simpl; now rewrite Hm|]. constructor; [simpl; eauto | exact Hall].
Qed.

Lemma searchMemories_on_spec dist tbl (params : MemorySearch) :
  (forall r, In r tbl -> search_where params r = true ->
             exists d, dist (m_embedding r) (ms_embedding params) = Ok d) ->
  exists found,
    searchMemories_on (Some dist) tbl params = Ok found
    /\ StronglySorted
         (fun a b => exists x y, found_similarity a = Some x
                                 /\ found_similarity b = Some y /\ (x <= y)%Q)
         found
    /\ (forall f, In f found ->
          In (found_row f) tbl /\ search_where params (found_row f) = true
          /\ exists d, dist (m_embedding (found_row f)) (ms_embedding params)
                       = Ok d
                       /\ found_similarity f = Some d)
    /\ ((0 <= ms_match_count params)%Z ->
        (Z.of_nat (length found) <= ms_match_count params)%Z).
Proof.
  intros Hok. unfold searchMemories_on.
  destruct (with_similarity_length_on dist (ms_embedding params)
              (List.filter (search_where params) tbl))
    as (found & Hw & Hm & Hall).
  { intros r Hr. apply filter_In in Hr as [Hin Hwh]. auto. }
  rewrite Hw. simpl. eexists. split; [reflexivity|].
  assert (Hd : Forall has_distance found).
  { rewrite List.Forall_forall in *. intros f Hf.
    destruct (Hall f Hf) as (d & _ & Hs). now exists d. }
  split; [|split].
  - apply limit_sorted. exact (order_by_similarity_sorted true found Hd).
  - intros f Hf. apply limit_In in Hf. apply order_by_In in Hf.
    assert (Hrow : In (found_row f) (List.filter (search_where params) tbl)).
    { rewrite <- Hm. now apply in_map. }
    apply filter_In in Hrow as [Hin Hwh].
    rewrite List.Forall_forall in Hall. auto.
  - apply limit_length.
Qed.

(** X16.  [searchMemories] returns the nearest memories first.  When the
    vector function is registered and does not fail on the memories of the
    table name and room asked for, the call returns rows of the table it is
    routed to, each of that table name and room and with its distance to
    the query embedding, in order of increasing distance, at most
    [match_count] of them; [match_threshold] plays no part. *)
Theorem searchMemories_nearest_first :
  forall (params : MemorySearch) (db : MemDb) dist,
    Memories.vec_distance_L2 db = Some dist ->
    (forall r,
        In r (routed_memories (ms_userId params) db) ->
        m_type r = ms_tableName params -> m_roomId r = ms_roomId params ->
        exists d, dist (m_embedding r) (ms_embedding params) = Ok d) ->
    exists found,
      searchMemories params db = Ok found
      /\ StronglySorted
           (fun a b => exists x y, found_similarity a = Some x
                                   /\ found_similarity b = Some y
                                   /\ (x <= y)%Q)
           found
      /\ (forall f, In f found ->
            In (found_row f) (routed_memories (ms_userId params) db)
            /\ m_type (found_row f) = ms_tableName params
            /\ m_roomId (found_row f) = ms_roomId params
            /\ exists d, dist (m_embedding (found_row f)) (ms_embedding params)
                         = Ok d
                         /\ found_similarity f = Some d)
      /\ ((0 <= ms_match_count params)%Z ->
          (Z.of_nat (length found) <= ms_match_count params)%Z).
Proof.
  intros params db dist Hvec Hok.
  assert (Hwhere : forall (p : MemorySearch) r,
             ms_tableName p = ms_tableName params ->
             ms_roomId p = ms_roomId params ->
             search_where p r = true ->
             m_type r = ms_tableName params /\ m_roomId r = ms_roomId params).
  { intros p r Ht Hr H. unfold search_where in H.
    apply andb_prop in H as [H _]. apply andb_prop in H as [H _].
    apply andb_prop in H as [H1 H2].
    apply String.eqb_eq in H1, H2. rewrite <- Ht, <- Hr. auto. }
  unfold searchMemories, routed_memories in *. rewrite Hvec.
  destruct (truthy_str (ms_userId params)).
  - destruct (searchMemories_on_spec dist
                (user_memories_table db (template (ms_userId params))) params)
      as (found & -> & Hs & Hin & Hlen).
    { intros r Hr Hw. destruct (Hwhere params r eq_refl eq_refl Hw). auto. }
    exists found. repeat split; auto; try (now apply Hin);
      destruct (Hin f H) as (_ & Hw & _);
      now destruct (Hwhere params _ eq_refl eq_refl Hw).
  - match goal with
    | |- context [searchMemories_on (Some dist) (memories db) ?p] =>
        destruct (searchMemories_on_spec dist (memories db) p)
          as (found & -> & Hs & Hin & Hlen);
        [intros r Hr Hw; destruct (Hwhere p r eq_refl eq_refl Hw); auto|];
        exists found; repeat split; auto; try (now apply Hin);
        destruct (Hin f H) as (_ & Hw & _);
        now destruct (Hwhere p _ eq_refl eq_refl Hw)
    end.
Qed.

Lemma searchMemories_nearest_first_witness :
  Memories.vec_distance_L2 three_memories = Some distance_1d
  /\ (forall r,
         In r (routed_memories (ms_userId room_search) three_memories) ->
         exists d, distance_1d (m_embedding r) [0%Q] = Ok d)
  /\ (exists found,
         searchMemories room_search three_memories = Ok found
         /\ map (fun f => m_id (found_row f)) found = ["near"; "mid"]).
Proof.
  assert (Hok : forall r,
             In r (routed_memories (ms_userId room_search) three_memories) ->
             exists d, distance_1d (m_embedding r) [0%Q] = Ok d).
  { intros r [<-|[<-|[<-|[]]]]; eexists; reflexivity. }
  split; [reflexivity|]. split; [exact Hok|].
  destruct (searchMemories_nearest_first room_search three_memories
              distance_1d eq_refl (fun r Hr _ _ => Hok r Hr))
    as (found & Hf & _).
  exists found. split; [exact Hf|].
  assert (Hc : searchMemories room_search three_memories
               = Ok [ {| found_row := memory_at "near" 1 100;
                         found_similarity := Some (Qabs (1 - 0)) |};
                      {| found_row := memory_at "mid" 4 200;
                         found_similarity := Some (Qabs (4 - 0)) |} ])
    by (vm_compute; reflexivity).
  rewrite Hc in Hf. injection Hf as <-. reflexivity.
Defined.

Lemma limit_head {A} (n : Z) (l : list A) :
  n <> 0%Z -> hd_error (Sql.limit n l) = hd_error l.
Proof.
  intros Hn. unfold Sql.limit. destruct (n <? 0)%Z eqn:E; [reflexivity|].
  apply Z.ltb_ge in E. destruct (Z.to_nat n) eqn:En; [lia|].
  destruct l; reflexivity.
Qed.

(** X17.  [searchMemoriesByEmbedding] returns the farthest memory first.
    When the vector function is registered and does not fail on the
    eligible rows (those with an embedding, of the table name and agent,
    and of the room when one is given), the rows come in order of
    decreasing distance to the query embedding, and the first one is at
    least as far from it as every eligible row of the table. *)
Theorem searchMemoriesByEmbedding_farthest_first :
  forall (embedding : Embedding) (params : EmbeddingSearch)
         (tbl : list MemoryRow) dist,
    (forall r, In r tbl -> embedding_where params r = true ->
               exists d, dist (m_embedding r) embedding = Ok d) ->
    exists found,
      searchMemoriesByEmbedding_on (Some dist) tbl embedding params = Ok found
      /\ StronglySorted
           (fun a b => exists x y, found_similarity a = Some x
                                   /\ found_similarity b = Some y
                                   /\ (y <= x)%Q)
           found
      /\ (forall first r,
            hd_error found = Some first ->
            In r tbl -> embedding_where params r = true ->
            exists x d, found_similarity first = Some x
                        /\ dist (m_embedding r) embedding = Ok d
                        /\ (d <= x)%Q).
Proof.
  intros embedding params tbl dist Hok. unfold searchMemoriesByEmbedding_on.
  destruct (with_similarity_length_on dist embedding
              (List.filter (embedding_where params) tbl))
    as (found & Hw & Hm & Hall).
  { intros r Hr. apply filter_In in Hr as [Hin Hwh]. auto. }
  rewrite Hw. simpl.
  assert (Hd : Forall has_distance found).
  { rewrite List.Forall_forall in *. intros f Hf.
    destruct (Hall f Hf) as (d & _ & Hs). now exists d. }
  pose proof (order_by_similarity_sorted false found Hd) as Hsorted.
  simpl in Hsorted.
  set (sorted := Sql.order_by by_similarity_desc found) in *.
  set (out := if truthy_num (es_count params)
              then Sql.limit (match es_count params with
                              | Some n => n | None => 0%Z end) sorted
              else sorted).
  assert (Hhd : hd_error out = hd_error sorted).
  { subst out. unfold truthy_num.
    destruct (es_count params) as [n|]; [|reflexivity].
    destruct (n =? 0)%Z eqn:E; simpl; [reflexivity|].
    apply limit_head. now apply Z.eqb_neq. }
  exists out. split; [reflexivity|]. split.
  - subst out. destruct (truthy_num _); [now apply limit_sorted | exact Hsorted].
  - intros first r Hfirst Hr Hwh. rewrite Hhd in Hfirst.
    assert (Hin : exists f, In f sorted /\ found_row f = r).
    { assert (In r (map found_row found)).
      { rewrite Hm. now apply filter_In. }
      apply in_map_iff in H as (f & Hf & Hfin). exists f. split; [|exact Hf].
      now apply order_by_In. }
    destruct Hin as (f & Hf & <-).
    assert (Hfd : exists d, dist (m_embedding (found_row f)) embedding = Ok d
                            /\ found_similarity f = Some d).
    { rewrite List.Forall_forall in Hall. apply Hall.
      now apply (order_by_In by_similarity_desc). }
    destruct Hfd as (d & Hdist & Hsim).
    destruct sorted as [|g rest]; [destruct Hf|].
    simpl in Hfirst. injection Hfirst as ->.
    destruct Hf as [->|Hf].
    + exists d, d. repeat split; auto. apply Qle_refl.
    + inversion Hsorted as [|? ? _ Hge]; subst.
      rewrite List.Forall_forall in Hge.
      destruct (Hge f Hf) as (x & y & Hx & Hy & Hle).
      exists x, d. repeat split; auto. congruence.
Qed.

Lemma searchMemoriesByEmbedding_farthest_first_witness :
  (forall r, In r (memories three_memories) -> embedding_where top_one r = true ->
             exists d, distance_1d (m_embedding r) [0%Q] = Ok d)
  /\ (exists found,
         searchMemoriesByEmbedding [0%Q] top_one three_memories = Ok found
         /\ map (fun f => m_id (found_row f)) found = ["far"]).
Proof.
  assert (Hok : forall r, In r (memories three_memories) ->
                          embedding_where top_one r = true ->
                          exists d, distance_1d (m_embedding r) [0%Q] = Ok d).
  { intros r [<-|[<-|[<-|[]]]] _; eexists; reflexivity. }
  split; [exact Hok|].
  destruct (searchMemoriesByEmbedding_farthest_first [0%Q] top_one
              (memories three_memories) distance_1d Hok) as (found & Hf & _).
  exists found. split; [exact Hf|].
  assert (Hc : searchMemoriesByEmbedding_on (Some distance_1d)
                 (memories three_memories) [0%Q] top_one
               = Ok [ {| found_row := memory_at "far" 9 300;
                         found_similarity := Some (Qabs (9 - 0)) |} ])
    by (vm_compute; reflexivity).
  rewrite Hc in Hf. injection Hf as <-. reflexivity.
Defined.

Lemma by_recency_total (a b : MemoryRow) :
  by_recency a b = true \/ by_recency b a = true.
Proof.
  unfold by_recency. rewrite !Z.leb_le. lia.
Qed.

Lemma by_recency_trans (a b c : MemoryRow) :
  by_recency a b = true -> by_recency b c = true -> by_recency a c = true.
Proof.
  unfold by_recency. rewrite !Z.leb_le. lia.
Qed.

(** X18.  [getMemories].  The call throws [tableName is required] for an
    empty table name and [roomId is required] for an empty room id, and
    nothing else.  Otherwise it returns rows of the table it is routed to
    (the tenant's for a user id, the shared one without), each of the
    table name, agent and room asked for, created within [start] and
    [end] when these are given and not 0, most recent first, and at most
    [count] of them for a positive [count]; without a [count] every such
    row is returned. *)
Theorem getMemories_spec :
  forall (params : MemoriesQuery) (db : MemDb),
    (mq_tableName params = "" ->
     getMemories params db = Throw (required "tableName"))
    /\ (mq_tableName params <> "" -> mq_roomId params = "" ->
        getMemories params db = Throw (required "roomId"))
    /\ (mq_tableName params <> "" -> mq_roomId params <> "" ->
        exists rows,
          getMemories params db = Ok rows
          /\ StronglySorted
               (fun a b => (m_createdAt b <= m_createdAt a)%Z) rows
          /\ (forall r, In r rows ->
                In r (routed_memories (mq_userId params) db)
                /\ m_type r = mq_tableName params
                /\ m_agentId r = mq_agentId params
                /\ m_roomId r = mq_roomId params
                /\ (forall t, mq_start params = Some t -> t <> 0%Z ->
                              (t <= m_createdAt r)%Z)
                /\ (forall t, mq_end params = Some t -> t <> 0%Z ->
                              (m_createdAt r <= t)%Z))
          /\ (forall n, mq_count params = Some n -> (0 < n)%Z ->
                        (Z.of_nat (length rows) <= n)%Z)
          /\ (truthy_num (mq_count params) = false ->
              forall r, In r (routed_memories (mq_userId params) db) ->
                        memories_where params r = true -> In r rows)).
Proof.
  intros params db. unfold getMemories. split; [|split].
  - intros ->. reflexivity.
  - intros Ht ->. apply String.eqb_neq in Ht. now rewrite Ht.
  - intros Ht Hr. apply String.eqb_neq in Ht, Hr. rewrite Ht, Hr.
    eexists. split; [reflexivity|].
    set (sel := List.filter (memories_where params)
                  (routed_memories (mq_userId params) db)).
    assert (Hsorted : StronglySorted
                        (fun a b => (m_createdAt b <= m_createdAt a)%Z)
                        (Sql.order_by by_recency sel)).
    { eapply StronglySorted_weaken;
        [|apply (order_by_sorted by_recency by_recency_total by_recency_trans)].
      intros a b _ _ H. now apply Z.leb_le. }
    split; [|split; [|split]].
    + destruct (truthy_num _); [now apply limit_sorted | exact Hsorted].
    + intros r Hin.
      assert (Hsel : In r sel).
      { destruct (truthy_num _); [apply limit_In in Hin|];
          now apply order_by_In in Hin. }
      apply filter_In in Hsel as [Hrow Hw]. split; [exact Hrow|].
      unfold memories_where in Hw.
      apply andb_prop in Hw as [Hw Hend]. apply andb_prop in Hw as [Hw Hstart].
      apply andb_prop in Hw as [Hw _]. apply andb_prop in Hw as [Hw Hroom].
      apply andb_prop in Hw as [Htype Hagent].
      apply String.eqb_eq in Htype, Hagent, Hroom.
      repeat split; auto.
      * intros t Hs Hz. rewrite Hs in Hstart. simpl in Hstart.
        apply Z.eqb_neq in Hz. rewrite Hz in Hstart. simpl in Hstart.
        now apply Z.leb_le.
      * intros t Hs Hz. rewrite Hs in Hend. simpl in Hend.
        apply Z.eqb_neq in Hz. rewrite Hz in Hend. simpl in Hend.
        now apply Z.leb_le.
    + intros n Hn Hpos. rewrite Hn. simpl.
      destruct (n =? 0)%Z eqn:E; [apply Z.eqb_eq in E; lia|]. simpl.
      apply limit_length. lia.
    + intros Hno r Hrow Hw. rewrite Hno.
      apply order_by_In. now apply filter_In.
Qed.

Lemma getMemories_spec_witness :
  mq_tableName room_query <> "" /\ mq_roomId room_query <> ""
  /\ (exists rows, getMemories room_query three_memories = Ok rows
                   /\ map m_id rows = ["far"; "mid"]).
Proof.
  split; [discriminate|]. split; [discriminate|].
  destruct (proj2 (proj2 (getMemories_spec room_query three_memories)))
    as (rows & Hr & _); [discriminate | discriminate |].
  exists rows. split; [exact Hr|].
  assert (Hc : getMemories room_query three_memories
               = Ok [memory_at "far" 9 300; memory_at "mid" 4 200])
    by (vm_compute; reflexivity).
  rewrite Hc in Hr. injection Hr as <-. reflexivity.
Defined.

(** X19.  Emptying a room.  After [removeAllMemories(roomId, tableName)],
    [countMemories] of that room and table name on the shared table is 0,
    for either value of the unique flag, while the count of any other
    room or table name, and every tenant table, is as before. *)
Theorem removeAllMemories_then_countMemories :
  forall (roomId : UUID) (tableName : string) (db : MemDb),
    tableName <> "" ->
    (forall unique,
        countMemories roomId unique (Some tableName) None
          (removeAllMemories roomId tableName db) = Ok 0%nat)
    /\ (forall roomId' tableName' unique,
           roomId' <> roomId \/ tableName' <> tableName ->
           countMemories roomId' unique (Some tableName') None
             (removeAllMemories roomId tableName db)
           = countMemories roomId' unique (Some tableName') None db)
    /\ user_memories (removeAllMemories roomId tableName db) = user_memories db.
Proof.
  intros roomId tableName db Ht. apply String.eqb_neq in Ht.
  split; [|split; [|reflexivity]].
  - intros unique. unfold countMemories, removeAllMemories, routed_memories.
    simpl. rewrite Ht. f_equal. rewrite filter_filter.
    induction (memories db) as [|r l IH]; simpl; [reflexivity|].
    destruct (String.eqb (m_type r) tableName), (String.eqb (m_roomId r) roomId);
      simpl; exact IH.
  - intros roomId' tableName' unique Hne.
    unfold countMemories, removeAllMemories, routed_memories. simpl.
    destruct (String.eqb tableName' ""); [reflexivity|]. f_equal. f_equal.
    rewrite filter_filter. apply filter_ext. intros r.
    destruct (String.eqb (m_type r) tableName) eqn:E1,
             (String.eqb (m_roomId r) roomId) eqn:E2; simpl; try reflexivity.
    apply String.eqb_eq in E1, E2.
    destruct Hne as [Hne|Hne].
    + assert (String.eqb (m_roomId r) roomId' = false) as ->
        by (apply String.eqb_neq; congruence).
      now rewrite andb_false_r.
    + assert (String.eqb (m_type r) tableName' = false) as ->
        by (apply String.eqb_neq; congruence).
      reflexivity.
Qed.

Lemma removeAllMemories_then_countMemories_witness :
  "messages" <> ""
  /\ countMemories "room-1" None (Some "messages") None three_memories = Ok 3%nat
  /\ countMemories "room-1" None (Some "messages") None
       (removeAllMemories "room-1" "messages" three_memories) = Ok 0%nat.
Proof.
  split; [discriminate|]. split; [reflexivity|].
  refine (proj1 (removeAllMemories_then_countMemories
                   "room-1" "messages" three_memories _) None).
  discriminate.
Defined.

(** X20.  [removeMemory] needs the right table name.  A memory found by
    [getMemoryById] is still found after [removeMemory] with its id and
    another table name, and is gone after [removeMemory] with its id and
    its own table name when ids are distinct in the table. *)
Theorem removeMemory_then_getMemoryById :
  forall (memoryId : UUID) (tableName : string) (db : MemDb) (row : MemoryRow),
    getMemoryById memoryId db = Some row ->
    (m_type row <> tableName ->
     getMemoryById memoryId (removeMemory memoryId tableName db) = Some row)
    /\ (m_type row = tableName ->
        List.NoDup (map m_id (memories db)) ->
        getMemoryById memoryId (removeMemory memoryId tableName db) = None).
Proof.
  intros memoryId tableName db row. unfold getMemoryById, removeMemory. simpl.
  induction (memories db) as [|r l IH]; simpl; [discriminate|].
  destruct (String.eqb (m_id r) memoryId) eqn:Eid.
  - intros [= ->]. split.
    + intros Hne. apply String.eqb_neq in Hne. rewrite Hne. simpl.
      now rewrite Eid.
    + intros Heq Hnd. apply String.eqb_eq in Heq. rewrite Heq. simpl.
      apply List.NoDup_cons_iff in Hnd as [Hnotin _].
      apply String.eqb_eq in Eid. rewrite Eid in Hnotin.
      clear -Hnotin. induction l as [|x l IH]; simpl; [reflexivity|].
      simpl in Hnotin.
      destruct (String.eqb (m_id x) memoryId) eqn:E.
      * apply String.eqb_eq in E. tauto.
      * rewrite andb_false_r. simpl. rewrite E. apply IH. tauto.
  - intros Hfind. rewrite andb_false_r. simpl. rewrite Eid.
    destruct (IH Hfind) as [H1 H2]. split; [exact H1|].
    intros Heq Hnd. apply List.NoDup_cons_iff in Hnd as [_ Hnd]. auto.
Qed.

Lemma removeMemory_then_getMemoryById_witness :
  getMemoryById "mid" three_memories = Some (memory_at "mid" 4 200)
  /\ m_type (memory_at "mid" 4 200) <> "facts"
  /\ getMemoryById "mid" (removeMemory "mid" "facts" three_memories)
     = Some (memory_at "mid" 4 200)
  /\ getMemoryById "mid" (removeMemory "mid" "messages" three_memories) = None.
Proof.
  pose proof (removeMemory_then_getMemoryById "mid" "facts" three_memories
                (memory_at "mid" 4 200) eq_refl) as H1.
  pose proof (removeMemory_then_getMemoryById "mid" "messages" three_memories
                (memory_at "mid" 4 200) eq_refl) as H2.
  split; [reflexivity|]. split; [discriminate|].
  split.
  - apply (proj1 H1). discriminate.
  - apply (proj2 H2); [reflexivity|].
    repeat constructor; simpl; intuition discriminate.
Defined.

End MemoryMore.

Section ManagerMore.

Import Store Manager Samples MoreSamples.

Lemma filter_sorted {A} (R : A -> A -> Prop) (p : A -> bool) (l : list A) :
  StronglySorted R l -> StronglySorted R (List.filter p l).
Proof.
  intros Hs. induction Hs as [|x l Hs IH Hall]; simpl; [constructor|].
  destruct (p x); [|exact IH]. constructor; [exact IH|].
  rewrite List.Forall_forall in *. intros y Hy.
  apply filter_In in Hy as [Hy _]. auto.
Qed.

Lemma firstn_In {A} (n : nat) (l : list A) (x : A) :
  In x (firstn n l) -> In x l.
Proof.
  intros H. rewrite <- (firstn_skipn n l). apply in_or_app. now left.
Qed.

Lemma firstn_sorted {A} (R : A -> A -> Prop) (n : nat) (l : list A) :
  StronglySorted R l -> StronglySorted R (firstn n l).
Proof.
  intros Hs. revert n. induction Hs as [|x l Hs IH Hall]; intros [|n]; simpl;
    try constructor; auto.
  rewrite List.Forall_forall in *. intros y Hy.
  apply Hall. eapply firstn_In; eauto.
Qed.

Lemma slice0_sorted {A} (R : A -> A -> Prop) (n : Z) (l : list A) :
  StronglySorted R l -> StronglySorted R (slice0 n l).
Proof.
  intros Hs. unfold slice0. destruct (n <? 0)%Z; now apply firstn_sorted.
Qed.

Lemma slice0_In {A} (n : Z) (l : list A) (x : A) :
  In x (slice0 n l) -> In x l.
Proof.
  unfold slice0. destruct (n <? 0)%Z; intros H; eapply firstn_In; eauto.
Qed.

Lemma slice0_length {A} (n : Z) (l : list A) :
  (0 <= n)%Z -> (Z.of_nat (length (slice0 n l)) <= n)%Z.
Proof.
  intros Hn. unfold slice0.
  destruct (n <? 0)%Z eqn:E; [apply Z.ltb_lt in E; lia|].
  rewrite length_firstn. lia.
Qed.

Lemma rerank_item (q : string) (ctx : option string) (i : RAGKnowledgeItem) :
  item (rerank q ctx i) = i.
Proof.
  reflexivity.
Qed.

Lemma scale_none (f : Q) : scale None f = None.
Proof.
  reflexivity.
Qed.

Lemma rerank_score_defined (q : string) (ctx : option string)
  (i : RAGKnowledgeItem) :
  (similarity i = None -> score (rerank q ctx i) = None)
  /\ (similarity i <> None -> score (rerank q ctx i) <> None).
Proof.
  unfold rerank. cbn [score].
  destruct (similarity i) as [x|]; split; intros H; try congruence;
    repeat match goal with
           | |- context [if ?c then _ else _] => destruct c
           end; simpl; congruence.
Qed.

(** X21.  What [getKnowledge] returns from a search.  For a call without
    an id and with a query, when the embedding call and the adapter's
    search succeed and every result of the adapter carries a similarity:
    the call returns reranked results of the adapter only, each with a
    score of at least 0.85, in order of decreasing score, and no more of
    them than [limit] (8 when no limit is given); the adapter is asked
    for twice that count at the threshold 0.85. *)
Theorem getKnowledge_returns_ranked_results :
  forall (S : Type) (core : Core) (runtime : Runtime S) (params : GetParams)
         (s s' : S) (embedding : Embedding) (results : list RAGKnowledgeItem),
    truthy_str (gp_id params) = false ->
    truthy_str (query params) = true ->
    embed core (embedded_text params) = Ok embedding ->
    let request :=
      search_request runtime params
        (or_else truthy_str (gp_userId params) (currentUserId runtime))
        embedding in
    db_searchKnowledge (databaseAdapter runtime) request s = (Ok results, s') ->
    (forall i, In i results -> similarity i <> None) ->
    exists found,
      getKnowledge core runtime params s = (Ok found, s')
      /\ match_count request = (2 * result_count params)%Z
      /\ match_threshold request = 85 # 100
      /\ StronglySorted
           (fun a b => exists x y, score a = Some x /\ score b = Some y
                                   /\ (y <= x)%Q)
           found
      /\ (forall r, In r found ->
            In (item r) results
            /\ r = rerank (preprocess (template (query params)))
                     (conversationContext params) (item r)
            /\ exists x, score r = Some x /\ (85 # 100 <= x)%Q)
      /\ ((0 <= result_count params)%Z ->
          (Z.of_nat (length found) <= result_count params)%Z).
Proof.
  intros S core runtime params s s' embedding results Hid Hq Hembed request
    Hsearch Hsim.
  subst request.
  unfold getKnowledge. rewrite Hid, Hq. unfold semantic_search.
  rewrite Hembed, Hsearch.
  set (q := preprocess (template (query params))).
  set (reranked := map (rerank q (conversationContext params)) results).
  assert (Hscored : Forall (fun r => score r <> None) reranked).
  { apply List.Forall_forall. intros r Hr.
    apply in_map_iff in Hr as (i & <- & Hi).
    now apply rerank_score_defined, Hsim. }
  assert (Hsorted : StronglySorted (fun a b => by_score_desc a b = true)
                      (Sql.order_by by_score_desc reranked)).
  { apply (order_by_sorted_on by_score_desc (fun r => score r <> None));
      [| |exact Hscored].
    - intros a b Ha Hb. unfold by_score_desc.
      destruct (score a), (score b); try congruence. apply Qle_bool_total.
    - intros a b c Ha Hb Hc. unfold by_score_desc.
      destruct (score a), (score b), (score c); try congruence.
      intros H1 H2. eapply Qle_bool_trans; eauto. }
  eexists. split; [reflexivity|].
  split; [simpl; lia|]. split; [reflexivity|]. split; [|split].
  - apply slice0_sorted, filter_sorted.
    eapply StronglySorted_weaken; [|exact Hsorted].
    intros a b Ha Hb Hab. apply order_by_In in Ha, Hb.
    rewrite List.Forall_forall in Hscored.
    pose proof (Hscored a Ha). pose proof (Hscored b Hb).
    unfold by_score_desc in Hab.
    destruct (score a) as [x|], (score b) as [y|]; try congruence.
    exists x, y. repeat split. now apply Qle_bool_iff.
  - intros r Hr. apply slice0_In in Hr. apply filter_In in Hr as [Hr Hab].
    apply order_by_In in Hr. apply in_map_iff in Hr as (i & <- & Hi).
    rewrite rerank_item. repeat split; auto.
    unfold above_threshold in Hab.
    destruct (score (rerank q (conversationContext params) i)) as [x|];
      [|discriminate].
    exists x. split; [reflexivity|]. now apply Qle_bool_iff.
  - apply slice0_length.
Qed.

Lemma getKnowledge_returns_ranked_results_witness :
  exists found,
    fst (getKnowledge sample_core sqlite_runtime tea_only sample_db) = Ok found
    /\ map (fun r => id (item r)) found = ["doc-chunk-0"; "doc"].
Proof.
  destruct (getKnowledge_returns_ranked_results Db sample_core sqlite_runtime
              tea_only sample_db
              (snd (Store.searchKnowledge sample_stringify sample_parse
                      (search_request sqlite_runtime tea_only (Some "user-1")
                         [inject_Z 3]) sample_db))
              [inject_Z 3]
              (match hybrid_query
                       (search_request sqlite_runtime tea_only (Some "user-1")
                          [inject_Z 3]) sample_db with
               | Ok l => l
               | Throw _ => []
               end))
    as (found & Hf & _).
  - reflexivity.
  - reflexivity.
  - vm_compute. reflexivity.
  - vm_compute. reflexivity.
  - vm_compute. intros i [<-|[<-|[]]]; discriminate.
  - exists found. rewrite Hf. split; [reflexivity|].
    assert (Hc : fst (getKnowledge sample_core sqlite_runtime tea_only sample_db)
                 = Ok (map (rerank "tea" None)
                         (match hybrid_query
                                  (search_request sqlite_runtime tea_only
                                     (Some "user-1") [inject_Z 3]) sample_db with
                          | Ok l => l
                          | Throw _ => []
                          end)))
      by (vm_compute; reflexivity).
    rewrite Hf in Hc. injection Hc as ->. vm_compute. reflexivity.
Defined.

Lemma filter_none {A} (p : A -> bool) (l : list A) :
  (forall x, In x l -> p x = false) -> List.filter p l = [].
Proof.
  induction l as [|x l IH]; simpl; intros H; [reflexivity|].
  rewrite (H x (or_introl eq_refl)). apply IH. intros y Hy. apply H. now right.
Qed.

(** X22.  Without the vector function the manager finds nothing.  When
    [vec_distance_L2] is not registered and the cache holds nothing for
    the query, a [getKnowledge] call without an id returns the empty list,
    whatever the table holds: the rows of the adapter's keyword fallback
    carry no similarity, so none of them reaches the threshold after
    reranking.  The fallback result is nevertheless written to the
    cache. *)
Theorem getKnowledge_without_vector_function_is_empty :
  forall (JSON_stringify : list RAGKnowledgeItem -> string)
         (JSON_parse : string -> result (list RAGKnowledgeItem))
         (io : nat -> option JsError) (core : Core) (agent : UUID)
         (user : option UUID) (params : GetParams) (db : Db)
         (embedding : Embedding),
    let runtime :=
      {| rt_agentId := agent; currentUserId := user;
         databaseAdapter := sqlite JSON_stringify JSON_parse io |} in
    let request :=
      search_request runtime params
        (or_else truthy_str (gp_userId params) user) embedding in
    truthy_str (gp_id params) = false ->
    vec_distance_L2 db = None ->
    embed core (embedded_text params) = Ok embedding ->
    truthy_str (getCache (cacheKey request) agent db) = false ->
    fst (getKnowledge core runtime params db) = Ok []
    /\ (truthy_str (query params) = true ->
        snd (getKnowledge core runtime params db)
        = setCache (cacheKey request) agent
            (JSON_stringify (fallback_query request db)) db).
Proof.
  intros js jp io core agent user params db embedding runtime request
    Hid Hvec Hembed Hmiss.
  unfold getKnowledge. rewrite Hid.
  destruct (truthy_str (query params)); [|split; [reflexivity|discriminate]].
  unfold semantic_search. rewrite Hembed.
  cbn [databaseAdapter runtime sqlite db_searchKnowledge currentUserId].
  fold runtime. fold request.
  unfold Store.searchKnowledge.
  change (sp_agentId request) with agent. rewrite Hmiss.
  unfold hybrid_query, hybrid_rows. rewrite Hvec. cbn [bind].
  replace (Str.includes "no such function: vec_distance_L2"
             (message no_such_function)) with true by (vm_compute; reflexivity).
  cbn [fst snd]. split; [|reflexivity].
  rewrite filter_none;
    [unfold slice0; destruct (_ <? 0)%Z; now rewrite firstn_nil|].
  intros r Hr. apply order_by_In in Hr.
  apply in_map_iff in Hr as (i & <- & Hi).
  unfold fallback_query in Hi. apply in_map_iff in Hi as (row & <- & _).
  unfold above_threshold.
  now rewrite (proj1 (rerank_score_defined _ _ (item_of_row row)) eq_refl).
Qed.

Lemma getKnowledge_without_vector_function_is_empty_witness :
  vec_distance_L2 no_vector_db = None
  /\ map id (fallback_query
               (search_request sqlite_runtime tea_only (Some "user-1")
                  [inject_Z 3]) no_vector_db)
     = ["doc"; "doc-chunk-0"]
  /\ fst (getKnowledge sample_core sqlite_runtime tea_only no_vector_db) = Ok [].
Proof.
  split; [reflexivity|]. split; [vm_compute; reflexivity|].
  refine (proj1 (getKnowledge_without_vector_function_is_empty
                   sample_stringify sample_parse no_faults sample_core
                   "agent-1" (Some "user-1") tea_only no_vector_db
                   [inject_Z 3] _ _ _ _)).
  - reflexivity.
  - reflexivity.
  - vm_compute. reflexivity.
  - vm_compute. reflexivity.
Defined.

Lemma ratio_bounds (m n : nat) :
  (0 < m)%nat -> (m <= n)%nat ->
  (0 <= inject_Z (Z.of_nat m) / inject_Z (Z.of_nat n))%Q
  /\ (inject_Z (Z.of_nat m) / inject_Z (Z.of_nat n) <= 1)%Q.
Proof.
  intros Hm Hmn.
  assert (Hn : (0 < inject_Z (Z.of_nat n))%Q).
  { change 0%Q with (inject_Z 0). rewrite <- Zlt_Qlt. lia. }
  split.
  - apply Qle_shift_div_l; [exact Hn|]. rewrite Qmult_0_l.
    change 0%Q with (inject_Z 0). rewrite <- Zle_Qle. lia.
  - apply Qle_shift_div_r; [exact Hn|]. rewrite Qmult_1_l.
    rewrite <- Zle_Qle. lia.
Qed.

Lemma filter_length_le {A} (p : A -> bool) (l : list A) :
  (length (List.filter p l) <= length l)%nat.
Proof.
  induction l as [|x l IH]; simpl; [lia|]. destruct (p x); simpl; lia.
Qed.

(** X23.  How far reranking moves a score.  For a result with a
    non-negative similarity [s] the score lies between [0.3 * s] and
    [4.5 * s].  A result whose text contains a term of the query never
    scores below [s]; one that contains none scores [0.3 * s] when the
    call has no conversation context and exactly [s] when it has one. *)
Theorem rerank_score_bounds :
  forall (processedQuery : string) (context : option string)
         (result : RAGKnowledgeItem) (s : Q),
    similarity result = Some s ->
    (0 <= s)%Q ->
    exists x matched,
      score (rerank processedQuery context result) = Some x
      /\ matchedTerms (rerank processedQuery context result) = Some matched
      /\ ((3 # 10) * s <= x)%Q
      /\ (x <= (9 # 2) * s)%Q
      /\ (matched <> [] -> (s <= x)%Q)
      /\ (matched = [] ->
          (x == if truthy_str context then s else s * (3 # 10))%Q).
Proof.
  intros q ctx result s Hsim Hs. unfold rerank. cbn [score matchedTerms].
  rewrite Hsim.
  set (terms := getQueryTerms q).
  set (matched := List.filter _ terms).
  destruct (0 <? length matched)%nat eqn:Hm.
  - apply Nat.ltb_lt in Hm.
    destruct (ratio_bounds (length matched) (length terms) Hm
                (filter_length_le _ _)) as [H0 H1].
    fold matched in H0, H1.
    set (ratio := (inject_Z (Z.of_nat (length matched))
                   / inject_Z (Z.of_nat (length terms)))%Q) in *.
    assert (Hne : matched = [] -> False).
    { intros E. rewrite E in Hm. simpl in Hm. lia. }
    destruct (hasProximityMatch _ matched); cbn [scale];
      eexists; exists matched; (split; [reflexivity|]); (split; [reflexivity|]);
      repeat split; try nra; intros E; destruct (Hne E).
  - apply Nat.ltb_ge in Hm.
    assert (He : matched = []) by (destruct matched; simpl in Hm; [auto|lia]).
    destruct (truthy_str ctx); cbn [negb scale];
      eexists; exists matched; (split; [reflexivity|]); (split; [reflexivity|]);
      repeat split; try nra; try (intros; reflexivity); intros; congruence.
Qed.

Lemma rerank_score_bounds_witness :
  similarity scored_doc = Some ((1 # 2) * 3)%Q
  /\ (0 <= (1 # 2) * 3)%Q
  /\ exists x, score (rerank "tea" None scored_doc) = Some x
               /\ ((1 # 2) * 3 <= x)%Q.
Proof.
  assert (Hs : (0 <= (1 # 2) * 3)%Q) by (vm_compute; discriminate).
  split; [reflexivity|]. split; [exact Hs|].
  destruct (rerank_score_bounds "tea" None scored_doc ((1 # 2) * 3)%Q
              eq_refl Hs) as (x & matched & Hx & Hm & _ & _ & Hge & _).
  exists x. split; [exact Hx|]. apply Hge.
  assert (Hc : matchedTerms (rerank "tea" None scored_doc) = Some ["tea"])
    by (vm_compute; reflexivity).
  rewrite Hc in Hm. injection Hm as <-. discriminate.
Defined.

Lemma processFile_on_stored_private_file
  (JSON_stringify : list RAGKnowledgeItem -> string)
  (JSON_parse : string -> result (list RAGKnowledgeItem))
  (io : nat -> option JsError) (core : Core) (agent : UUID)
  (user : option UUID) (file : File) (clock : nat -> Z) (db : Db)
  (e : Embedding) :
  truthy_bool (file_isShared file) = false ->
  embed core (String.substring 0 (Z.to_nat 8192) (file_content file)) = Ok e ->
  In (file_id core file) (map col_id (knowledge db)) ->
  processFile core
    {| rt_agentId := agent; currentUserId := user;
       databaseAdapter := sqlite JSON_stringify JSON_parse io |}
    file clock db
  = (Throw pk_error, db).
Proof.
  intros Hprivate Hembed Hin. unfold file_id in Hin.
  unfold processFile, processFile_body.
  rewrite Hembed. cbn [databaseAdapter sqlite db_createKnowledge].
  rewrite Hprivate in Hin |- *.
  match goal with
  | |- context [Store.createKnowledge ?it ?now db] =>
      destruct (createKnowledge_outcome it now db) as [[_ Hc]|[Hnin _]];
        [cbn [id content metadata isShared] in Hc; rewrite Hprivate in Hc;
         rewrite Hc
        |exfalso; apply Hnin; exact Hin]
  end.
  reflexivity.
Qed.

Lemma store_chunks_keeps_ids
  (JSON_stringify : list RAGKnowledgeItem -> string)
  (JSON_parse : string -> result (list RAGKnowledgeItem))
  (io : nat -> option JsError) (core : Core) (agent : UUID)
  (user : option UUID)
  (chunk_item : nat -> string -> Embedding -> Z -> RAGKnowledgeItem)
  (clock : nat -> Z) (chunks : list string) :
  forall (index : nat) (db : Db),
    incl (map col_id (knowledge db))
      (map col_id
         (knowledge
            (snd (store_chunks core
                    {| rt_agentId := agent; currentUserId := user;
                       databaseAdapter := sqlite JSON_stringify JSON_parse io |}
                    chunk_item clock index chunks db)))).
Proof.
  induction chunks as [|chunk chunks IH]; intros index db; simpl;
    [apply incl_refl|].
  destruct (embed core chunk) as [e|err]; [|apply incl_refl].
  match goal with
  | |- context [Store.createKnowledge ?it ?now db] =>
      destruct (createKnowledge_outcome it now db) as [[_ ->]|[_ ->]]
  end.
  - destruct (truthy_bool _); [apply IH | apply incl_refl].
  - eapply incl_tran; [|apply IH]. simpl. rewrite map_app.
    apply incl_appl, incl_refl.
Qed.

Lemma processFile_body_stores_id
  (JSON_stringify : list RAGKnowledgeItem -> string)
  (JSON_parse : string -> result (list RAGKnowledgeItem))
  (io : nat -> option JsError) (core : Core) (agent : UUID)
  (user : option UUID) (file : File) (clock : nat -> Z) (db : Db) :
  let run :=
    processFile_body core
      {| rt_agentId := agent; currentUserId := user;
         databaseAdapter := sqlite JSON_stringify JSON_parse io |}
      file clock db in
  fst run = Ok tt -> In (file_id core file) (map col_id (knowledge (snd run))).
Proof.
  unfold processFile_body, file_id.
  destruct (embed core _) as [e|err]; [|discriminate].
  cbn [databaseAdapter sqlite db_createKnowledge].
  match goal with
  | |- context [Store.createKnowledge ?it ?now db] =>
      destruct (createKnowledge_outcome it now db) as [[Hin ->]|[_ ->]]
  end.
  - cbn [id content metadata isShared] in *.
    destruct (truthy_bool (file_isShared file)); [|discriminate].
    intros _. now apply store_chunks_keeps_ids.
  - intros _. apply store_chunks_keeps_ids. simpl. rewrite map_app.
    apply in_or_app. right. now left.
Qed.

(** X24.  A private source cannot be ingested twice.  When [processFile]
    has succeeded on a source that is not flagged shared, running it
    again on the same source throws the primary-key error of the main
    row and changes nothing: the stored text and chunks are not
    refreshed. *)
Theorem processFile_private_twice_throws :
  forall (JSON_stringify : list RAGKnowledgeItem -> string)
         (JSON_parse : string -> result (list RAGKnowledgeItem))
         (io : nat -> option JsError) (core : Core) (agent : UUID)
         (user : option UUID) (file : File) (clock1 clock2 : nat -> Z)
         (db : Db),
    let runtime :=
      {| rt_agentId := agent; currentUserId := user;
         databaseAdapter := sqlite JSON_stringify JSON_parse io |} in
    truthy_bool (file_isShared file) = false ->
    fst (processFile core runtime file clock1 db) = Ok tt ->
    processFile core runtime file clock2
      (snd (processFile core runtime file clock1 db))
    = (Throw pk_error, snd (processFile core runtime file clock1 db)).
Proof.
  intros js jp io core agent user file clock1 clock2 db runtime Hprivate Hfirst.
  pose proof (processFile_body_stores_id js jp io core agent user file clock1 db)
    as Hid.
  cbv zeta in Hid. fold runtime in Hid.
  assert (Hbody : fst (processFile_body core runtime file clock1 db) = Ok tt
                  /\ snd (processFile core runtime file clock1 db)
                     = snd (processFile_body core runtime file clock1 db)).
  { revert Hfirst. unfold processFile. rewrite Hprivate.
    destruct (processFile_body core runtime file clock1 db) as [[[]|err] db1];
      simpl; [auto | discriminate]. }
  destruct Hbody as [Hok Hsnd]. rewrite Hsnd. specialize (Hid Hok).
  destruct (embed core (String.substring 0 (Z.to_nat 8192) (file_content file)))
    as [e|err] eqn:Hembed.
  - now apply (processFile_on_stored_private_file js jp io core agent user file
                 clock2 _ e).
  - revert Hok. unfold processFile_body. rewrite Hembed. discriminate.
Qed.

Lemma processFile_private_twice_throws_witness :
  truthy_bool (file_isShared private_file) = false
  /\ fst (processFile sample_core sqlite_runtime private_file (clock_from 10)
            sample_db) = Ok tt
  /\ fst (processFile sample_core sqlite_runtime private_file (clock_from 20)
            (snd (processFile sample_core sqlite_runtime private_file
                    (clock_from 10) sample_db)))
     = Throw pk_error.
Proof.
  assert (Hfirst : fst (processFile sample_core sqlite_runtime private_file
                          (clock_from 10) sample_db) = Ok tt)
    by (vm_compute; reflexivity).
  split; [reflexivity|]. split; [exact Hfirst|].
  exact (f_equal fst
           (processFile_private_twice_throws sample_stringify sample_parse
              no_faults sample_core "agent-1" (Some "user-1") private_file
              (clock_from 10) (clock_from 20) sample_db eq_refl Hfirst)).
Defined.

(** X25.  A failed ingestion is not undone.  When the main row of a new
    source has been stored and the embedding call fails on the first
    chunk, [processFile] re-throws that error and the main row stays in
    the table, without any chunk.  For a source not flagged shared every
    later run then fails on the primary key of that row. *)
Theorem processFile_keeps_partial_ingest :
  forall (JSON_stringify : list RAGKnowledgeItem -> string)
         (JSON_parse : string -> result (list RAGKnowledgeItem))
         (io : nat -> option JsError) (core : Core) (agent : UUID)
         (user : option UUID) (file : File) (clock : nat -> Z) (db : Db)
         (e0 : Embedding) (chunk : string) (rest : list string) (e : JsError),
    let runtime :=
      {| rt_agentId := agent; currentUserId := user;
         databaseAdapter := sqlite JSON_stringify JSON_parse io |} in
    embed core (String.substring 0 (Z.to_nat 8192) (file_content file)) = Ok e0 ->
    ~ In (file_id core file) (map col_id (knowledge db)) ->
    splitChunks core (file_content file) 512 20 = chunk :: rest ->
    embed core chunk = Throw e ->
    String.eqb (code e) "SQLITE_CONSTRAINT_PRIMARYKEY" = false ->
    exists main,
      processFile core runtime file clock db
      = (Throw e, set_knowledge db (knowledge db ++ [main]))
      /\ col_id main = file_id core file
      /\ col_embedding main = Some e0
      /\ text (col_content main) = file_content file
      /\ (truthy_bool (file_isShared file) = false ->
          forall clock2,
            processFile core runtime file clock2
              (set_knowledge db (knowledge db ++ [main]))
            = (Throw pk_error, set_knowledge db (knowledge db ++ [main]))).
Proof.
  intros js jp io core agent user file clock db e0 chunk rest e runtime
    Hembed Hfresh Hchunks Hfail Hcode.
  eexists. split; [|split; [|split; [|split]]].
  - unfold processFile, processFile_body. rewrite Hembed.
    cbn [runtime databaseAdapter sqlite db_createKnowledge].
    match goal with
    | |- context [Store.createKnowledge ?it ?now db] =>
        destruct (createKnowledge_outcome it now db) as [[Hin _]|[_ ->]];
          [destruct (Hfresh Hin)|]
    end.
    rewrite Hchunks. cbn [store_chunks]. rewrite Hfail, Hcode.
    rewrite andb_false_r. reflexivity.
  - reflexivity.
  - reflexivity.
  - reflexivity.
  - intros Hprivate clock2.
    apply (processFile_on_stored_private_file js jp io core agent user file
             clock2 _ e0 Hprivate Hembed).
    simpl. rewrite map_app. apply in_or_app. right. now left.
Qed.

Lemma processFile_keeps_partial_ingest_witness :
  ~ In (file_id chunk_failing_core private_file) (map col_id (knowledge sample_db))
  /\ map col_id
       (knowledge
          (snd (processFile chunk_failing_core sqlite_runtime private_file
                  (clock_from 10) sample_db)))
     = ["doc"; "doc-chunk-0"; "private-notes.md"]
  /\ fst (processFile chunk_failing_core sqlite_runtime private_file
            (clock_from 10) sample_db)
     = Throw embedding_down.
Proof.
  assert (Hfresh : ~ In (file_id chunk_failing_core private_file)
                     (map col_id (knowledge sample_db))).
  { simpl. intuition discriminate. }
  split; [exact Hfresh|].
  destruct (processFile_keeps_partial_ingest sample_stringify sample_parse
              no_faults chunk_failing_core "agent-1" (Some "user-1")
              private_file (clock_from 10) sample_db
              [inject_Z 9] "first" ["second"] embedding_down
              eq_refl Hfresh eq_refl eq_refl eq_refl)
    as (main & Hrun & Hid & _).
  fold sqlite_runtime in Hrun. rewrite Hrun. simpl fst. simpl snd.
  split; [|reflexivity].
  change (map col_id ([doc_row; doc_chunk_row] ++ [main])
          = ["doc"; "doc-chunk-0"; "private-notes.md"]).
  simpl. rewrite Hid. reflexivity.
Defined.

Lemma removeKnowledge_for_user_keeps_shared_table
  (io : nat -> option JsError) (id : UUID) (u : UUID) (db : Db) :
  u <> "" ->
  let db' := snd (Store.removeKnowledge io id (Some u) db) in
  knowledge db' = knowledge db
  /\ cache db' = cache db
  /\ forall v, v <> u -> user_table db' v = user_table db v.
Proof.
  intros Hu. apply String.eqb_neq in Hu.
  unfold Store.removeKnowledge. rewrite Hu.
  destruct (transaction _ _) as [[n|e] tbl]; simpl;
    (split; [reflexivity|]; split; [reflexivity|]);
    intros v Hv; unfold user_table; simpl;
    now rewrite lookup_insert_ne by congruence.
Qed.

Lemma removeKnowledge_scan_order (io : nat -> option JsError) (id : UUID)
  (userId : option UUID) (db : Db) :
  scan_order (snd (Store.removeKnowledge io id userId db)) = scan_order db.
Proof.
  unfold Store.removeKnowledge, base_removeKnowledge.
  destruct userId as [u|]; [destruct (String.eqb u "")|];
    destruct (transaction _ _) as [[n|e] tbl]; reflexivity.
Qed.

(** X26.  With a current user the sweep cannot remove what it lists.
    [cleanupDeletedKnowledgeFiles] lists the documents of the shared
    [knowledge] table and removes the ones whose file is gone through
    [removeKnowledge(id, currentUserId)], which runs against the current
    user's table.  So for a runtime with a current user the shared table
    and the cache are after the sweep as they were before, whatever
    files exist, and every other user's table is untouched. *)
Theorem cleanup_with_current_user_keeps_shared_table :
  forall (JSON_stringify : list RAGKnowledgeItem -> string)
         (JSON_parse : string -> result (list RAGKnowledgeItem))
         (io : nat -> option JsError) (agent : UUID) (u : UUID)
         (file_exists : string -> bool) (db : Db),
    u <> "" ->
    let runtime :=
      {| rt_agentId := agent; currentUserId := Some u;
         databaseAdapter := sqlite JSON_stringify JSON_parse io |} in
    let db' := Cleanup.cleanupDeletedKnowledgeFiles runtime file_exists db in
    knowledge db' = knowledge db
    /\ cache db' = cache db
    /\ (forall v, v <> u -> user_table db' v = user_table db v)
    /\ fst (Cleanup.listAllKnowledge runtime agent db')
       = fst (Cleanup.listAllKnowledge runtime agent db).
Proof.
  intros js jp io agent u file_exists db Hu runtime db'.
  assert (Hsweep : forall docs db0,
             let db1 := Cleanup.sweep runtime file_exists (Some u) docs db0 in
             knowledge db1 = knowledge db0
             /\ cache db1 = cache db0
             /\ scan_order db1 = scan_order db0
             /\ forall v, v <> u -> user_table db1 v = user_table db0 v).
  { induction docs as [|d docs IH]; intros db0; simpl; [auto|].
    destruct (file_exists _); simpl; [apply IH|].
    unfold Manager.removeKnowledge, or_else.
    cbn [runtime databaseAdapter sqlite db_removeKnowledge currentUserId].
    assert (Htruthy : truthy_str (Some u) = true).
    { simpl. apply String.eqb_neq in Hu. now rewrite Hu. }
    rewrite Htruthy.
    destruct (removeKnowledge_for_user_keeps_shared_table io (id d) u db0 Hu)
      as (H1 & H2 & H3).
    destruct (IH (snd (Store.removeKnowledge io (id d) (Some u) db0)))
      as (H4 & H5 & Hs & H6).
    split; [congruence|]. split; [congruence|].
    split; [now rewrite Hs, removeKnowledge_scan_order|].
    intros v Hv. rewrite H6, H3; auto. }
  assert (Hdb : knowledge db' = knowledge db
                /\ cache db' = cache db
                /\ scan_order db' = scan_order db
                /\ forall v, v <> u -> user_table db' v = user_table db v).
  { subst db'. unfold Cleanup.cleanupDeletedKnowledgeFiles, Cleanup.listAllKnowledge.
    cbn [runtime databaseAdapter sqlite db_getKnowledge currentUserId rt_agentId].
    apply Hsweep. }
  destruct Hdb as (H1 & H2 & Hs & H3). repeat split; auto.
  unfold Cleanup.listAllKnowledge.
  cbn [runtime databaseAdapter sqlite db_getKnowledge fst].
  unfold Store.getKnowledge. now rewrite H1, Hs.
Qed.

Lemma cleanup_with_current_user_keeps_shared_table_witness :
  "user-1" <> ""
  /\ Forall (fun r => Cleanup.orphan (fun _ => false) "agent-1" r = true
                      \/ Str.includes "chunk" (col_id r) = true)
       (knowledge sample_db)
  /\ knowledge (Cleanup.cleanupDeletedKnowledgeFiles sqlite_runtime
                  (fun _ => false) sample_db)
     = knowledge sample_db.
Proof.
  split; [discriminate|]. split.
  - constructor; [left; vm_compute; reflexivity|].
    constructor; [right; vm_compute; reflexivity|]. constructor.
  - refine (proj1 (cleanup_with_current_user_keeps_shared_table
                     sample_stringify sample_parse no_faults "agent-1" "user-1"
                     (fun _ => false) sample_db _)).
    discriminate.
Defined.

Lemma existsb_false_iff {A} (p : A -> bool) (l : list A) :
  existsb p l = false <-> forall x, In x l -> p x = false.
Proof.
  induction l as [|x l IH]; simpl.
  - split; [intros _ y []|reflexivity].
  - rewrite orb_false_iff, IH. split.
    + intros [H1 H2] y [<-|Hy]; auto.
    + intros H. split; [apply H; now left|]. intros y Hy. apply H. now right.
Qed.

(** X27.  Without a current user the sweep removes the orphans and their
    chunks, and nothing else.  For a runtime without a current user and
    an engine that does not fail, when no orphan's id contains [*]: the
    shared table after [cleanupDeletedKnowledgeFiles] holds exactly the
    rows it held before that are neither an orphan (a row listed for the
    agent whose id does not contain [chunk] and whose source file does
    not exist) nor carry the id of one nor name one as their
    [originalId]. *)
Theorem cleanup_removes_orphans_and_their_chunks :
  forall (JSON_stringify : list RAGKnowledgeItem -> string)
         (JSON_parse : string -> result (list RAGKnowledgeItem))
         (io : nat -> option JsError) (agent : UUID) (user : option UUID)
         (file_exists : string -> bool) (db : Db),
    truthy_str user = false ->
    (forall n, io n = None) ->
    (forall o, In o (knowledge db) ->
               Cleanup.orphan file_exists agent o = true ->
               Str.includes "*" (col_id o) = false) ->
    let runtime :=
      {| rt_agentId := agent; currentUserId := user;
         databaseAdapter := sqlite JSON_stringify JSON_parse io |} in
    let db' := Cleanup.cleanupDeletedKnowledgeFiles runtime file_exists db in
    forall r,
      In r (knowledge db') <->
      In r (knowledge db)
      /\ forall o, In o (knowledge db) ->
                   Cleanup.orphan file_exists agent o = true ->
                   col_id r <> col_id o
                   /\ originalId (metadata (col_content r)) <> Some (col_id o).
Proof.
  intros js jp io agent user file_exists db Huser Hio Hstar runtime db' r.
  set (missing := fun d : RAGKnowledgeItem =>
         negb (file_exists (match source (metadata (content d)) with
                            | Some p => p
                            | None => ""
                            end))).
  assert (Hsweep : forall docs db0,
             (forall d, In d docs -> missing d = true ->
                        Str.includes "*" (id d) = false) ->
             knowledge (Cleanup.sweep runtime file_exists user docs db0)
             = List.filter
                 (fun r => negb (existsb
                                   (fun d => missing d
                                             && (has_id (id d) r
                                                 || chunk_of (id d) r))
                                   docs))
                 (knowledge db0)).
  { induction docs as [|d docs IH]; intros db0 Hdocs.
    - simpl. symmetry. apply forallb_filter_id. apply forallb_forall. auto.
    - cbn [Cleanup.sweep]. fold (missing d).
      assert (Hrest : forall d', In d' docs -> missing d' = true ->
                                 Str.includes "*" (id d') = false)
        by (intros d' Hd'; apply Hdocs; now right).
      destruct (missing d) eqn:Hm.
      + rewrite (IH _ Hrest).
        unfold Manager.removeKnowledge, or_else.
        cbn [runtime databaseAdapter sqlite db_removeKnowledge currentUserId].
        rewrite Huser.
        assert (Hrm : knowledge (snd (Store.removeKnowledge io (id d) user db0))
                      = List.filter
                          (fun r => negb (has_id (id d) r || chunk_of (id d) r))
                          (knowledge db0)).
        { unfold Store.removeKnowledge, base_removeKnowledge.
          destruct (removeKnowledge_txn_exact io (id d) (knowledge db0)
                      (Hdocs d (or_introl eq_refl) Hm))
            as [(n & Ht & _)|(e & _ & He)].
          - destruct user as [u|];
              [simpl in Huser; apply negb_false_iff in Huser; rewrite Huser|];
              rewrite Ht; reflexivity.
          - rewrite !Hio in He. intuition discriminate. }
        rewrite Hrm, filter_filter. apply filter_ext. intros x.
        cbn [existsb]. rewrite Hm. cbn [andb]. symmetry. apply negb_orb.
      + rewrite (IH _ Hrest). apply filter_ext. intros x.
        cbn [existsb]. rewrite Hm. reflexivity. }
  subst db'. unfold Cleanup.cleanupDeletedKnowledgeFiles, Cleanup.listAllKnowledge.
  cbn [runtime databaseAdapter sqlite db_getKnowledge currentUserId rt_agentId].
  set (listed := Store.getKnowledge None agent None db).
  assert (Hlisted : forall o, In o listed <->
                              In o (knowledge db)
                              /\ (Sql.text_eq (col_agentId o) agent
                                  || (col_isShared o =? 1)%Z) = true).
  { intros o. subst listed. unfold Store.getKnowledge. simpl.
    rewrite order_by_In, filter_In, andb_true_r. reflexivity. }
  assert (Horphan : forall o, In o listed ->
             Cleanup.is_parent_document (item_of_row o) && missing (item_of_row o)
             = Cleanup.orphan file_exists agent o).
  { intros o Ho. apply Hlisted in Ho as [_ Hl].
    unfold Cleanup.orphan, Cleanup.is_parent_document, missing. rewrite Hl.
    reflexivity. }
  rewrite Hsweep.
  - rewrite filter_In, negb_true_iff, existsb_false_iff.
    split; intros [Hr Hnone]; (split; [exact Hr|]).
    + intros o Ho Horph.
      assert (Hol : In o listed).
      { apply Hlisted. split; [exact Ho|].
        unfold Cleanup.orphan in Horph.
        repeat (apply andb_prop in Horph as [Horph _]). exact Horph. }
      specialize (Hnone (item_of_row o)).
      rewrite <- (Horphan o Hol) in Horph.
      apply andb_prop in Horph as [Hparent Hmiss].
      assert (Hin : In (item_of_row o)
                      (List.filter Cleanup.is_parent_document
                         (map item_of_row listed))).
      { apply filter_In. split; [now apply in_map | exact Hparent]. }
      specialize (Hnone Hin). rewrite Hmiss in Hnone. simpl in Hnone.
      apply orb_false_iff in Hnone as [Hidne Hchunk].
      unfold has_id in Hidne. apply String.eqb_neq in Hidne.
      split; [exact Hidne|].
      intros Heq. unfold chunk_of in Hchunk. rewrite Heq in Hchunk.
      simpl in Hchunk. now rewrite String.eqb_refl in Hchunk.
    + intros d Hd. apply filter_In in Hd as [Hd Hparent].
      apply in_map_iff in Hd as (o & <- & Hol).
      destruct (missing (item_of_row o)) eqn:Hmiss; [|reflexivity].
      assert (Horph : Cleanup.orphan file_exists agent o = true).
      { rewrite <- (Horphan o Hol), Hparent, Hmiss. reflexivity. }
      destruct (Hnone o (proj1 (proj1 (Hlisted o) Hol)) Horph) as [Hne Horig].
      simpl. apply orb_false_iff. split.
      * unfold has_id. now apply String.eqb_neq.
      * unfold chunk_of, Sql.text_eq.
        destruct (originalId (metadata (col_content r))) as [p|]; [|reflexivity].
        apply String.eqb_neq. congruence.
  - intros d Hd Hmiss. apply filter_In in Hd as [Hd Hparent].
    apply in_map_iff in Hd as (o & <- & Hol).
    apply (Hstar o); [now apply Hlisted|].
    rewrite <- (Horphan o Hol), Hparent, Hmiss. reflexivity.
Qed.

Lemma cleanup_removes_orphans_and_their_chunks_witness :
  truthy_str (currentUserId shared_runtime) = false
  /\ (forall n, no_faults n = None)
  /\ In far_shared_row
       (knowledge (Cleanup.cleanupDeletedKnowledgeFiles shared_runtime only_b
                     mixed_db))
  /\ ~ In doc_row
         (knowledge (Cleanup.cleanupDeletedKnowledgeFiles shared_runtime only_b
                       mixed_db))
  /\ ~ In doc_chunk_row
         (knowledge (Cleanup.cleanupDeletedKnowledgeFiles shared_runtime only_b
                       mixed_db)).
Proof.
  assert (Hstar : forall o, In o (knowledge mixed_db) ->
                            Cleanup.orphan only_b "agent-1" o = true ->
                            Str.includes "*" (col_id o) = false).
  { intros o [<-|[<-|[<-|[]]]] _; reflexivity. }
  pose proof (cleanup_removes_orphans_and_their_chunks sample_stringify
                sample_parse no_faults "agent-1" None only_b mixed_db
                eq_refl (fun _ => eq_refl) Hstar) as H.
  split; [reflexivity|]. split; [reflexivity|]. split; [|split].
  - apply H. split; [now left|].
    intros o [<-|[<-|[<-|[]]]] Horph; try discriminate Horph.
    split; discriminate.
  - intros Hin. apply H in Hin as [_ Hnone].
    destruct (Hnone doc_row) as [Hne _];
      [right; now left | reflexivity | now apply Hne].
  - intros Hin. apply H in Hin as [_ Hnone].
    destruct (Hnone doc_row) as [_ Hne];
      [right; now left | reflexivity | now apply Hne].
Defined.

(** X28.  Dropping a cache entry makes the next search run again.  After
    [deleteCache] of the key of a search, for its agent, the entry is
    gone, every other entry is as before, and [searchKnowledge] with the
    same parameters returns what the hybrid statement selects from the
    table now, not what was cached. *)
Theorem deleteCache_forces_fresh_search :
  forall (JSON_stringify : list RAGKnowledgeItem -> string)
         (JSON_parse : string -> result (list RAGKnowledgeItem))
         (params : SearchParams) (db : Db) (results : list RAGKnowledgeItem),
    hybrid_query params db = Ok results ->
    let dropped := deleteCache None (cacheKey params) (sp_agentId params) db in
    fst dropped = true
    /\ getCache (cacheKey params) (sp_agentId params) (snd dropped) = None
    /\ (forall key agentId,
           (key, agentId) <> (cacheKey params, sp_agentId params) ->
           getCache key agentId (snd dropped) = getCache key agentId db)
    /\ fst (Store.searchKnowledge JSON_stringify JSON_parse params (snd dropped))
       = Ok results.
Proof.
  intros js jp params db results Hq dropped. subst dropped.
  unfold deleteCache. cbn [fst snd].
  assert (Hgone : getCache (cacheKey params) (sp_agentId params)
                    (set_cache db (delete (cacheKey params, sp_agentId params)
                                     (cache db))) = None).
  { unfold getCache. simpl. apply lookup_delete_eq. }
  split; [reflexivity|]. split; [exact Hgone|]. split.
  - intros key agentId Hne. unfold getCache. simpl.
    now apply lookup_delete_ne.
  - unfold Store.searchKnowledge. rewrite Hgone. cbn [truthy_str].
    replace (hybrid_query params (set_cache db _)) with (hybrid_query params db)
      by reflexivity.
    now rewrite Hq.
Qed.

Lemma deleteCache_forces_fresh_search_witness :
  hybrid_query tea_query stale_db = Ok []
  /\ (exists stale,
         fst (Store.searchKnowledge sample_stringify sample_parse tea_query
                stale_db) = Ok stale
         /\ map id stale = ["doc"; "doc-chunk-0"])
  /\ fst (Store.searchKnowledge sample_stringify sample_parse tea_query
            (snd (deleteCache None (cacheKey tea_query) (sp_agentId tea_query)
                    stale_db)))
     = Ok [].
Proof.
  assert (Hq : hybrid_query tea_query stale_db = Ok [])
    by (vm_compute; reflexivity).
  split; [exact Hq|]. split.
  - eexists. split; vm_compute; reflexivity.
  - apply (deleteCache_forces_fresh_search sample_stringify sample_parse
             tea_query stale_db [] Hq).
Defined.

Lemma lower_ascii_idem (c : ascii) :
  Str.lower_ascii (Str.lower_ascii c) = Str.lower_ascii c.
Proof.
  destruct c as [[] [] [] [] [] [] [] []]; reflexivity.
Qed.

Lemma lower_ascii_space (c : ascii) :
  Ascii.eqb (Str.lower_ascii c) " " = Ascii.eqb c " ".
Proof.
  destruct c as [[] [] [] [] [] [] [] []]; reflexivity.
Qed.

Lemma toLowerCase_idem (s : string) :
  Str.toLowerCase (Str.toLowerCase s) = Str.toLowerCase s.
Proof.
  induction s as [|c s IH]; simpl; [reflexivity|].
  now rewrite lower_ascii_idem, IH.
Qed.

Lemma split_toLowerCase (s : string) :
  split " " (Str.toLowerCase s) = map Str.toLowerCase (split " " s).
Proof.
  induction s as [|c s IH]; simpl; [reflexivity|].
  rewrite lower_ascii_space, IH.
  destruct (Ascii.eqb c " "); [reflexivity|].
  destruct (split " " s); reflexivity.
Qed.

Lemma split_no_separator (sep : ascii) (s w : string) :
  In w (split sep s) -> Str.includes (String sep "") w = false.
Proof.
  revert w. induction s as [|c s IH]; simpl; intros w Hw.
  - destruct Hw as [<-|[]]. reflexivity.
  - destruct (Ascii.eqb c sep) eqn:E.
    + destruct Hw as [<-|Hw]; [reflexivity | auto].
    + destruct (split sep s) as [|w0 ws] eqn:Es.
      * destruct Hw as [<-|[]]. cbn [Str.includes].
        change (String.prefix (String sep "") (String c ""))
          with (if ascii_dec sep c then String.prefix "" "" else false).
        apply Ascii.eqb_neq in E.
        destruct (ascii_dec sep c); [congruence | reflexivity].
      * destruct Hw as [<-|Hw]; [|apply IH; now right].
        cbn [Str.includes].
        change (String.prefix (String sep "") (String c w0))
          with (if ascii_dec sep c then String.prefix "" w0 else false).
        apply Ascii.eqb_neq in E.
        destruct (ascii_dec sep c); [congruence|].
        simpl. apply IH. now left.
Qed.

(** X29.  [getQueryTerms].  Every term returned is a word of the query in
    lower case: it is longer than two characters, is not a stop word,
    contains no space and no upper-case ASCII letter.  The terms do not
    depend on the case of the query, so a stop word is dropped however
    it is capitalised. *)
Theorem getQueryTerms_spec :
  forall (query : string),
    (forall term, In term (getQueryTerms query) ->
       In term (map Str.toLowerCase (split " " query))
       /\ (2 < String.length term)%nat
       /\ ~ In term stopWords
       /\ Str.includes " " term = false
       /\ Str.toLowerCase term = term)
    /\ getQueryTerms (Str.toLowerCase query) = getQueryTerms query.
Proof.
  intros query. split.
  - intros term Hterm. unfold getQueryTerms in Hterm.
    apply filter_In in Hterm as [Hterm Hstop].
    apply filter_In in Hterm as [Hword Hlen].
    assert (Hsplit := Hword). rewrite split_toLowerCase in Hword.
    split; [exact Hword|]. split; [now apply Nat.ltb_lt|]. split; [|split].
    + intros Hin. apply negb_true_iff in Hstop.
      assert (existsb (String.eqb term) stopWords = true); [|congruence].
      apply existsb_exists. exists term. split; [exact Hin|].
      apply String.eqb_refl.
    + now apply (split_no_separator " " (Str.toLowerCase query)).
    + apply in_map_iff in Hword as (w & <- & _). apply toLowerCase_idem.
  - unfold getQueryTerms. now rewrite toLowerCase_idem.
Qed.

Lemma getQueryTerms_spec_witness :
  getQueryTerms "What IS the price of green TEA" = ["price"; "green"; "tea"]
  /\ Str.includes " " "green" = false.
Proof.
  split; [vm_compute; reflexivity|].
  refine (proj1 (proj2 (proj2 (proj2
            (proj1 (getQueryTerms_spec "What IS the price of green TEA")
               "green" _))))).
  vm_compute. auto.
Defined.

Lemma close_pair_perm (d : nat) (l l' : list nat) :
  Permutation l l' ->
  (exists l1 a l2 b l3,
      l = l1 ++ a :: l2 ++ b :: l3 /\ ((a - b) + (b - a) <= d)%nat) ->
  exists l1 a l2 b l3,
    l' = l1 ++ a :: l2 ++ b :: l3 /\ ((a - b) + (b - a) <= d)%nat.
Proof.
  intros Hperm (l1 & a & l2 & b & l3 & -> & Hd).
  assert (Ha : In a l').
  { eapply Permutation_in; [exact Hperm|]. apply in_elt. }
  apply in_split in Ha as (k1 & k2 & ->).
  apply Permutation_app_inv in Hperm.
  assert (Hb : In b (k1 ++ k2)).
  { eapply Permutation_in; [exact Hperm|].
    apply in_or_app. right. apply in_elt. }
  apply in_app_or in Hb as [Hb|Hb]; apply in_split in Hb as (m1 & m2 & ->).
  - exists m1, b, m2, a, k2. split; [now rewrite <- app_assoc | lia].
  - exists k1, a, m1, b, m2. split; [reflexivity | exact Hd].
Qed.

Lemma adjacent_within_close_pair (d : nat) (l : list nat) :
  adjacent_within d l = true ->
  exists l1 a l2 b l3,
    l = l1 ++ a :: l2 ++ b :: l3 /\ ((a - b) + (b - a) <= d)%nat.
Proof.
  induction l as [|a l IH]; [discriminate|].
  destruct l as [|b l]; [discriminate|].
  cbn [adjacent_within]. intros H. apply orb_prop in H as [H|H].
  - exists [], a, [], b, l. split; [reflexivity|]. now apply Nat.leb_le.
  - destruct (IH H) as (l1 & x & l2 & y & l3 & -> & Hd).
    exists (a :: l1), x, l2, y, l3. split; [reflexivity | exact Hd].
Qed.

Lemma close_pair_adjacent_within (d : nat) (l : list nat) :
  StronglySorted (fun a b => Nat.leb a b = true) l ->
  (exists l1 a l2 b l3,
      l = l1 ++ a :: l2 ++ b :: l3 /\ ((a - b) + (b - a) <= d)%nat) ->
  adjacent_within d l = true.
Proof.
  intros Hs (l1 & a & l2 & b & l3 & -> & Hd).
  induction l1 as [|x l1 IH].
  - simpl in *. inversion Hs as [|? ? Hs' Hall]; subst.
    rewrite List.Forall_forall in Hall.
    assert (Hab : (a <= b)%nat).
    { apply Nat.leb_le, Hall. apply in_or_app. right. now left. }
    destruct l2 as [|c l2]; cbn [app adjacent_within].
    + apply orb_true_iff. left. apply Nat.leb_le. lia.
    + assert (Hac : (a <= c)%nat) by (apply Nat.leb_le, Hall; now left).
      assert (Hcb : (c <= b)%nat).
      { inversion Hs' as [|? ? _ Hall']; subst.
        rewrite List.Forall_forall in Hall'.
        apply Nat.leb_le, Hall'. apply in_or_app. right. now left. }
      apply orb_true_iff. left. apply Nat.leb_le. lia.
  - inversion Hs as [|? ? Hs' _]; subst. specialize (IH Hs').
    cbn [app]. destruct (l1 ++ a :: l2 ++ b :: l3) as [|y rest] eqn:E;
      [destruct l1; discriminate|].
    change (((x - y) + (y - x) <=? d)%nat || adjacent_within d (y :: rest)
            = true).
    rewrite IH. apply orb_true_r.
Qed.

(** X30.  [hasProximityMatch] holds exactly when the text is not empty
    and two entries of the list of occurrences lie at most five words
    apart.  The list has one entry, the index of the word, for each term
    and each non-empty word of the lower-cased text that contains it: the
    two entries may belong to the same term, or to two terms found in
    one and the same word. *)
Theorem hasProximityMatch_iff_two_close_occurrences :
  forall (text : string) (terms : list string),
    let words :=
      List.filter (fun w => (0 <? String.length w)%nat)
        (split " " (Str.toLowerCase text)) in
    let occurrences := flat_map (fun term => positions term words 0) terms in
    hasProximityMatch text terms = true <->
    text <> ""
    /\ exists l1 a l2 b l3,
         occurrences = l1 ++ a :: l2 ++ b :: l3
         /\ ((a - b) + (b - a) <= 5)%nat.
Proof.
  intros text terms words occurrences. unfold hasProximityMatch.
  fold words. fold occurrences.
  assert (Hsorted : StronglySorted (fun a b => Nat.leb a b = true)
                      (Sql.order_by Nat.leb occurrences)).
  { apply order_by_sorted.
    - intros a b. rewrite !Nat.leb_le. lia.
    - intros a b c. rewrite !Nat.leb_le. lia. }
  split.
  - destruct (String.eqb text "") eqn:Et; [discriminate|].
    cbn [orb]. destruct (length terms =? 0)%nat; [discriminate|].
    destruct (length _ <? 2)%nat; [discriminate|].
    intros H. split; [now apply String.eqb_neq|].
    apply (close_pair_perm 5 (Sql.order_by Nat.leb occurrences));
      [apply order_by_perm | now apply adjacent_within_close_pair].
  - intros [Ht Hclose]. apply String.eqb_neq in Ht. rewrite Ht. cbn [orb].
    assert (Hlen : (2 <= length occurrences)%nat).
    { destruct Hclose as (l1 & a & l2 & b & l3 & -> & _).
      rewrite length_app. simpl. rewrite length_app. simpl. lia. }
    destruct terms as [|t terms]; [simpl in Hlen; lia|].
    cbn [length Nat.eqb].
    rewrite order_by_length.
    destruct (length occurrences <? 2)%nat eqn:E;
      [apply Nat.ltb_lt in E; lia|].
    apply close_pair_adjacent_within; [exact Hsorted|].
    apply (close_pair_perm 5 occurrences); [|exact Hclose].
    symmetry. apply order_by_perm.
Qed.

Lemma hasProximityMatch_iff_two_close_occurrences_witness :
  hasProximityMatch "Teapot" ["tea"; "pot"] = true
  /\ hasProximityMatch "tea one two three four five six pot" ["tea"; "pot"]
     = false.
Proof.
  split.
  - apply hasProximityMatch_iff_two_close_occurrences.
    split; [discriminate|].
    exists [], 0%nat, [], 0%nat, []. split; [vm_compute; reflexivity | simpl; lia].
  - vm_compute. reflexivity.
Defined.

End ManagerMore.
